(** * Route-safety engine of the women-safety-app: a shallow embedding

    The development follows the Python sources
      - [app.py]                   (stand-alone backend),
      - [app/routes.py]            (blueprint copy of the same engine),
      - [app/safety/guardrails.py] (guardrail engine),
      - [app/ml/feature_extraction.py], [app/ml/inference.py].

    Python [float]s are modelled by real numbers: arithmetic is exact and
    rounding error is not represented.  The only non-finite value the code
    writes down itself is [float('inf')]; results of the distance function
    therefore live in [pyfloat], the reals extended with the IEEE special
    values.  Lengths, indices and counters are [nat], clock hours are [Z],
    lists are [list], dictionaries with a known key set are records whose
    optional keys are [option] fields. *)

From Stdlib Require Import Reals Lra Lia ZArith String Bool Psatz List.
From Stdlib Require Import Permutation DecimalString.
From Stdlib Require Import FunctionalExtensionality.
Import ListNotations.

#[local] Open Scope R_scope.

(* ------------------------------------------------------------------ *)
(** ** Comparisons on reals as booleans *)

Definition Rltb (x y : R) : bool := if Rlt_dec x y then true else false.
Definition Rleb (x y : R) : bool := if Rle_dec x y then true else false.
Definition Rgtb (x y : R) : bool := Rltb y x.
Definition Rgeb (x y : R) : bool := Rleb y x.

(** Python's builtin [min(a, b)] returns [b] when [b < a], else [a];
    [max(a, b)] returns [b] when [b > a], else [a]. *)
Definition py_min (a b : R) : R := if Rltb b a then b else a.
Definition py_max (a b : R) : R := if Rgtb b a then b else a.

(** [numpy.clip(x, lo, hi)], that is [minimum(maximum(x, lo), hi)]. *)
Definition np_clip (x lo hi : R) : R := Rmin (Rmax x lo) hi.

(** [x ** y] for a float exponent.  Every base the engine raises is a
    count or a mean of counts, hence non-negative: [0 ** y] is [0.0] for
    [y > 0] and a positive base gives [exp (y * ln x)]. *)
Definition py_pow (x y : R) : R := if Rltb 0 x then Rpower x y else 0.

(** [round(x)]: to the nearest integer, ties to the even one. *)
Definition round_half_even (x : R) : Z :=
  let f := Zfloor x in
  let d := x - IZR f in
  if Rltb d (1 / 2) then f
  else if Rltb (1 / 2) d then (f + 1)%Z
  else if Z.even f then f else (f + 1)%Z.

(** [round(x, ndigits)]. *)
Definition py_round (x : R) (ndigits : nat) : R :=
  IZR (round_half_even (x * 10 ^ ndigits)) / 10 ^ ndigits.

(** [str(n)] for a non-negative int. *)
Definition str_of_nat (n : nat) : string :=
  NilEmpty.string_of_uint (Nat.to_uint n).

(* ------------------------------------------------------------------ *)
(** ** Python sequences *)

(** [l[::k]] for [k >= 1]: the elements at indices [0, k, 2k, ...].
    [skip] counts the elements still to pass over. *)
Fixpoint stride_from {A : Type} (k skip : nat) (l : list A) : list A :=
  match l with
  | [] => []
  | x :: t =>
      match skip with
      | O => x :: stride_from k (k - 1) t
      | S s => stride_from k s t
      end
  end.

Definition py_stride {A : Type} (l : list A) (k : nat) : list A :=
  stride_from k 0 l.

(** [len(range(start, stop, step))] and [range(start, stop, step)],
    for [step >= 1]. *)
Definition py_range_len (start stop step : nat) : nat :=
  ((stop - start + (step - 1)) / step)%nat.

Definition py_range (start stop step : nat) : list nat :=
  map (fun j => (start + j * step)%nat) (seq 0 (py_range_len start stop step)).

(* ------------------------------------------------------------------ *)
(** ** Exceptions *)

Inductive exn : Type :=
| TypeError
| ValueError
| KeyError
| ZeroDivisionError
| OverflowError.

Inductive result (A : Type) : Type :=
| Ret (a : A)
| Raise (e : exn).

Arguments Ret {A} a.
Arguments Raise {A} e.

Definition bind {A B : Type} (m : result A) (k : A -> result B) : result B :=
  match m with
  | Ret a => k a
  | Raise e => Raise e
  end.

Notation "x <- m ;; k" := (bind m (fun x => k))
  (at level 61, m at next level, right associativity).

Notation "' pat <- m ;; k" := (bind m (fun x => match x with pat => k end))
  (at level 61, pat pattern, m at next level, right associativity).

(** [try: body  except Exception: return dflt]. *)
Definition try_except {A : Type} (body : result A) (dflt : A) : A :=
  match body with
  | Ret a => a
  | Raise _ => dflt
  end.

Definition str_of_exn (e : exn) : string :=
  match e with
  | TypeError => "TypeError"
  | ValueError => "ValueError"
  | KeyError => "KeyError"
  | ZeroDivisionError => "ZeroDivisionError"
  | OverflowError => "OverflowError"
  end.

(* ------------------------------------------------------------------ *)
(** ** Python floats with the IEEE special values *)

Module PyFloat.

Inductive pyfloat : Type :=
| Fin (r : R)
| PInf
| NInf
| NaN.

Definition neg (x : pyfloat) : pyfloat :=
  match x with
  | Fin r => Fin (- r)
  | PInf => NInf
  | NInf => PInf
  | NaN => NaN
  end.

Definition add (x y : pyfloat) : pyfloat :=
  match x, y with
  | NaN, _ | _, NaN => NaN
  | Fin a, Fin b => Fin (a + b)
  | PInf, NInf | NInf, PInf => NaN
  | PInf, _ | _, PInf => PInf
  | NInf, _ | _, NInf => NInf
  end.

Definition sub (x y : pyfloat) : pyfloat := add x (neg y).

(** An infinity of the given sign multiplied or divided by the finite
    non-zero [r]; [inf * 0] is [nan]. *)
Definition scale_inf (positive : bool) (r : R) : pyfloat :=
  if Rltb 0 r then (if positive then PInf else NInf)
  else if Rltb r 0 then (if positive then NInf else PInf)
  else NaN.

Definition mul (x y : pyfloat) : pyfloat :=
  match x, y with
  | NaN, _ | _, NaN => NaN
  | Fin a, Fin b => Fin (a * b)
  | PInf, Fin r | Fin r, PInf => scale_inf true r
  | NInf, Fin r | Fin r, NInf => scale_inf false r
  | PInf, PInf | NInf, NInf => PInf
  | PInf, NInf | NInf, PInf => NInf
  end.

(** Float division.  Python raises [ZeroDivisionError] on a zero divisor;
    both call sites in the engine guard the divisor ([direct_distance < 0.1]
    returns early, [base_distance > 0] is tested first), so that case is
    never reached and the model yields [NaN] there. *)
Definition div (x y : pyfloat) : pyfloat :=
  match x, y with
  | NaN, _ | _, NaN => NaN
  | Fin a, Fin b => if Req_dec_T b 0 then NaN else Fin (a / b)
  | Fin _, PInf | Fin _, NInf => Fin 0
  | PInf, Fin r => if Req_dec_T r 0 then NaN else scale_inf true r
  | NInf, Fin r => if Req_dec_T r 0 then NaN else scale_inf false r
  | PInf, PInf | PInf, NInf | NInf, PInf | NInf, NInf => NaN
  end.

Definition ltb (x y : pyfloat) : bool :=
  match x, y with
  | NaN, _ | _, NaN => false
  | Fin a, Fin b => Rltb a b
  | NInf, NInf => false
  | NInf, _ => true
  | _, NInf => false
  | PInf, _ => false
  | Fin _, PInf => true
  end.

Definition gtb (x y : pyfloat) : bool := ltb y x.

Definition min (a b : pyfloat) : pyfloat := if ltb b a then b else a.
Definition max (a b : pyfloat) : pyfloat := if gtb b a then b else a.

End PyFloat.

Export PyFloat.

(* ------------------------------------------------------------------ *)
(** ** Untyped Python values reaching the numeric helpers *)

(** The values on which [float(x)] and [bool(x)] are decided: a finite
    float, an int of any size, a bool, a string that [float] parses to a
    finite number (carrying the number it denotes), a string that [float]
    rejects, and [None].  The non-finite floats [inf] and [nan], and the
    strings that [float] parses to them, are not among these values. *)
Inductive pyval : Type :=
| VFloat (r : R)
| VInt (z : Z)
| VBool (b : bool)
| VNumStr (s : string) (r : R)
| VBadStr (s : string)
| VNone.

(** Converting an int to a float rounds it to 53 bits; the conversion
    raises [OverflowError] when the rounded value reaches [2 ** 1024],
    that is from [2 ** 1024 - 2 ** 970] on in absolute value. *)
Definition int_overflows (z : Z) : bool :=
  (2 ^ 1024 - 2 ^ 970 <=? Z.abs z)%Z.

(** Builtin [float(x)]. *)
Definition py_float (v : pyval) : result R :=
  match v with
  | VFloat r => Ret r
  | VInt z => if int_overflows z then Raise OverflowError else Ret (IZR z)
  | VBool b => Ret (if b then 1 else 0)
  | VNumStr _ r => Ret r
  | VBadStr _ => Raise ValueError
  | VNone => Raise TypeError
  end.

(** Builtin [bool(x)]. *)
Definition py_bool (v : pyval) : bool :=
  match v with
  | VFloat r => if Req_dec_T r 0 then false else true
  | VInt z => negb (z =? 0)%Z
  | VBool b => b
  | VNumStr s _ | VBadStr s => negb (s =? "")%string
  | VNone => false
  end.

(** [math.radians(x)]: real numbers only, a [str] or [None] is a
    [TypeError]; an int is converted to a float first, which may
    overflow. *)
Definition radians (x : R) : R := x * (PI / 180).

Definition math_radians (v : pyval) : result R :=
  match v with
  | VFloat r => Ret (radians r)
  | VInt z =>
      if int_overflows z then Raise OverflowError else Ret (radians (IZR z))
  | VBool b => Ret (radians (if b then 1 else 0))
  | VNumStr _ _ | VBadStr _ | VNone => Raise TypeError
  end.

(** [math.sqrt] and [math.asin] raise [ValueError] outside their domain. *)
Definition math_sqrt (x : R) : result R :=
  if Rltb x 0 then Raise ValueError else Ret (sqrt x).

Definition math_asin (x : R) : result R :=
  if Rleb (-1) x && Rleb x 1 then Ret (asin x) else Raise ValueError.

(* ------------------------------------------------------------------ *)
(** ** Great-circle distance: the statements the three copies share *)

(** The haversine term [a] from the four angles in radians. *)
Definition haversine_a (lat1 lon1 lat2 lon2 : R) : R :=
  let dlat := lat2 - lat1 in
  let dlon := lon2 - lon1 in
  (sin (dlat / 2)) ^ 2 + cos lat1 * cos lat2 * (sin (dlon / 2)) ^ 2.

(** [a = ...; c = 2 * asin(sqrt(a)); return c * 6371]. *)
Definition haversine_rad (lat1 lon1 lat2 lon2 : R) : result R :=
  let a := haversine_a lat1 lon1 lat2 lon2 in
  s <- math_sqrt a ;;
  t <- math_asin s ;;
  Ret (2 * t * 6371).

(* ------------------------------------------------------------------ *)
(** ** Data model *)

(** A polyline point [[lat, lon]]. *)
Definition point : Type := (R * R)%type.

Record Coordinate : Type := mkCoord { lat : R; lon : R }.

(** A pandas [DataFrame] of floats: its column labels and its rows.  A
    row is read by column label; only the labels in [df_columns] exist,
    selecting any other label is a [KeyError]. *)
Record DataFrame : Type := mkDataFrame {
  df_columns : list string;
  df_rows : list (string -> R)
}.

Definition has_column (df : DataFrame) (c : string) : bool :=
  existsb (String.eqb c) (df_columns df).

(** [len(df)]. *)
Definition df_len (df : DataFrame) : nat := length (df_rows df).

(** [df[(abs(df['Latitude'] - lat) < radius) &
        (abs(df['Longitude'] - lon) < radius)]]. *)
Definition df_nearby (df : DataFrame) (lat lon radius : R) : result DataFrame :=
  if has_column df "Latitude" && has_column df "Longitude" then
    Ret (mkDataFrame (df_columns df)
           (filter (fun row =>
                      Rltb (Rabs (row "Latitude"%string - lat)) radius &&
                      Rltb (Rabs (row "Longitude"%string - lon)) radius)
                   (df_rows df)))
  else Raise KeyError.

Definition Rsum (l : list R) : R := fold_left Rplus l 0.

(** [df[c].mean()], used on non-empty selections only. *)
Definition df_mean (df : DataFrame) (c : string) : result R :=
  if has_column df c then
    Ret (Rsum (map (fun row => row c) (df_rows df)) / INR (df_len df))
  else Raise KeyError.

(** [datetime]: the fields and methods the engine reads. *)
Record DateTime : Type := mkDateTime {
  hour : Z;
  weekday : Z;
  timestamp : R
}.

(** User preferences as built by the request handler. *)
Record Preferences : Type := mkPreferences {
  prefer_main_roads : bool;
  prefer_well_lit : bool;
  prefer_populated : bool;
  safety_weight : R;
  distance_weight : R
}.

(** The synthetic waypoint [{'lat': .., 'lon': ..}]. *)
Record Waypoint : Type := mkWaypoint { wp_lat : R; wp_lon : R }.

(** *** The routing provider's JSON answer

    Keys the code tests for, or reads inside its [try], are optional. *)
Record OsrmStep : Type := mkOsrmStep {
  maneuver : option (option string);   (* 'maneuver', its 'instruction' *)
  step_name : option string;
  step_distance : option R
}.

Record OsrmLeg : Type := mkOsrmLeg { leg_steps : option (list OsrmStep) }.

Record OsrmRoute : Type := mkOsrmRoute {
  geometry : option (list (R * R));    (* 'coordinates', each [lon, lat] *)
  distance : option R;
  duration : option R;
  legs : option (list OsrmLeg)
}.

Record OsrmJson : Type := mkOsrmJson {
  code : option string;
  routes : option (list OsrmRoute)
}.

(** What the request URL carries. *)
Record OsrmQuery : Type := mkOsrmQuery {
  q_start : point;
  q_end : point;
  q_waypoint : option Waypoint
}.

(** A turn-by-turn instruction kept for display. *)
Record Step : Type := mkStep {
  number : nat;
  instruction : string;
  step_dist : R;
  distance_text : string
}.

(** The dict [get_route_from_osrm] builds for one alternative. *)
Record Geometry : Type := mkGeometry {
  route : list point;
  distance_km : R;
  duration_min : R;
  waypoint : option Waypoint;
  steps : list Step
}.

(** The dict [calculate_route_safety_comprehensive] returns. *)
Record SafetyMetrics : Type := mkSafetyMetrics {
  safety_score : R;
  crime_density : R;
  max_crime_exposure : R;
  crime_hotspot_percentage : R;
  lighting_score : R;
  population_score : R;
  traffic_score : R;
  main_road_percentage : R;
  crime_density_score : R
}.

(** The keys of a scorer result beyond the three that the direct
    fallback writes by hand. *)
Record ExtraMetrics : Type := mkExtraMetrics {
  x_crime_hotspot_percentage : R;
  x_lighting_score : R;
  x_population_score : R;
  x_traffic_score : R;
  x_main_road_percentage : R;
  x_crime_density_score : R
}.

(** What the curation loop, or a fallback branch, writes on a route. *)
Record Label : Type := mkLabel {
  rank : nat;
  is_recommended : bool;
  category : string;
  description : string;
  reasons : option (list string);
  warning : option string
}.

(** A route dict as it travels through the optimizer.  [None] in an
    optional field means the key is absent.  The keys [emoji],
    [distance_display], [duration_display] and [safety_display] are
    display strings derived from the other fields and are left out. *)
Record RouteDict : Type := mkRouteDict {
  rd_geometry : Geometry;
  rd_has_waypoint_key : bool;
  rd_safety_score : R;
  rd_crime_density : R;
  rd_max_crime_exposure : R;
  rd_extra : option ExtraMetrics;
  rd_source : option string;
  rd_type : option string;
  rd_composite_score : option R;
  rd_ml_score : option R;
  rd_rule_score : option R;
  rd_guardrail_warnings : option (list string);
  rd_label : option Label
}.

(** [route.get(key, default)] for the metric keys. *)
Definition get_main_road_percentage (r : RouteDict) (dflt : R) : R :=
  match rd_extra r with Some x => x_main_road_percentage x | None => dflt end.
Definition get_lighting_score (r : RouteDict) (dflt : R) : R :=
  match rd_extra r with Some x => x_lighting_score x | None => dflt end.
Definition get_population_score (r : RouteDict) (dflt : R) : R :=
  match rd_extra r with Some x => x_population_score x | None => dflt end.
Definition get_traffic_score (r : RouteDict) (dflt : R) : R :=
  match rd_extra r with Some x => x_traffic_score x | None => dflt end.
Definition get_crime_hotspot_percentage (r : RouteDict) (dflt : R) : R :=
  match rd_extra r with
  | Some x => x_crime_hotspot_percentage x
  | None => dflt
  end.

(** [route_data.update(safety)] on a fresh provider dict, followed by the
    two assignments of ['source'] and ['type']. *)
Definition candidate (g : Geometry) (s : SafetyMetrics)
    (source type : string) : RouteDict :=
  {| rd_geometry := g;
     rd_has_waypoint_key := true;
     rd_safety_score := safety_score s;
     rd_crime_density := crime_density s;
     rd_max_crime_exposure := max_crime_exposure s;
     rd_extra := Some {| x_crime_hotspot_percentage := crime_hotspot_percentage s;
                         x_lighting_score := lighting_score s;
                         x_population_score := population_score s;
                         x_traffic_score := traffic_score s;
                         x_main_road_percentage := main_road_percentage s;
                         x_crime_density_score := crime_density_score s |};
     rd_source := Some source;
     rd_type := Some type;
     rd_composite_score := None;
     rd_ml_score := None;
     rd_rule_score := None;
     rd_guardrail_warnings := None;
     rd_label := None |}.

Definition set_composite_score (r : RouteDict) (c : option R) : RouteDict :=
  {| rd_geometry := rd_geometry r;
     rd_has_waypoint_key := rd_has_waypoint_key r;
     rd_safety_score := rd_safety_score r;
     rd_crime_density := rd_crime_density r;
     rd_max_crime_exposure := rd_max_crime_exposure r;
     rd_extra := rd_extra r;
     rd_source := rd_source r;
     rd_type := rd_type r;
     rd_composite_score := c;
     rd_ml_score := rd_ml_score r;
     rd_rule_score := rd_rule_score r;
     rd_guardrail_warnings := rd_guardrail_warnings r;
     rd_label := rd_label r |}.

(** [route['safety_score'] = 0.75 * rule + 0.25 * ml;
     route['ml_score'] = ml; route['rule_score'] = rule]. *)
Definition set_ml_blend (r : RouteDict) (blended ml rule : R) : RouteDict :=
  {| rd_geometry := rd_geometry r;
     rd_has_waypoint_key := rd_has_waypoint_key r;
     rd_safety_score := blended;
     rd_crime_density := rd_crime_density r;
     rd_max_crime_exposure := rd_max_crime_exposure r;
     rd_extra := rd_extra r;
     rd_source := rd_source r;
     rd_type := rd_type r;
     rd_composite_score := rd_composite_score r;
     rd_ml_score := Some ml;
     rd_rule_score := Some rule;
     rd_guardrail_warnings := rd_guardrail_warnings r;
     rd_label := rd_label r |}.

(** [route['safety_score'] = adjusted_score;
     route['guardrail_warnings'] = warnings]. *)
Definition set_guardrail (r : RouteDict) (adjusted : R)
    (warnings : list string) : RouteDict :=
  {| rd_geometry := rd_geometry r;
     rd_has_waypoint_key := rd_has_waypoint_key r;
     rd_safety_score := adjusted;
     rd_crime_density := rd_crime_density r;
     rd_max_crime_exposure := rd_max_crime_exposure r;
     rd_extra := rd_extra r;
     rd_source := rd_source r;
     rd_type := rd_type r;
     rd_composite_score := rd_composite_score r;
     rd_ml_score := rd_ml_score r;
     rd_rule_score := rd_rule_score r;
     rd_guardrail_warnings := Some warnings;
     rd_label := rd_label r |}.

(** The label assignments, then [route.pop('waypoint', None)] and
    [route.pop('composite_score', None)]. *)
Definition set_label_and_pop (r : RouteDict) (l : Label) : RouteDict :=
  {| rd_geometry := rd_geometry r;
     rd_has_waypoint_key := false;
     rd_safety_score := rd_safety_score r;
     rd_crime_density := rd_crime_density r;
     rd_max_crime_exposure := rd_max_crime_exposure r;
     rd_extra := rd_extra r;
     rd_source := rd_source r;
     rd_type := rd_type r;
     rd_composite_score := None;
     rd_ml_score := rd_ml_score r;
     rd_rule_score := rd_rule_score r;
     rd_guardrail_warnings := rd_guardrail_warnings r;
     rd_label := Some l |}.

(** The label assignments alone (the direct fallback pops nothing). *)
Definition set_label (r : RouteDict) (l : Label) : RouteDict :=
  {| rd_geometry := rd_geometry r;
     rd_has_waypoint_key := rd_has_waypoint_key r;
     rd_safety_score := rd_safety_score r;
     rd_crime_density := rd_crime_density r;
     rd_max_crime_exposure := rd_max_crime_exposure r;
     rd_extra := rd_extra r;
     rd_source := rd_source r;
     rd_type := rd_type r;
     rd_composite_score := rd_composite_score r;
     rd_ml_score := rd_ml_score r;
     rd_rule_score := rd_rule_score r;
     rd_guardrail_warnings := rd_guardrail_warnings r;
     rd_label := Some l |}.

(** The JSON body of an HTTP answer of the optimizer. *)
Inductive Response : Type :=
| Success (routes : list RouteDict) (total_analyzed : nat)
          (message : string) (is_fallback : bool)
| Failure (status : nat) (error : string).

(** The request body: the four coordinates and the five preference keys,
    each possibly absent. *)
Record RequestJson : Type := mkRequestJson {
  start_lat : option pyval;
  start_lon : option pyval;
  end_lat : option pyval;
  end_lon : option pyval;
  req_prefer_main_roads : option pyval;
  req_prefer_well_lit : option pyval;
  req_prefer_populated : option pyval;
  req_safety_weight : option pyval;
  req_distance_weight : option pyval
}.

(** Python library functions left abstract: fixed-point formatting
    [format(x, '.Nf')], [str(x)] of a float, [hashlib.md5(s).hexdigest()],
    and [datetime.fromtimestamp(t).hour] (it depends on the time zone of
    the host). *)
Record PyLib : Type := mkPyLib {
  format_fixed : nat -> R -> string;
  str_float : R -> string;
  md5_hexdigest : string -> string;
  fromtimestamp_hour : R -> Z
}.

(* ------------------------------------------------------------------ *)
(** ** app/safety/guardrails.py *)

Module Guardrails.

(** [haversine_distance]: no [float()] conversion and no handler, so
    exceptions propagate. *)
Definition haversine_distance (lat1 lon1 lat2 lon2 : pyval) : result R :=
  a <- math_radians lat1 ;; b <- math_radians lon1 ;;
  c <- math_radians lat2 ;; d <- math_radians lon2 ;;
  haversine_rad a b c d.

(** A value found in [route_data['steps']]: a dict that may carry the keys
    ['start_location'] and ['end_location'], or a list of floats such as the
    polyline point [[lat, lon]]. *)
Record LatLng : Type := mkLatLng { ll_lat : R; ll_lng : R }.

Inductive StepVal : Type :=
| StepDict (start_location end_location : option LatLng)
| StepList (items : list R).

(** ['start_location' in step] and ['end_location' in step]: key lookup on
    a dict; on a list, membership of the string among the floats, which no
    float equals. *)
Definition has_start_location (s : StepVal) : bool :=
  match s with
  | StepDict (Some _) _ => true
  | StepDict None _ => false
  | StepList items => existsb (fun _ => false) items
  end.

Definition has_end_location (s : StepVal) : bool :=
  match s with
  | StepDict _ (Some _) => true
  | StepDict _ None => false
  | StepList items => existsb (fun _ => false) items
  end.

(** The argument [route_data]: [.get('steps', [])], [.get('duration', 0)]. *)
Record RouteInfo : Type := mkRouteInfo {
  info_steps : option (list StepVal);
  info_duration : option R
}.

(** [step['start_location']] and [step['end_location']], read only after
    the membership test succeeded. *)
Definition start_location_of (s : StepVal) : option LatLng :=
  match s with StepDict a _ => a | StepList _ => None end.

Definition end_location_of (s : StepVal) : option LatLng :=
  match s with StepDict _ b => b | StepList _ => None end.

Definition coords_of (l : option LatLng) : list (R * R) :=
  match l with Some p => [(ll_lat p, ll_lng p)] | None => [] end.

(** The coordinate extraction loop of [apply_safety_guardrails]. *)
Definition extract_route_coords (steps : list StepVal) : list (R * R) :=
  flat_map
    (fun step =>
       (if has_start_location step
        then coords_of (start_location_of step) else []) ++
       (if has_end_location step
        then coords_of (end_location_of step) else []))
    steps.

Section WithLibrary.

Variable lib : PyLib.
Variable now : DateTime.

(** [check_crime_hotspots(route_coords, crime_data, threshold_distance,
    max_crimes)]: returns [(is_safe, max_crime_count, warnings)]. *)
Definition check_crime_hotspots (route_coords : list (R * R))
    (crime_data : DataFrame) (threshold_distance : R) (max_crimes : nat)
  : result (bool * nat * list string) :=
  '(max_crime_count, hotspot_locations) <-
     fold_left
       (fun acc '(lat, lon) =>
          '(max_crime_count, hotspot_locations) <- acc ;;
          nearby_crimes <- df_nearby crime_data lat lon (threshold_distance / 111) ;;
          let crime_count := df_len nearby_crimes in
          let max_crime_count :=
            if (max_crime_count <? crime_count)%nat then crime_count
            else max_crime_count in
          let hotspot_locations :=
            if (max_crimes <? crime_count)%nat
            then hotspot_locations ++ [(lat, lon, crime_count)]
            else hotspot_locations in
          Ret (max_crime_count, hotspot_locations))
       route_coords (Ret (O, [])) ;;
  let is_safe := (max_crime_count <=? max_crimes)%nat in
  let warnings :=
    if negb is_safe then
      [("Route passes through " ++ str_of_nat (length hotspot_locations)
        ++ " crime hotspot(s) (max " ++ str_of_nat max_crime_count
        ++ " crimes within " ++ str_float lib threshold_distance ++ "km)")%string]
    else [] in
  Ret (is_safe, max_crime_count, warnings).

(** [check_lighting_coverage(route_coords, lighting_data,
    min_lights_per_segment)]: returns [(is_safe, avg_lights, warnings)]. *)
Definition check_lighting_coverage (route_coords : list (R * R))
    (lighting_data : DataFrame) (min_lights_per_segment : nat)
  : result (bool * R * list string) :=
  '(light_counts, poorly_lit_segments) <-
     fold_left
       (fun acc '(lat, lon) =>
          '(light_counts, poorly_lit_segments) <- acc ;;
          nearby_lights <- df_nearby lighting_data lat lon 0.005 ;;
          let light_count := df_len nearby_lights in
          Ret (light_counts ++ [light_count],
               if (light_count <? min_lights_per_segment)%nat
               then S poorly_lit_segments else poorly_lit_segments))
       route_coords (Ret ([], O)) ;;
  let avg_lights :=
    match light_counts with
    | [] => 0
    | _ => Rsum (map INR light_counts) / INR (length light_counts)
    end in
  let poorly_lit_pct :=
    match route_coords with
    | [] => 0
    | _ => INR poorly_lit_segments / INR (length route_coords) * 100
    end in
  let is_safe := Rltb poorly_lit_pct 30 in
  let warnings :=
    if negb is_safe then
      [("Route has inadequate lighting: " ++ format_fixed lib 1 poorly_lit_pct
        ++ "% of segments have fewer than "
        ++ str_of_nat min_lights_per_segment ++ " lights")%string]
    else [] in
  Ret (is_safe, avg_lights, warnings).

(** [check_isolated_areas(route_coords, population_data, min_population)]:
    returns [(is_safe, avg_population, warnings)].  The column read is
    ['population']. *)
Definition check_isolated_areas (route_coords : list (R * R))
    (population_data : DataFrame) (min_population : nat)
  : result (bool * R * list string) :=
  '(population_scores, isolated_segments) <-
     fold_left
       (fun acc '(lat, lon) =>
          '(population_scores, isolated_segments) <- acc ;;
          nearby_pop <- df_nearby population_data lat lon 0.005 ;;
          pop_score <-
            (if (0 <? df_len nearby_pop)%nat
             then df_mean nearby_pop "population"
             else Ret 0) ;;
          Ret (population_scores ++ [pop_score],
               if Rltb pop_score (INR min_population)
               then S isolated_segments else isolated_segments))
       route_coords (Ret ([], O)) ;;
  let avg_population :=
    match population_scores with
    | [] => 0
    | _ => Rsum population_scores / INR (length population_scores)
    end in
  let isolated_pct :=
    match route_coords with
    | [] => 0
    | _ => INR isolated_segments / INR (length route_coords) * 100
    end in
  let is_safe := Rltb isolated_pct 75 in
  let warnings :=
    if negb is_safe then
      [("Route passes through isolated areas: " ++ format_fixed lib 1 isolated_pct
        ++ "% of segments have population < "
        ++ str_of_nat min_population)%string]
    else [] in
  Ret (is_safe, avg_population, warnings).

(** [check_time_based_safety(current_time, route_duration_seconds)]:
    returns [(is_safe, time_factor, warnings)]. *)
Definition check_time_based_safety (current_time : DateTime)
    (route_duration_seconds : R) : bool * R * list string :=
  let hour := hour current_time in
  let is_late_night := (23 <=? hour)%Z || (hour <? 5)%Z in
  let is_early_morning := (5 <=? hour)%Z && (hour <? 7)%Z in
  let '(is_safe, time_factor, warnings) :=
    if is_late_night then
      (false, 0.5,
       ["Travel during late night hours (11 PM - 5 AM) significantly increases risk"%string])
    else if is_early_morning then
      (true, 0.8,
       ["Travel during early morning hours (5 AM - 7 AM) moderately increases risk"%string])
    else (true, 1, []) in
  let end_time := timestamp current_time + route_duration_seconds in
  let end_hour := fromtimestamp_hour lib end_time in
  if negb is_late_night && ((23 <=? end_hour)%Z || (end_hour <? 5)%Z) then
    (is_safe, time_factor * 0.8,
     warnings ++ ["Route extends into late night hours"%string])
  else (is_safe, time_factor, warnings).

(** [apply_safety_guardrails(route_data, safety_score, current_time,
    crime_data, lighting_data, population_data)]: returns
    [(is_valid, adjusted_score, warnings)]. *)
Definition apply_safety_guardrails (route_data : RouteInfo) (safety_score : R)
    (current_time : option DateTime)
    (crime_data lighting_data population_data : option DataFrame)
  : result (bool * R * list string) :=
  let current_time :=
    match current_time with Some t => t | None => now end in
  let adjusted_score := safety_score in
  let steps := match info_steps route_data with Some s => s | None => [] end in
  let route_coords := extract_route_coords steps in
  let route_duration :=
    match info_duration route_data with Some d => d | None => 0 end in
  let '(time_safe, time_factor, time_warnings) :=
    check_time_based_safety current_time route_duration in
  let warnings := time_warnings in
  let adjusted_score := adjusted_score * time_factor in
  let is_valid :=
    if negb time_safe && (0 <=? hour current_time)%Z
       && (hour current_time <? 3)%Z
    then false else true in
  '(adjusted_score, warnings) <-
     match crime_data with
     | Some crime_data =>
         if (0 <? length route_coords)%nat then
           '(crime_safe, _, crime_warnings) <-
              check_crime_hotspots route_coords crime_data 0.5 20 ;;
           Ret (if negb crime_safe then adjusted_score * 0.7 else adjusted_score,
                warnings ++ crime_warnings)
         else Ret (adjusted_score, warnings)
     | None => Ret (adjusted_score, warnings)
     end ;;
  '(adjusted_score, warnings) <-
     match lighting_data with
     | Some lighting_data =>
         if (0 <? length route_coords)%nat then
           '(lighting_safe, _, lighting_warnings) <-
              check_lighting_coverage route_coords lighting_data 2 ;;
           Ret (if negb lighting_safe
                   && ((hour current_time <? 6)%Z || (20 <=? hour current_time)%Z)
                then adjusted_score * 0.8 else adjusted_score,
                warnings ++ lighting_warnings)
         else Ret (adjusted_score, warnings)
     | None => Ret (adjusted_score, warnings)
     end ;;
  '(adjusted_score, warnings) <-
     match population_data with
     | Some population_data =>
         if (0 <? length route_coords)%nat then
           '(isolation_safe, _, isolation_warnings) <-
              check_isolated_areas route_coords population_data 50 ;;
           Ret (if negb isolation_safe then adjusted_score * 0.8 else adjusted_score,
                warnings ++ isolation_warnings)
         else Ret (adjusted_score, warnings)
     | None => Ret (adjusted_score, warnings)
     end ;;
  let adjusted_score := np_clip adjusted_score 0 100 in
  Ret (is_valid, adjusted_score, warnings).

(** [validate_route_safety]: returns [(is_safe, metrics)], the metrics
    being the adjusted score and the warnings. *)
Definition validate_route_safety (route_data : RouteInfo)
    (crime_data lighting_data population_data : option DataFrame)
    (current_time : option DateTime) : result (bool * (R * list string)) :=
  '(_, adjusted_score, warnings) <-
     apply_safety_guardrails route_data 50 current_time
       crime_data lighting_data population_data ;;
  let is_safe := (length warnings =? 0)%nat && Rgeb adjusted_score 40 in
  Ret (is_safe, (adjusted_score, warnings)).

End WithLibrary.

End Guardrails.

(* ------------------------------------------------------------------ *)
(** ** app/ml/feature_extraction.py and app/ml/inference.py *)

Module ML.

(** The [safety_metrics] dict the optimizer builds from [route.get(k, 0)]. *)
Record MetricsArg : Type := mkMetricsArg {
  m_crime_density : R;
  m_max_crime_exposure : R;
  m_lighting_score : R;
  m_population_score : R;
  m_traffic_score : R;
  m_crime_hotspot_percentage : R
}.

Record Features : Type := mkFeatures {
  f_distance_km : R;
  f_duration_min : R;
  f_main_road_percentage : R;
  f_crime_density : R;
  f_max_crime_exposure : R;
  f_lighting_score : R;
  f_population_score : R;
  f_traffic_score : R;
  f_crime_hotspot_percentage : R;
  f_hour_of_day : Z;
  f_day_of_week : Z;
  f_is_weekend : bool;
  f_is_night : bool;
  f_is_rush_hour : bool;
  f_speed_kmh : R;
  f_crime_per_km : R;
  f_lighting_per_km : R;
  f_crime_to_lighting_ratio : R;
  f_crime_to_population_ratio : R;
  f_night_crime_risk : R;
  f_night_lighting_deficit : R
}.

(** Float division, raising on a zero divisor. *)
Definition fdiv (x y : R) : result R :=
  if Req_dec_T y 0 then Raise ZeroDivisionError else Ret (x / y).

(** [extract_route_features(route, safety_metrics, current_time)]. *)
Definition extract_route_features (route : RouteDict)
    (safety_metrics : MetricsArg) (current_time : DateTime) : result Features :=
  let distance_km := distance_km (rd_geometry route) in
  let duration_min := duration_min (rd_geometry route) in
  let main_road_percentage := get_main_road_percentage route 0 in
  let crime_density := m_crime_density safety_metrics in
  let lighting_score := m_lighting_score safety_metrics in
  let population_score := m_population_score safety_metrics in
  let is_night := (hour current_time <? 6)%Z || (22 <=? hour current_time)%Z in
  speed_kmh <-
    (if Rgtb duration_min 0 then fdiv distance_km (duration_min / 60) else Ret 0) ;;
  crime_per_km <-
    (if Rgtb distance_km 0 then fdiv crime_density distance_km else Ret 0) ;;
  crime_to_lighting_ratio <- fdiv crime_density (lighting_score + 1) ;;
  crime_to_population_ratio <- fdiv crime_density (population_score + 1) ;;
  Ret {| f_distance_km := distance_km;
         f_duration_min := duration_min;
         f_main_road_percentage := main_road_percentage;
         f_crime_density := crime_density;
         f_max_crime_exposure := m_max_crime_exposure safety_metrics;
         f_lighting_score := lighting_score;
         f_population_score := population_score;
         f_traffic_score := m_traffic_score safety_metrics;
         f_crime_hotspot_percentage := m_crime_hotspot_percentage safety_metrics;
         f_hour_of_day := hour current_time;
         f_day_of_week := weekday current_time;
         f_is_weekend := (5 <=? weekday current_time)%Z;
         f_is_night := is_night;
         f_is_rush_hour :=
           ((7 <=? hour current_time)%Z && (hour current_time <=? 10)%Z)
           || ((17 <=? hour current_time)%Z && (hour current_time <=? 20)%Z);
         f_speed_kmh := speed_kmh;
         f_crime_per_km := crime_per_km;
         f_lighting_per_km := lighting_score * distance_km;
         f_crime_to_lighting_ratio := crime_to_lighting_ratio;
         f_crime_to_population_ratio := crime_to_population_ratio;
         f_night_crime_risk := if is_night then crime_density * 1.5 else 0;
         f_night_lighting_deficit := if is_night then 10 - lighting_score else 0 |}.

(** [predict_safety_score(features)].  [model] is the module global
    [_model]: [None] when no trained model was loaded, else the model's
    [predict] applied to the feature vector, which may raise. *)
Definition predict_safety_score (model : option (Features -> result R))
    (features : Features) : result R :=
  match model with
  | None =>
      let crime_score := py_max 0 (100 - f_crime_density features * 10) in
      let lighting_score := f_lighting_score features * 10 in
      Ret (np_clip ((crime_score + lighting_score) / 2) 0 100)
  | Some predict =>
      prediction <- predict features ;;
      Ret (np_clip prediction 0 100)
  end.

End ML.

(* ------------------------------------------------------------------ *)
(** ** The environment of one optimization request *)

(** Module globals and external collaborators: the three datasets loaded
    at import time, the ML switch and model, the routing provider (the
    answer to the [n]-th HTTP request of the call, an exception of
    [requests] being a [Raise]) and the clock. *)
Record World : Type := mkWorld {
  lib : PyLib;
  crime_data : DataFrame;
  lighting_data : DataFrame;
  population_data : DataFrame;
  ML_AVAILABLE : bool;
  ml_model : option (ML.Features -> result R);
  osrm_get : nat -> OsrmQuery -> result OsrmJson;
  now : DateTime
}.

(* ------------------------------------------------------------------ *)
(** ** The engine functions that app.py and app/routes.py share verbatim

    [app/routes.py] copies these functions from [app.py]; they differ only
    through the [haversine_distance] and [calculate_composite_score] of the
    file they sit in, which are parameters here. *)

Section Engine.

Variable haversine_distance : pyval -> pyval -> pyval -> pyval -> pyfloat.
Variable calculate_composite_score : RouteDict -> Preferences -> R.
Variable w : World.

(** Distance between two float pairs, as every call site passes them. *)
Definition hav (lat1 lon1 lat2 lon2 : R) : pyfloat :=
  haversine_distance (VFloat lat1) (VFloat lon1) (VFloat lat2) (VFloat lon2).

Definition min_lat : R := 12.704192.
Definition max_lat : R := 13.173706.
Definition min_lon : R := 77.269876.
Definition max_lon : R := 77.850066.

(** [validate_coordinates(lat, lon)]. *)
Definition validate_coordinates (lat lon : pyval) : bool :=
  try_except
    (lat <- py_float lat ;;
     lon <- py_float lon ;;
     Ret (Rleb min_lat lat && Rleb lat max_lat &&
          Rleb min_lon lon && Rleb lon max_lon))
    false.

(** [calculate_route_hash(route)]. *)
Definition calculate_route_hash (route : list point) : option string :=
  let n := length route in
  if (n <? 2)%nat then None
  else
    let sample_indices := [0; n / 4; n / 2; 3 * n / 4; n - 1]%nat in
    let sample_points :=
      flat_map (fun i => if (i <? n)%nat
                         then match nth_error route i with
                              | Some p => [p]
                              | None => []
                              end
                         else [])
               sample_indices in
    let hash_string :=
      String.concat ""
        (map (fun '(lat, lon) =>
                (format_fixed (lib w) 4 lat ++ "," ++ format_fixed (lib w) 4 lon)%string)
             sample_points) in
    Some (md5_hexdigest (lib w) hash_string).

(** [calculate_crime_exposure(lat, lon, radius)].  The second definition
    in [app/routes.py] adds [if crime_data.empty: return 0], which returns
    what the selection on an empty frame returns. *)
Definition calculate_crime_exposure (lat lon radius : R) : nat :=
  try_except
    (nearby_crimes <- df_nearby (crime_data w) lat lon radius ;;
     Ret (df_len nearby_crimes))
    O.

(** [calculate_lighting_score(lat, lon, radius)]. *)
Definition calculate_lighting_score (lat lon radius : R) : R :=
  try_except
    (nearby_lighting <- df_nearby (lighting_data w) lat lon radius ;;
     if (0 <? df_len nearby_lighting)%nat
     then df_mean nearby_lighting "lighting_score"
     else Ret 5)
    5.

(** [calculate_population_score(lat, lon, radius)]. *)
Definition calculate_population_score (lat lon radius : R) : R * R * bool :=
  try_except
    (nearby_pop <- df_nearby (population_data w) lat lon radius ;;
     if (0 <? df_len nearby_pop)%nat then
       density <- df_mean nearby_pop "population_density" ;;
       traffic <- df_mean nearby_pop "traffic_level" ;;
       main <- df_mean nearby_pop "is_main_road" ;;
       Ret (density / 1000, traffic / 10, Rgtb main 0.5)
     else Ret (5, 5, false))
    (5, 5, false).

(** The loop of [validate_route_connectivity] from the point [current]. *)
Fixpoint connectivity_loop (max_gap_km : R) (current_point : point)
    (rest : list point) : bool :=
  match rest with
  | [] => true
  | next_point :: rest' =>
      let gap_distance :=
        hav (fst current_point) (snd current_point)
            (fst next_point) (snd next_point) in
      if gtb gap_distance (Fin max_gap_km) then false
      else connectivity_loop max_gap_km next_point rest'
  end.

(** [validate_route_connectivity(route_points, max_gap_km)]. *)
Definition validate_route_connectivity (route_points : list point)
    (max_gap_km : R) : bool :=
  if (length route_points <? 2)%nat then false
  else
    match route_points with
    | [] => true
    | p :: rest => connectivity_loop max_gap_km p rest
    end.

(** [check_route_main_road_coverage(route_points, min_coverage)]: returns
    [(has_coverage, main_road_percentage)].  The loop runs over
    [range(0, len, max(1, step))], whose indices are those of the slice
    [route_points[::max(1, step)]]; its guard [if i >= len: break] never
    fires. *)
Definition check_route_main_road_coverage (route_points : list point)
    (min_coverage : R) : bool * R :=
  let n := length route_points in
  if (n <? 2)%nat then (false, 0)
  else
    let sample_points := Nat.min n 20 in
    let step := (n / sample_points)%nat in
    let main_road_count :=
      fold_left
        (fun count '(lat, lon) =>
           let '(_, _, is_main) := calculate_population_score lat lon 0.003 in
           if is_main then S count else count)
        (py_stride route_points (Nat.max 1 step)) O in
    let total_sampled := Nat.min sample_points n in
    let coverage :=
      if (0 <? total_sampled)%nat
      then INR main_road_count / INR total_sampled else 0 in
    (Rgeb coverage min_coverage, coverage * 100).

(** [route_points[i]] where the loop bounds keep [i] in range. *)
Definition point_at (route_points : list point) (i : nat) : point :=
  nth i route_points (0, 0).

(** [detect_route_backtracking(route_points, start_lat, start_lon,
    end_lat, end_lon)].  In the sampling loop over
    [range(0, len - step, step)] the guard [if i + step >= len: break]
    never fires, since [i < len - step]. *)
Definition detect_route_backtracking (route_points : list point)
    (start_lat start_lon end_lat end_lon : R) : bool :=
  let n := length route_points in
  if (n <? 5)%nat then true
  else
    let direct_distance := hav start_lat start_lon end_lat end_lon in
    if ltb direct_distance (Fin 0.1) then true
    else
      let actual_distance :=
        fold_left
          (fun acc i =>
             add acc (hav (fst (point_at route_points i))
                          (snd (point_at route_points i))
                          (fst (point_at route_points (i + 1)))
                          (snd (point_at route_points (i + 1)))))
          (py_range 0 (n - 1) 1) (Fin 0) in
      let detour_ratio := div actual_distance direct_distance in
      if gtb detour_ratio (Fin 1.3) then false
      else
        let sample_size := Nat.min 20 n in
        let step := Nat.max 1 (n / sample_size) in
        let '(backtrack_count, stagnant_count) :=
          fold_left
            (fun '(backtrack_count, stagnant_count) i =>
               let current_point := point_at route_points i in
               let next_point := point_at route_points (i + step) in
               let current_to_dest :=
                 hav (fst current_point) (snd current_point) end_lat end_lon in
               let next_to_dest :=
                 hav (fst next_point) (snd next_point) end_lat end_lon in
               let progress := sub current_to_dest next_to_dest in
               if ltb progress (Fin 0) then (S backtrack_count, stagnant_count)
               else if ltb progress (Fin 0.01)
                    then (backtrack_count, S stagnant_count)
                    else (backtrack_count, stagnant_count))
            (py_range 0 (n - step) step) (O, O) in
        let total_segments := py_range_len 0 (n - step) step in
        if Rgtb (INR backtrack_count) (INR total_segments * 0.2) then false
        else if Rgtb (INR (backtrack_count + stagnant_count))
                     (INR total_segments * 0.4) then false
        else
          let max_deviation :=
            fold_left
              (fun max_deviation '(lat, lon) =>
                 let d_start := hav start_lat start_lon lat lon in
                 let d_end := hav lat lon end_lat end_lon in
                 if gtb d_start (mul direct_distance (Fin 0.7))
                    && gtb d_end (mul direct_distance (Fin 0.7))
                 then max max_deviation (min d_start d_end)
                 else max_deviation)
              (py_stride route_points (Nat.max 1 (n / 10))) (Fin 0) in
          if gtb max_deviation (mul direct_distance (Fin 0.3)) then false
          else true.

(** The accumulators of the sampling loop of the scorer. *)
Record ScoreAcc : Type := mkScoreAcc {
  total_crime : nat;
  max_crime_at_point : nat;
  crime_hotspot_count : nat;
  total_lighting : R;
  total_population : R;
  total_traffic : R;
  main_road_count : nat
}.

Definition score_step (acc : ScoreAcc) (p : point) : ScoreAcc :=
  let '(lat, lon) := p in
  let crime_count := calculate_crime_exposure lat lon 0.003 in
  let light_score := calculate_lighting_score lat lon 0.005 in
  let '(pop_score, traffic_score, is_main_road) :=
    calculate_population_score lat lon 0.005 in
  {| total_crime := total_crime acc + crime_count;
     max_crime_at_point := Nat.max (max_crime_at_point acc) crime_count;
     crime_hotspot_count :=
       if (3 <? crime_count)%nat then S (crime_hotspot_count acc)
       else crime_hotspot_count acc;
     total_lighting := total_lighting acc + light_score;
     total_population := total_population acc + pop_score;
     total_traffic := total_traffic acc + traffic_score;
     main_road_count :=
       if is_main_road then S (main_road_count acc) else main_road_count acc |}.

(** The score formula of [calculate_route_safety_comprehensive], from the
    accumulated totals over [n_points] samples. *)
Definition score_of_totals (acc : ScoreAcc) (n_points : nat)
    (well_lit populated main_roads : bool) : SafetyMetrics :=
  let avg_crime := INR (total_crime acc) / INR n_points in
  let avg_lighting := total_lighting acc / INR n_points in
  let avg_population := total_population acc / INR n_points in
  let avg_traffic := total_traffic acc / INR n_points in
  let main_road_pct := INR (main_road_count acc) / INR n_points * 100 in
  let crime_hotspot_pct := INR (crime_hotspot_count acc) / INR n_points * 100 in
  let base_crime_penalty := py_min 40 (py_pow avg_crime 1.2 * 5) in
  let max_crime_penalty :=
    py_min 40 (py_pow (INR (max_crime_at_point acc)) 1.4 * 7) in
  let hotspot_penalty := py_min 30 (crime_hotspot_pct * 0.5) in
  let total_crime_penalty :=
    base_crime_penalty + max_crime_penalty + hotspot_penalty in
  let base_safety_score := py_max 0 (100 - total_crime_penalty) in
  let lighting_multiplier :=
    1 + avg_lighting / 10 * (if well_lit then 2.5 else 0.8) in
  let population_multiplier :=
    1 + avg_population / 10 * (if populated then 2 else 0.6) in
  let traffic_multiplier :=
    1 + avg_traffic / 10 * (if populated then 1.5 else 0.4) in
  let main_road_multiplier :=
    1 + main_road_pct / 100 * (if main_roads then 2.5 else 0.7) in
  let total_multiplier :=
    (lighting_multiplier + population_multiplier + traffic_multiplier
     + main_road_multiplier) / 4 in
  let final_safety_score := py_min 100 (base_safety_score * total_multiplier) in
  let crime_density_score := 100 - py_min 100 (avg_crime * 10) in
  {| safety_score := py_round final_safety_score 2;
     crime_density := py_round avg_crime 2;
     max_crime_exposure := INR (max_crime_at_point acc);
     crime_hotspot_percentage := py_round crime_hotspot_pct 2;
     lighting_score := py_round avg_lighting 2;
     population_score := py_round avg_population 2;
     traffic_score := py_round avg_traffic 2;
     main_road_percentage := py_round main_road_pct 2;
     crime_density_score := py_round crime_density_score 2 |}.

Definition empty_acc : ScoreAcc :=
  {| total_crime := 0; max_crime_at_point := 0; crime_hotspot_count := 0;
     total_lighting := 0; total_population := 0; total_traffic := 0;
     main_road_count := 0 |}.

(** [sample_rate = max(1, len(route) // 50)] and
    [sampled_route = route[::sample_rate]]. *)
Definition sample_route (route : list point) : list point :=
  let sample_rate := Nat.max 1 (length route / 50) in
  py_stride route sample_rate.

(** [calculate_route_safety_comprehensive(route, preferences)];
    [preferences=None] stands for the empty dict.  [round(n, 2)] of the
    int [max_crime_at_point] is the int itself. *)
Definition calculate_route_safety_comprehensive (route : list point)
    (preferences : option Preferences) : option SafetyMetrics :=
  if (length route <? 2)%nat then None
  else
    let pref (key : Preferences -> bool) :=
      match preferences with Some p => key p | None => false end in
    let sampled_route := sample_route route in
    let acc := fold_left score_step sampled_route empty_acc in
    let n_points := length sampled_route in
    Some (score_of_totals acc n_points
            (pref prefer_well_lit) (pref prefer_populated)
            (pref prefer_main_roads)).

(** The turn-by-turn extraction loop of [get_route_from_osrm]. *)
Definition extract_steps (r : OsrmRoute) : list Step :=
  match legs r with
  | None => []
  | Some legs =>
      snd
        (fold_left
           (fun '(step_number, steps) step =>
              match maneuver step with
              | None => (step_number, steps)
              | Some maneuver_instruction =>
                  let instruction :=
                    match maneuver_instruction with
                    | Some i => i
                    | None =>
                        match step_name step with
                        | Some nm => nm
                        | None => "Continue"%string
                        end
                    end in
                  let distance :=
                    match step_distance step with Some d => d | None => 0 end in
                  (S step_number,
                   steps ++
                   [{| number := step_number;
                       instruction := instruction;
                       step_dist := py_round distance 1;
                       distance_text :=
                         if Rltb distance 1000
                         then (format_fixed (lib w) 0 distance ++ "m")%string
                         else (format_fixed (lib w) 1 (distance / 1000) ++ "km")%string
                    |}])
              end)
           (flat_map (fun leg => match leg_steps leg with
                                 | Some s => s
                                 | None => []
                                 end) legs)
           (1%nat, []))
  end.

(** One iteration of the loop over [data.get('routes', [])]: [None] for
    [continue], a geometry for [routes.append(...)]; reading a missing
    ['distance'] or ['duration'] raises. *)
Definition osrm_route_entry (start_lat start_lon end_lat end_lon : R)
    (waypoint : option Waypoint) (route_data : OsrmRoute)
  : result (option Geometry) :=
  match geometry route_data with
  | None => Ret None
  | Some coordinates =>
      if (length coordinates <? 2)%nat then Ret None
      else
        let route := map (fun coord => (snd coord, fst coord)) coordinates in
        let first := nth 0 route (0, 0) in
        let last := nth (length route - 1) route (0, 0) in
        let start_dist := hav start_lat start_lon (fst first) (snd first) in
        let end_dist := hav end_lat end_lon (fst last) (snd last) in
        if gtb start_dist (Fin 0.2) || gtb end_dist (Fin 0.2) then Ret None
        else
          let steps := extract_steps route_data in
          match distance route_data, duration route_data with
          | Some distance, Some duration =>
              Ret (Some {| route := route;
                           distance_km := distance / 1000;
                           duration_min := duration / 60;
                           waypoint := waypoint;
                           steps := steps |})
          | _, _ => Raise KeyError
          end
  end.

(** [get_route_from_osrm(start_lat, start_lon, end_lat, end_lon,
    waypoint)].  [calls] counts the HTTP requests made so far; the result
    comes with the new count. *)
Definition get_route_from_osrm (calls : nat)
    (start_lat start_lon end_lat end_lon : R) (waypoint : option Waypoint)
  : option (list Geometry) * nat :=
  if negb (validate_coordinates (VFloat start_lat) (VFloat start_lon)
           && validate_coordinates (VFloat end_lat) (VFloat end_lon))
  then (None, calls)
  else
    (try_except
       (data <- osrm_get w calls
                  {| q_start := (start_lat, start_lon);
                     q_end := (end_lat, end_lon);
                     q_waypoint := waypoint |} ;;
        match code data with
        | None => Raise KeyError
        | Some c =>
            if negb (c =? "Ok")%string then Ret None
            else
              routes <-
                fold_left
                  (fun acc route_data =>
                     routes <- acc ;;
                     entry <- osrm_route_entry start_lat start_lon
                                end_lat end_lon waypoint route_data ;;
                     Ret (match entry with
                          | Some g => routes ++ [g]
                          | None => routes
                          end))
                  (match routes data with Some l => l | None => [] end)
                  (Ret []) ;;
              Ret (Some routes)
        end)
       None,
     S calls).

(** Truth value of a returned route list: [None] and [[]] are false. *)
Definition truthy_routes (r : option (list Geometry)) : list Geometry :=
  match r with Some l => l | None => [] end.

(** [route_hash and route_hash not in route_hashes]. *)
Definition fresh_hash (route_hash : option string)
    (route_hashes : list string) : option string :=
  match route_hash with
  | Some h =>
      if negb (h =? "")%string
         && negb (existsb (String.eqb h) route_hashes)
      then Some h else None
  | None => None
  end.

(** *** Phase 1: the direct alternatives *)

(** The body of the loop over [enumerate(direct_routes)]; the state is
    [(all_routes, route_hashes)]. *)
Definition direct_step (preferences : Preferences)
    (start_lat start_lon end_lat end_lon : R)
    (st : list RouteDict * list string) (entry : nat * Geometry)
  : list RouteDict * list string :=
  let '(all_routes, route_hashes) := st in
  let '(idx, route_data) := entry in
  let route_points := route route_data in
  if negb (validate_route_connectivity route_points 0.5) then st
  else if negb (detect_route_backtracking route_points
                  start_lat start_lon end_lat end_lon) then st
  else
    match fresh_hash (calculate_route_hash route_points) route_hashes with
    | None => st
    | Some route_hash =>
        match calculate_route_safety_comprehensive route_points
                (Some preferences) with
        | None => st
        | Some safety =>
            let '(has_main, main_pct) :=
              check_route_main_road_coverage route_points 0.4 in
            if prefer_main_roads preferences && Rltb main_pct 40 then st
            else
              (all_routes ++
               [candidate route_data safety
                  ("direct_" ++ str_of_nat (idx + 1))%string "direct"],
               route_hashes ++ [route_hash])
        end
    end.

Definition enumerate {A : Type} (l : list A) : list (nat * A) :=
  combine (seq 0 (length l)) l.

(** *** Phase 2: the waypoint exploration *)

Definition max_waypoints : nat := 25.

(** The state of the exploration: the pool, the dedup set, the number of
    waypoint routes accepted and the number of provider requests made. *)
Record Explore : Type := mkExplore {
  all_routes : list RouteDict;
  route_hashes : list string;
  waypoint_count : nat;
  calls : nat
}.

(** The loop over [waypoint_routes]; it stops at the [break] taken once
    [max_waypoints] routes are in. *)
Fixpoint waypoint_routes_loop (preferences : Preferences)
    (start_lat start_lon end_lat end_lon : R)
    (waypoint_routes : list Geometry) (st : Explore) : Explore :=
  match waypoint_routes with
  | [] => st
  | route_data :: rest =>
      let continue :=
        waypoint_routes_loop preferences start_lat start_lon end_lat end_lon rest in
      let route_points := route route_data in
      if negb (validate_route_connectivity route_points 0.5) then continue st
      else if negb (detect_route_backtracking route_points
                      start_lat start_lon end_lat end_lon) then continue st
      else
        match fresh_hash (calculate_route_hash route_points) (route_hashes st) with
        | None => continue st
        | Some route_hash =>
            match calculate_route_safety_comprehensive route_points
                    (Some preferences) with
            | None => continue st
            | Some safety =>
                if prefer_main_roads preferences
                   && Rltb (main_road_percentage safety) 40
                then continue st
                else
                  let st' :=
                    {| all_routes :=
                         all_routes st ++
                         [candidate route_data safety
                            ("waypoint_" ++ str_of_nat (waypoint_count st))%string
                            "waypoint"];
                       route_hashes := route_hashes st ++ [route_hash];
                       waypoint_count := S (waypoint_count st);
                       calls := calls st |} in
                  if (max_waypoints <=? waypoint_count st')%nat then st'
                  else continue st'
            end
        end
  end.

(** The body of the innermost of the three nested loops, for one
    [(position, offset, direction)]. *)
Definition waypoint_step (preferences : Preferences)
    (start_lat start_lon end_lat end_lon : R)
    (base_distance : pyfloat) (perp_lat perp_lon : R)
    (position offset direction : R) (st : Explore) : Explore :=
  let lat_diff := end_lat - start_lat in
  let lon_diff := end_lon - start_lon in
  let mid_lat := start_lat + lat_diff * position in
  let mid_lon := start_lon + lon_diff * position in
  let wp_lat := mid_lat + perp_lat * offset * direction in
  let wp_lon := mid_lon + perp_lon * offset * direction in
  if negb (validate_coordinates (VFloat wp_lat) (VFloat wp_lon)) then st
  else
    let wp_dist :=
      add (hav start_lat start_lon wp_lat wp_lon)
          (hav wp_lat wp_lon end_lat end_lon) in
    let detour_ratio :=
      if gtb base_distance (Fin 0) then div wp_dist base_distance
      else Fin 999 in
    if gtb detour_ratio (Fin 1.8) then st
    else
      let '(waypoint_routes, calls') :=
        get_route_from_osrm (calls st) start_lat start_lon end_lat end_lon
          (Some {| wp_lat := wp_lat; wp_lon := wp_lon |}) in
      waypoint_routes_loop preferences start_lat start_lon end_lat end_lon
        (truthy_routes waypoint_routes)
        {| all_routes := all_routes st;
           route_hashes := route_hashes st;
           waypoint_count := waypoint_count st;
           calls := calls' |}.

(** A [for] loop whose body starts with
    [if waypoint_count >= max_waypoints: break]. *)
Definition for_until_full {A : Type} (items : list A)
    (body : A -> Explore -> Explore) (st : Explore) : Explore :=
  fold_left
    (fun st item =>
       if (max_waypoints <=? waypoint_count st)%nat then st else body item st)
    items st.

(** Phases 1 and 2 of the optimizer: the validated candidate pool
    [all_routes], with the dedup set and the counters. *)
Definition collect_candidates (preferences : Preferences)
    (start_lat start_lon end_lat end_lon : R) : Explore :=
  let '(direct_routes, calls1) :=
    get_route_from_osrm 0 start_lat start_lon end_lat end_lon None in
  let '(all_routes1, route_hashes1) :=
    fold_left (direct_step preferences start_lat start_lon end_lat end_lon)
      (enumerate (truthy_routes direct_routes)) ([], []) in
  let base_distance := hav start_lat start_lon end_lat end_lon in
  let lat_diff := end_lat - start_lat in
  let lon_diff := end_lon - start_lon in
  let perp_lat := - lon_diff in
  let perp_lon := lat_diff in
  let perp_magnitude := sqrt (perp_lat ^ 2 + perp_lon ^ 2) in
  let '(perp_lat, perp_lon) :=
    if Rgtb perp_magnitude 0
    then (perp_lat / perp_magnitude, perp_lon / perp_magnitude)
    else (perp_lat, perp_lon) in
  let positions := [0.25; 0.5; 0.75] in
  let offset_distances_km := [0.5; 1.2; 2.5] in
  let offsets := map (fun d => d / 111) offset_distances_km in
  let directions := [1; -1] in
  for_until_full positions
    (fun position =>
       for_until_full offsets
         (fun offset =>
            for_until_full directions
              (fun direction =>
                 waypoint_step preferences start_lat start_lon end_lat end_lon
                   base_distance perp_lat perp_lon position offset direction)))
    {| all_routes := all_routes1;
       route_hashes := route_hashes1;
       waypoint_count := 0;
       calls := calls1 |}.

(** *** Phase 3: composite score and optional ML blend *)

(** The [try] block run per route when [ML_AVAILABLE]:
    feature extraction, prediction, blend.  [log_route_sample] swallows
    its own exceptions and returns nothing, so it leaves no trace here. *)
Definition ml_blend (current_time : DateTime) (route : RouteDict)
  : result RouteDict :=
  let safety_metrics :=
    {| ML.m_crime_density := rd_crime_density route;
       ML.m_max_crime_exposure := rd_max_crime_exposure route;
       ML.m_lighting_score := get_lighting_score route 0;
       ML.m_population_score := get_population_score route 0;
       ML.m_traffic_score := get_traffic_score route 0;
       ML.m_crime_hotspot_percentage := get_crime_hotspot_percentage route 0 |} in
  features <- ML.extract_route_features route safety_metrics current_time ;;
  ml_score <- ML.predict_safety_score (ml_model w) features ;;
  let rule_based_score := rd_safety_score route in
  Ret (set_ml_blend route (0.75 * rule_based_score + 0.25 * ml_score)
         ml_score rule_based_score).

(** The body of [for route in all_routes] in phase 3. *)
Definition score_route (preferences : Preferences) (current_time : DateTime)
    (route : RouteDict) : RouteDict :=
  let route :=
    set_composite_score route (Some (calculate_composite_score route preferences)) in
  if ML_AVAILABLE w
  then try_except (ml_blend current_time route) route
  else route.

(** [route['composite_score']]; every route of the pool has the key after
    phase 3. *)
Definition composite_key (r : RouteDict) : R :=
  match rd_composite_score r with Some c => c | None => 0 end.

(** [all_routes.sort(key=lambda x: x['composite_score'], reverse=True)]:
    a stable sort, larger keys first. *)
Fixpoint insert_desc (x : RouteDict) (l : list RouteDict) : list RouteDict :=
  match l with
  | [] => [x]
  | y :: t =>
      if Rgtb (composite_key y) (composite_key x)
      then y :: insert_desc x t
      else x :: y :: t
  end.

Definition sort_by_composite (l : list RouteDict) : list RouteDict :=
  fold_right insert_desc [] l.

(** *** Phase 4: the guardrail loop *)

(** The dict [{'steps': route.get('route', []),
               'duration': route.get('duration_min', 0) * 60}]:
    the polyline points are what is passed as steps. *)
Definition guardrail_argument (r : RouteDict) : Guardrails.RouteInfo :=
  {| Guardrails.info_steps :=
       Some (map (fun p => Guardrails.StepList [fst p; snd p])
                 (route (rd_geometry r)));
     Guardrails.info_duration := Some (duration_min (rd_geometry r) * 60) |}.

Definition guard (current_time : DateTime) (route : RouteDict)
  : result (bool * R * list string) :=
  Guardrails.apply_safety_guardrails (lib w) (now w)
    (guardrail_argument route) (rd_safety_score route) (Some current_time)
    (Some (crime_data w)) (Some (lighting_data w)) (Some (population_data w)).

(** [for idx, route in enumerate(all_routes)]: rejected routes are
    skipped untouched, the loop breaks at 20 validated routes. *)
Fixpoint guardrail_loop (current_time : DateTime) (routes : list RouteDict)
    (validated_routes : list RouteDict) : result (list RouteDict) :=
  match routes with
  | [] => Ret validated_routes
  | route :: rest =>
      '(is_valid, adjusted_score, warnings) <- guard current_time route ;;
      if negb is_valid then guardrail_loop current_time rest validated_routes
      else
        let validated_routes :=
          validated_routes ++ [set_guardrail route adjusted_score warnings] in
        if (20 <=? length validated_routes)%nat then Ret validated_routes
        else guardrail_loop current_time rest validated_routes
  end.

(** *** Curation of the final list *)

(** [min(r['distance_km'] for r in final_routes)], on a non-empty list. *)
Definition min_distance (final_routes : list RouteDict) : R :=
  match final_routes with
  | [] => 0
  | r :: rest =>
      fold_left (fun m r' => py_min m (distance_km (rd_geometry r')))
                rest (distance_km (rd_geometry r))
  end.

Definition category_of (final_routes : list RouteDict) (idx : nat)
    (route : RouteDict) : string * string :=
  if (idx =? 0)%nat then ("best", "Best match for your preferences")%string
  else if Rleb (rd_crime_density route) 1.5
          && Rleb (rd_max_crime_exposure route) 3
  then ("safest", "Safest route (avoids crime hotspots)")%string
  else if Rleb (distance_km (rd_geometry route))
               (min_distance final_routes * 1.05)
  then ("fastest", "Shortest distance")%string
  else if Rgeb (get_main_road_percentage route 0) 70
  then ("main_roads", "Uses main roads")%string
  else ("balanced", "Well-balanced option")%string.

Definition reasons_of (route : RouteDict) : list string :=
  (if Rleb (rd_crime_density route) 1 then ["Very low crime area"%string]
   else if Rleb (rd_crime_density route) 2 then ["Low crime density"%string]
   else if Rgtb (rd_crime_density route) 4
        then [("⚠️ Crime density: "
               ++ format_fixed (lib w) 1 (rd_crime_density route))%string]
        else [])
  ++ (if Rleb (rd_max_crime_exposure route) 2 then ["No crime hotspots"%string]
      else if Rleb (rd_max_crime_exposure route) 5
           then ["Minimal crime exposure"%string]
           else [("⚠️ Max crime exposure: "
                  ++ format_fixed (lib w) 0 (rd_max_crime_exposure route))%string])
  ++ (if Rgtb (get_main_road_percentage route 0) 70
      then [(format_fixed (lib w) 0 (get_main_road_percentage route 0)
             ++ "% main roads")%string]
      else [])
  ++ (if Rgtb (get_lighting_score route 0) 7.5 then ["Well-lit area"%string] else [])
  ++ (if Rgtb (get_population_score route 0) 6 then ["Populated area"%string] else []).

Definition warning_of (route : RouteDict) : option string :=
  if Rgtb (rd_max_crime_exposure route) 8 || Rgtb (rd_crime_density route) 5
  then Some "⚠️ High crime exposure"%string
  else if Rgtb (rd_max_crime_exposure route) 5 || Rgtb (rd_crime_density route) 3
  then Some "⚠️ Moderate crime exposure"%string
  else None.

(** The body of [for idx, route in enumerate(final_routes)]. *)
Definition curate_route (final_routes : list RouteDict)
    (entry : nat * RouteDict) : RouteDict :=
  let '(idx, route) := entry in
  let '(category, description) := category_of final_routes idx route in
  set_label_and_pop route
    {| rank := idx + 1;
       is_recommended := (idx =? 0)%nat;
       category := category;
       description := description;
       reasons := Some (reasons_of route);
       warning := warning_of route |}.

(** [final_routes = validated_routes[:7]] and the labelling loop. *)
Definition curate (validated_routes : list RouteDict) : list RouteDict :=
  let final_routes := firstn 7 validated_routes in
  map (curate_route final_routes) (enumerate final_routes).

(** *** Request parsing *)

(** The outermost [except Exception] of the handlers: a 500 answer. *)
Definition handle (body : result Response) : Response :=
  match body with
  | Ret r => r
  | Raise e => Failure 500 (str_of_exn e)
  end.

(** The parsed request, or the answer given without parsing further.
    The four [float()] calls run in order inside
    [try: ... except (TypeError, ValueError)], which answers 400; any
    other exception of [float()] passes that clause and reaches the
    outermost handler. *)
Definition parse_coordinates (data : RequestJson)
  : Response + (R * R * R * R) :=
  match start_lat data, start_lon data, end_lat data, end_lon data with
  | Some a, Some b, Some c, Some d =>
      match (a <- py_float a ;; b <- py_float b ;;
             c <- py_float c ;; d <- py_float d ;;
             Ret (a, b, c, d)) with
      | Ret parsed => inr parsed
      | Raise TypeError | Raise ValueError =>
          inl (Failure 400 "Invalid coordinates")
      | Raise e => inl (handle (Raise e))
      end
  | _, _, _, _ => inl (Failure 400 "Missing coordinates")
  end.

(** The [preferences] dict; [float()] of a weight may raise. *)
Definition parse_preferences (data : RequestJson) : result Preferences :=
  let flag (v : option pyval) :=
    match v with Some x => py_bool x | None => false end in
  let weight (v : option pyval) (dflt : R) :=
    match v with Some x => py_float x | None => Ret dflt end in
  sw <- weight (req_safety_weight data) 0.7 ;;
  dw <- weight (req_distance_weight data) 0.3 ;;
  Ret {| prefer_main_roads := flag (req_prefer_main_roads data);
         prefer_well_lit := flag (req_prefer_well_lit data);
         prefer_populated := flag (req_prefer_populated data);
         safety_weight := sw;
         distance_weight := dw |}.

(** The successful answer of the regular path; it carries no
    ['is_fallback'] key, read as [false]. *)
Definition regular_answer (pool validated_routes : list RouteDict) : Response :=
  let final_routes := curate validated_routes in
  Success final_routes (length pool)
    ("Found " ++ str_of_nat (length final_routes) ++ " optimized routes")%string
    false.

End Engine.

(* ------------------------------------------------------------------ *)
(** ** app.py *)

Module App.

(** [haversine_distance]: every exception becomes [float('inf')]. *)
Definition haversine_distance (lat1 lon1 lat2 lon2 : pyval) : pyfloat :=
  try_except
    (a <- py_float lat1 ;; b <- py_float lon1 ;;
     c <- py_float lat2 ;; d <- py_float lon2 ;;
     r <- haversine_rad (radians a) (radians b) (radians c) (radians d) ;;
     Ret (Fin r))
    PInf.

(** The [preference_bonus] accumulated by [calculate_composite_score]. *)
Definition preference_bonus (route : RouteDict) (preferences : Preferences) : R :=
  (if prefer_main_roads preferences then
     let main_road_pct := get_main_road_percentage route 0 in
     main_road_pct / 100 * 0.35
     + (if Rgtb main_road_pct 70 then 0.15 else 0)
   else 0)
  + (if prefer_well_lit preferences
     then get_lighting_score route 5 / 10 * 0.15 else 0)
  + (if prefer_populated preferences
     then get_population_score route 5 / 10 * 0.15 else 0).

(** [calculate_composite_score(route, preferences)]. *)
Definition calculate_composite_score (route : RouteDict)
    (preferences : Preferences) : R :=
  let normalized_safety := rd_safety_score route / 100 in
  let normalized_distance :=
    py_max 0 (1 - distance_km (rd_geometry route) / 30) in
  let crime_penalty :=
    (rd_crime_density route * 0.3 + rd_max_crime_exposure route * 0.7) / 20 in
  let crime_penalty := py_min 1 crime_penalty in
  let safety_component := normalized_safety * (1 - crime_penalty * 0.5) in
  safety_component * safety_weight preferences
  + normalized_distance * distance_weight preferences
  + preference_bonus route preferences.

(** [optimize_route()], the handler of [POST /api/optimize-route]. *)
Definition optimize_route (w : World) (data : RequestJson) : Response :=
  handle
    (match parse_coordinates data with
     | inl answer => Ret answer
     | inr (start_lat, start_lon, end_lat, end_lon) =>
         preferences <- parse_preferences data ;;
         if negb (validate_coordinates (VFloat start_lat) (VFloat start_lon)
                  && validate_coordinates (VFloat end_lat) (VFloat end_lon))
         then Ret (Failure 400 "Coordinates outside Bangalore")
         else
           let st := collect_candidates haversine_distance w preferences
                       start_lat start_lon end_lat end_lon in
           if (length (all_routes st) =? 0)%nat
           then Ret (Failure 404 "No valid routes found")
           else
             let current_time := now w in
             let pool :=
               sort_by_composite
                 (map (score_route calculate_composite_score w
                         preferences current_time)
                      (all_routes st)) in
             validated_routes <- guardrail_loop w current_time pool [] ;;
             if (length validated_routes =? 0)%nat
             then Ret (Failure 404 "No routes passed safety validation")
             else Ret (regular_answer w pool validated_routes)
     end).

End App.

(* ------------------------------------------------------------------ *)
(** ** app/routes.py *)

Module Routes.

(** [haversine_distance]: every exception becomes [0]. *)
Definition haversine_distance (lat1 lon1 lat2 lon2 : pyval) : pyfloat :=
  try_except
    (a <- py_float lat1 ;; b <- py_float lon1 ;;
     c <- py_float lat2 ;; d <- py_float lon2 ;;
     r <- haversine_rad (radians a) (radians b) (radians c) (radians d) ;;
     Ret (Fin r))
    (Fin 0).

(** The [preference_bonus] accumulated by [calculate_composite_score]. *)
Definition preference_bonus (route : RouteDict) (preferences : Preferences) : R :=
  (if prefer_main_roads preferences then
     let main_road_pct := get_main_road_percentage route 0 in
     main_road_pct / 100 * 0.15
   else 0)
  + (if prefer_well_lit preferences
     then get_lighting_score route 5 / 10 * 0.15 else 0)
  + (if prefer_populated preferences
     then get_population_score route 5 / 10 * 0.15 else 0).

(** [calculate_composite_score(route, preferences)]. *)
Definition calculate_composite_score (route : RouteDict)
    (preferences : Preferences) : R :=
  let normalized_safety := rd_safety_score route / 100 in
  let normalized_distance :=
    py_max 0 (1 - distance_km (rd_geometry route) / 30) in
  let crime_penalty :=
    (rd_crime_density route * 0.3 + rd_max_crime_exposure route * 0.7) / 20 in
  let crime_penalty := py_min 1 crime_penalty in
  let safety_component := normalized_safety * (1 - crime_penalty * 0.5) in
  safety_component * safety_weight preferences
  + normalized_distance * distance_weight preferences
  + preference_bonus route preferences.

Definition direct_fallback_warning : string :=
  "⚠️ This route did not pass all safety validations. Please exercise caution.".

Definition best_available_warning : string :=
  "⚠️ This route has safety concerns. Please be cautious and consider alternative transportation.".

(** The route dict of the direct fallback: the first alternative of a
    fresh provider request, scored when the scorer answers and given the
    three basic metrics otherwise. *)
Definition direct_fallback_route (w : World) (preferences : Preferences)
    (fallback_route : Geometry) : RouteDict :=
  let label :=
    {| rank := 1;
       is_recommended := true;
       category := "direct";
       description := "Direct route (use with caution)";
       reasons := Some ["Most direct route available";
                        "Limited safety data available"]%string;
       warning := Some direct_fallback_warning |} in
  match calculate_route_safety_comprehensive w (route fallback_route)
          (Some preferences) with
  | Some safety =>
      {| rd_geometry := fallback_route;
         rd_has_waypoint_key := true;
         rd_safety_score := safety_score safety;
         rd_crime_density := crime_density safety;
         rd_max_crime_exposure := max_crime_exposure safety;
         rd_extra :=
           Some {| x_crime_hotspot_percentage := crime_hotspot_percentage safety;
                   x_lighting_score := lighting_score safety;
                   x_population_score := population_score safety;
                   x_traffic_score := traffic_score safety;
                   x_main_road_percentage := main_road_percentage safety;
                   x_crime_density_score := crime_density_score safety |};
         rd_source := None;
         rd_type := None;
         rd_composite_score := None;
         rd_ml_score := None;
         rd_rule_score := None;
         rd_guardrail_warnings := None;
         rd_label := Some label |}
  | None =>
      {| rd_geometry := fallback_route;
         rd_has_waypoint_key := true;
         rd_safety_score := 50;
         rd_crime_density := 0;
         rd_max_crime_exposure := 0;
         rd_extra := None;
         rd_source := None;
         rd_type := None;
         rd_composite_score := None;
         rd_ml_score := None;
         rd_rule_score := None;
         rd_guardrail_warnings := None;
         rd_label := Some label |}
  end.

(** The branch [if len(all_routes) == 0]: one more provider request
    without waypoint; its first alternative is returned unvalidated. *)
Definition empty_pool_answer (w : World) (preferences : Preferences)
    (calls : nat) (start_lat start_lon end_lat end_lon : R) : Response :=
  let '(direct_fallback, _) :=
    get_route_from_osrm haversine_distance w calls
      start_lat start_lon end_lat end_lon None in
  match truthy_routes direct_fallback with
  | fallback_route :: _ =>
      Success [direct_fallback_route w preferences fallback_route] 1
        "No validated routes found. Showing direct route with caution."
        true
  | [] => Failure 404 "No valid routes found"
  end.

(** The route dict of the fallback taken when the guardrails rejected
    every candidate: [all_routes[0]] of the sorted pool, relabelled. *)
Definition best_available_route (w : World) (fallback_route : RouteDict)
  : RouteDict :=
  set_label_and_pop fallback_route
    {| rank := 1;
       is_recommended := true;
       category := "direct";
       description := "Best available route (with warnings)";
       reasons :=
         Some (["Best route from available options"%string]
               ++ (if Rgtb (rd_crime_density fallback_route) 0
                   then [("⚠️ Crime density: "
                          ++ format_fixed (lib w) 1
                               (rd_crime_density fallback_route))%string]
                   else [])
               ++ (if Rgtb (get_main_road_percentage fallback_route 0) 50
                   then [(format_fixed (lib w) 0
                            (get_main_road_percentage fallback_route 0)
                          ++ "% main roads")%string]
                   else []));
       warning := Some best_available_warning |}.

(** The branch [if len(validated_routes) == 0]. *)
Definition all_rejected_answer (w : World) (pool : list RouteDict) : Response :=
  match pool with
  | fallback_route :: _ =>
      Success [best_available_route w fallback_route] (length pool)
        "All routes failed safety validation. Showing best available option with caution."
        true
  | [] => Failure 404 "No routes passed safety validation"
  end.

(** [api_optimize_route()], the handler of [POST /api/optimize-route]. *)
Definition api_optimize_route (w : World) (data : RequestJson) : Response :=
  handle
    (match parse_coordinates data with
     | inl answer => Ret answer
     | inr (start_lat, start_lon, end_lat, end_lon) =>
         preferences <- parse_preferences data ;;
         if negb (validate_coordinates (VFloat start_lat) (VFloat start_lon)
                  && validate_coordinates (VFloat end_lat) (VFloat end_lon))
         then Ret (Failure 400 "Coordinates outside Bangalore")
         else
           let st := collect_candidates haversine_distance w preferences
                       start_lat start_lon end_lat end_lon in
           if (length (all_routes st) =? 0)%nat
           then Ret (empty_pool_answer w preferences (calls st)
                       start_lat start_lon end_lat end_lon)
           else
             let current_time := now w in
             let pool :=
               sort_by_composite
                 (map (score_route calculate_composite_score w
                         preferences current_time)
                      (all_routes st)) in
             validated_routes <- guardrail_loop w current_time pool [] ;;
             if (length validated_routes =? 0)%nat
             then Ret (all_rejected_answer w pool)
             else Ret (regular_answer w pool validated_routes)
     end).

End Routes.

(* ------------------------------------------------------------------ *)
(** ** The interface names of the specification *)

(** [distanceKm(a, b)]: the distance helper of [app.py] on coordinates. *)
Definition distanceKm (a b : Coordinate) : pyfloat :=
  App.haversine_distance (VFloat (lat a)) (VFloat (lon a))
                         (VFloat (lat b)) (VFloat (lon b)).

(* ------------------------------------------------------------------ *)
(** ** Specification-level vocabulary *)

(** [float(v)] raises on [v]. *)
Definition unparsable (v : pyval) : Prop :=
  exists e, py_float v = Raise e.

(** The late-night window [[23:00, 05:00)] and the rejection window
    [[00:00, 03:00)] of the guardrail engine. *)
Definition in_late_night (h : Z) : bool := (23 <=? h)%Z || (h <? 5)%Z.
Definition in_early_morning (h : Z) : bool := (5 <=? h)%Z && (h <? 7)%Z.
Definition in_reject_window (h : Z) : bool := (0 <=? h)%Z && (h <? 3)%Z.

(** The time-of-day multiplier as the specification words it: 0.5 in the
    late-night window, 0.8 in the early morning, and a further 0.8 when
    the projected end hour is late night although the start hour is not. *)
Definition time_factor_spec (current_hour end_hour : Z) : R :=
  (if in_late_night current_hour then 0.5
   else if in_early_morning current_hour then 0.8
   else 1)
  * (if negb (in_late_night current_hour) && in_late_night end_hour
     then 0.8 else 1).

(** The routes an answer carries, and its fallback flag. *)
Definition routes_of (answer : Response) : list RouteDict :=
  match answer with
  | Success routes _ _ _ => routes
  | Failure _ _ => []
  end.

Definition is_fallback_of (answer : Response) : bool :=
  match answer with
  | Success _ _ _ fb => fb
  | Failure _ _ => false
  end.

(** The RouteFingerprint of a route dict. *)
Definition fingerprint (w : World) (r : RouteDict) : option string :=
  calculate_route_hash w (route (rd_geometry r)).

Definition score_in_range (r : RouteDict) : Prop :=
  0 <= rd_safety_score r <= 100.

(** What phases 1 and 2 maintain: every pooled route passed the
    connectivity validator, its fingerprint exists and is recorded in the
    dedup set, and fingerprints are pairwise distinct. *)
Definition pool_ok
    (haversine_distance : pyval -> pyval -> pyval -> pyval -> pyfloat)
    (w : World) (routes : list RouteDict) (hashes : list string) : Prop :=
  Forall (fun r =>
            validate_route_connectivity haversine_distance
              (route (rd_geometry r)) 0.5 = true
            /\ exists h, fingerprint w r = Some h /\ In h hashes) routes
  /\ NoDup (map (fingerprint w) routes).

Definition explore_ok
    (haversine_distance : pyval -> pyval -> pyval -> pyval -> pyfloat)
    (w : World) (st : Explore) : Prop :=
  pool_ok haversine_distance w (all_routes st) (route_hashes st).

(** The head of a list has the largest composite score of the list. *)
Definition head_is_best (l : list RouteDict) : Prop :=
  match l with
  | [] => True
  | best :: _ => forall r, In r l -> composite_key r <= composite_key best
  end.

(** The pre-guardrail candidate pool of a parsed request: the validated
    candidates, scored and sorted by composite score (phases 1 to 3). *)
Definition request_pool
    (haversine_distance : pyval -> pyval -> pyval -> pyval -> pyfloat)
    (cs : RouteDict -> Preferences -> R) (w : World)
    (preferences : Preferences) (a b c d : R) : list RouteDict :=
  sort_by_composite
    (map (score_route cs w preferences (now w))
         (all_routes (collect_candidates haversine_distance w preferences a b c d))).

(** The lighting and population terms of the preference bonus, and the
    part of the composite score that precedes the bonus; the two copies
    of the ranker agree on them. *)
Definition other_bonus (r : RouteDict) (preferences : Preferences) : R :=
  (if prefer_well_lit preferences
   then get_lighting_score r 5 / 10 * 0.15 else 0)
  + (if prefer_populated preferences
     then get_population_score r 5 / 10 * 0.15 else 0).

Definition ranking_base (r : RouteDict) (preferences : Preferences) : R :=
  rd_safety_score r / 100
  * (1 - py_min 1 ((rd_crime_density r * 0.3 + rd_max_crime_exposure r * 0.7) / 20)
         * 0.5)
  * safety_weight preferences
  + py_max 0 (1 - distance_km (rd_geometry r) / 30) * distance_weight preferences.

(* ------------------------------------------------------------------ *)
(** ** Scenarios *)

(** Library functions for the scenarios: formatting and hashing are
    fixed strings, the local hour of a timestamp is 1 AM. *)
Definition demo_lib : PyLib :=
  {| format_fixed := fun _ _ => "0.0000"%string;
     str_float := fun _ => "0.5"%string;
     md5_hexdigest := fun _ => "d41d8cd98f00b204e9800998ecf8427e"%string;
     fromtimestamp_hour := fun _ => 1%Z |}.

Definition no_crimes : DataFrame :=
  mkDataFrame ["Latitude"; "Longitude"]%string [].

Definition no_lights : DataFrame :=
  mkDataFrame ["Latitude"; "Longitude"; "lighting_score"]%string [].

Definition no_people : DataFrame :=
  mkDataFrame ["Latitude"; "Longitude"; "population_density";
               "traffic_level"; "is_main_road"]%string [].

(** A provider that answers every request with one two-point alternative
    from (12.97, 77.59) to (12.973, 77.59), about 334 m along a meridian. *)
Definition demo_osrm (n : nat) (q : OsrmQuery) : result OsrmJson :=
  Ret {| code := Some "Ok"%string;
         routes := Some [ {| geometry := Some [(77.59, 12.97); (77.59, 12.973)];
                             distance := Some 334;
                             duration := Some 60;
                             legs := None |} ] |}.

(** The world at 1 AM, with empty datasets and no ML. *)
Definition night_world : World :=
  {| lib := demo_lib;
     crime_data := no_crimes;
     lighting_data := no_lights;
     population_data := no_people;
     ML_AVAILABLE := false;
     ml_model := None;
     osrm_get := demo_osrm;
     now := mkDateTime 1 0 0 |}.

Definition demo_request : RequestJson :=
  {| start_lat := Some (VFloat 12.97);
     start_lon := Some (VFloat 77.59);
     end_lat := Some (VFloat 12.973);
     end_lon := Some (VFloat 77.59);
     req_prefer_main_roads := None;
     req_prefer_well_lit := None;
     req_prefer_populated := None;
     req_safety_weight := None;
     req_distance_weight := None |}.

Definition default_preferences : Preferences :=
  {| prefer_main_roads := false;
     prefer_well_lit := false;
     prefer_populated := false;
     safety_weight := 0.7;
     distance_weight := 0.3 |}.

Definition demo_geometry : Geometry :=
  {| route := [(12.97, 77.59); (12.973, 77.59)];
     distance_km := 334 / 1000;
     duration_min := 60 / 60;
     waypoint := None;
     steps := [] |}.

(** A route that runs on main roads only, and the preference for them. *)
Definition main_road_route : RouteDict :=
  candidate demo_geometry
    {| safety_score := 100;
       crime_density := 0;
       max_crime_exposure := 0;
       crime_hotspot_percentage := 0;
       lighting_score := 5;
       population_score := 5;
       traffic_score := 5;
       main_road_percentage := 100;
       crime_density_score := 100 |}
    "direct_1" "direct".

Definition main_road_preferences : Preferences :=
  {| prefer_main_roads := true;
     prefer_well_lit := false;
     prefer_populated := false;
     safety_weight := 0.7;
     distance_weight := 0.3 |}.

(** Every stored value of column [c] is non-negative. *)
Definition nonneg_column (df : DataFrame) (c : string) : Prop :=
  Forall (fun row => 0 <= row c) (df_rows df).

(** One recorded crime at (12.97, 77.59), in an otherwise quiet world. *)
Definition one_crime : DataFrame :=
  mkDataFrame ["Latitude"; "Longitude"]%string
    [fun c => if (c =? "Latitude")%string then 12.97 else 77.59].

Definition one_crime_world : World :=
  {| lib := demo_lib;
     crime_data := one_crime;
     lighting_data := no_lights;
     population_data := no_people;
     ML_AVAILABLE := false;
     ml_model := None;
     osrm_get := demo_osrm;
     now := mkDateTime 1 0 0 |}.

(** A two-point geometry whose points both lie within 0.003 degrees of
    that crime. *)
Definition short_route : list point := [(12.97, 77.59); (12.971, 77.59)].

(** Two runs of the sampling loop of the scorer, the second one over at
    least as much crime, everything else equal and non-negative. *)
Definition acc_related (acc1 acc2 : ScoreAcc) : Prop :=
  (total_crime acc1 <= total_crime acc2)%nat
  /\ (max_crime_at_point acc1 <= max_crime_at_point acc2)%nat
  /\ (crime_hotspot_count acc1 <= crime_hotspot_count acc2)%nat
  /\ total_lighting acc1 = total_lighting acc2
  /\ total_population acc1 = total_population acc2
  /\ total_traffic acc1 = total_traffic acc2
  /\ main_road_count acc1 = main_road_count acc2
  /\ 0 <= total_lighting acc1
  /\ 0 <= total_population acc1
  /\ 0 <= total_traffic acc1.

(** The datasets hold no negative lighting score, population density or
    traffic level. *)
Definition nonneg_datasets (w : World) : Prop :=
  nonneg_column (lighting_data w) "lighting_score"
  /\ nonneg_column (population_data w) "population_density"
  /\ nonneg_column (population_data w) "traffic_level".

(** Where a pooled route comes from: a provider geometry that passed both
    geometric validators, with the metrics the scorer gave it. *)
Definition from_scorer
    (haversine_distance : pyval -> pyval -> pyval -> pyval -> pyfloat)
    (w : World) (preferences : Preferences) (a b c d : R) (r : RouteDict) : Prop :=
  exists g s src ty,
    r = candidate g s src ty
    /\ validate_route_connectivity haversine_distance (route g) 0.5 = true
    /\ detect_route_backtracking haversine_distance (route g) a b c d = true
    /\ calculate_route_safety_comprehensive w (route g) (Some preferences)
       = Some s.

(* ------------------------------------------------------------------ *)
(** ** Further vocabulary *)




(** The positions [calculate_route_hash] reads in a route of [n] points. *)
Definition sample_indices (n : nat) : list nat :=
  [0; n / 4; n / 2; 3 * n / 4; n - 1]%nat.

(** The closed box of the service area. *)
Definition in_service_area (x y : R) : Prop :=
  12.704192 <= x <= 13.173706 /\ 77.269876 <= y <= 77.850066.

(** The distance between consecutive points [i] and [i + 1] of a route. *)
Definition gap_at
    (haversine_distance : pyval -> pyval -> pyval -> pyval -> pyfloat)
    (route_points : list point) (i : nat) : pyfloat :=
  hav haversine_distance
    (fst (nth i route_points (0, 0))) (snd (nth i route_points (0, 0)))
    (fst (nth (S i) route_points (0, 0))) (snd (nth (S i) route_points (0, 0))).

(** [preferences.get(flag)] never turns from true to false between the
    two preference sets. *)
Definition flags_le (p1 p2 : option Preferences) : Prop :=
  let flag (p : option Preferences) (key : Preferences -> bool) :=
    match p with Some x => key x | None => false end in
  (flag p1 prefer_well_lit = true -> flag p2 prefer_well_lit = true)
  /\ (flag p1 prefer_populated = true -> flag p2 prefer_populated = true)
  /\ (flag p1 prefer_main_roads = true -> flag p2 prefer_main_roads = true).

(** Two route dicts that differ in their safety score only as far as the
    ranker is concerned. *)
Definition same_but_safety (r1 r2 : RouteDict) : Prop :=
  rd_geometry r1 = rd_geometry r2
  /\ rd_crime_density r1 = rd_crime_density r2
  /\ rd_max_crime_exposure r1 = rd_max_crime_exposure r2
  /\ rd_extra r1 = rd_extra r2.

(** The request carries no true [prefer_main_roads]. *)
Definition main_roads_not_requested (data : RequestJson) : Prop :=
  match req_prefer_main_roads data with
  | Some v => py_bool v = false
  | None => True
  end.

(** The label of a returned route at position [idx] of the answer. *)
Definition labelled_at (idx : nat) (r : RouteDict) : Prop :=
  exists l, rd_label r = Some l
            /\ rank l = S idx
            /\ is_recommended l = (idx =? 0)%nat.


(* ------------------------------------------------------------------ *)
(** ** Further scenarios *)

(** Six points 0.001 degrees apart on the meridian 77.59, and the same
    route with its third point moved 0.01 degrees east: the two agree at
    the positions 0, 1, 3, 4 and 5 that the fingerprint reads. *)
Definition meridian_geometry : Geometry :=
  {| route := [(12.970, 77.59); (12.971, 77.59); (12.972, 77.59);
               (12.973, 77.59); (12.974, 77.59); (12.975, 77.59)];
     distance_km := 556 / 1000;
     duration_min := 120 / 60;
     waypoint := None;
     steps := [] |}.

Definition lookalike_geometry : Geometry :=
  {| route := [(12.970, 77.59); (12.971, 77.59); (12.972, 77.60);
               (12.973, 77.59); (12.974, 77.59); (12.975, 77.59)];
     distance_km := 2700 / 1000;
     duration_min := 600 / 60;
     waypoint := None;
     steps := [] |}.

Definition quiet_metrics : SafetyMetrics :=
  {| safety_score := 100;
     crime_density := 0;
     max_crime_exposure := 0;
     crime_hotspot_percentage := 0;
     lighting_score := 5;
     population_score := 5;
     traffic_score := 5;
     main_road_percentage := 0;
     crime_density_score := 100 |}.

(** One population record at (12.97, 77.59), on a main road, in an
    otherwise empty world. *)
Definition main_road_record : DataFrame :=
  mkDataFrame ["Latitude"; "Longitude"; "population_density";
               "traffic_level"; "is_main_road"]%string
    [fun c => if (c =? "Latitude")%string then 12.97
              else if (c =? "Longitude")%string then 77.59
              else if (c =? "population_density")%string then 8000
              else if (c =? "traffic_level")%string then 7
              else 1].

Definition main_road_world : World :=
  {| lib := demo_lib;
     crime_data := no_crimes;
     lighting_data := no_lights;
     population_data := main_road_record;
     ML_AVAILABLE := false;
     ml_model := None;
     osrm_get := demo_osrm;
     now := mkDateTime 14 0 0 |}.

(** Twenty-one points 0.0001 degrees apart, going north from that
    record. *)
Definition slow_walk : list point :=
  map (fun k => (12.97 + INR k * 0.0001, 77.59)) (seq 0 21).

(** Every point of the route counts as a main-road point for
    [check_route_main_road_coverage]. *)
Definition all_on_main_roads (w : World) (route_points : list point) : Prop :=
  forall p, In p route_points ->
            snd (calculate_population_score w (fst p) (snd p) 0.003) = true.

(** The dict [get_route_from_osrm] builds is built from the provider's
    alternative [r] for the request from [(a, b)] to [(c, d)]: the
    coordinates swapped to [[lat, lon]], both ends within 0.2 km of the
    requested ends, distance in km and duration in minutes. *)
Definition built_from
    (haversine_distance : pyval -> pyval -> pyval -> pyval -> pyfloat)
    (a b c d : R) (wp : option Waypoint) (r : OsrmRoute) (g : Geometry) : Prop :=
  exists coordinates dist dur,
    geometry r = Some coordinates
    /\ (2 <= length coordinates)%nat
    /\ route g = map (fun coord => (snd coord, fst coord)) coordinates
    /\ gtb (hav haversine_distance a b
              (fst (nth 0 (route g) (0, 0))) (snd (nth 0 (route g) (0, 0))))
           (Fin 0.2) = false
    /\ gtb (hav haversine_distance c d
              (fst (nth (length (route g) - 1) (route g) (0, 0)))
              (snd (nth (length (route g) - 1) (route g) (0, 0))))
           (Fin 0.2) = false
    /\ distance r = Some dist /\ distance_km g = dist / 1000
    /\ duration r = Some dur /\ duration_min g = dur / 60
    /\ waypoint g = wp.

(** The steps of all legs of a provider alternative, and whether a step
    carries a ['maneuver']. *)
Definition provider_steps (r : OsrmRoute) : list OsrmStep :=
  match legs r with
  | Some l => flat_map (fun leg => match leg_steps leg with
                                   | Some s => s
                                   | None => []
                                   end) l
  | None => []
  end.

Definition has_maneuver (s : OsrmStep) : bool :=
  match maneuver s with Some _ => true | None => false end.

(** What the waypoint phase keeps: the pool holds [base] routes plus one
    per counted waypoint route, and the counter is within its cap. *)
Definition counted (base : nat) (st : Explore) : Prop :=
  length (all_routes st) = (base + waypoint_count st)%nat
  /\ (waypoint_count st <= max_waypoints)%nat.


(** The route dict [r] with its safety score replaced. *)
Definition with_safety_score (r : RouteDict) (score : R) : RouteDict :=
  set_guardrail r score [].


(** The category a label carries, if any. *)
Definition category_of_route (r : RouteDict) : option string :=
  option_map category (rd_label r).

(** The daytime world with the ML step switched on and no trained model:
    predictions come from the heuristic of [predict_safety_score]. *)
Definition heuristic_world : World :=
  {| lib := demo_lib;
     crime_data := no_crimes;
     lighting_data := no_lights;
     population_data := no_people;
     ML_AVAILABLE := true;
     ml_model := None;
     osrm_get := demo_osrm;
     now := mkDateTime 14 0 0 |}.

(** A crime record at (12.97, 77.59), and frames holding two and three
    of them. *)
Definition crime_record : string -> R :=
  fun c => if (c =? "Latitude")%string then 12.97 else 77.59.

Definition two_crimes : DataFrame :=
  mkDataFrame ["Latitude"; "Longitude"]%string [crime_record; crime_record].

Definition three_crimes : DataFrame :=
  mkDataFrame ["Latitude"; "Longitude"]%string
    [crime_record; crime_record; crime_record].

(** The world at 1 AM with two, and with three, recorded crimes. *)
Definition two_crime_world : World :=
  {| lib := demo_lib;
     crime_data := two_crimes;
     lighting_data := no_lights;
     population_data := no_people;
     ML_AVAILABLE := false;
     ml_model := None;
     osrm_get := demo_osrm;
     now := mkDateTime 1 0 0 |}.

Definition three_crime_world : World :=
  {| lib := demo_lib;
     crime_data := three_crimes;
     lighting_data := no_lights;
     population_data := no_people;
     ML_AVAILABLE := false;
     ml_model := None;
     osrm_get := demo_osrm;
     now := mkDateTime 1 0 0 |}.

(** One lighting record at (12.97, 77.59) whose score is negative, as a
    faulty entry of the dataset would be. *)
Definition dark_lights : DataFrame :=
  mkDataFrame ["Latitude"; "Longitude"; "lighting_score"]%string
    [fun c => if (c =? "Latitude")%string then 12.97
              else if (c =? "Longitude")%string then 77.59
              else -100].

(** The daytime world with that lighting record, without and with one
    recorded crime. *)
Definition dark_world : World :=
  {| lib := demo_lib;
     crime_data := no_crimes;
     lighting_data := dark_lights;
     population_data := no_people;
     ML_AVAILABLE := false;
     ml_model := None;
     osrm_get := demo_osrm;
     now := mkDateTime 14 0 0 |}.

Definition dark_crime_world : World :=
  {| lib := demo_lib;
     crime_data := one_crime;
     lighting_data := dark_lights;
     population_data := no_people;
     ML_AVAILABLE := false;
     ml_model := None;
     osrm_get := demo_osrm;
     now := mkDateTime 14 0 0 |}.

(** The request of the scenarios, asking for main roads. *)
Definition main_road_request : RequestJson :=
  {| start_lat := Some (VFloat 12.97);
     start_lon := Some (VFloat 77.59);
     end_lat := Some (VFloat 12.973);
     end_lon := Some (VFloat 77.59);
     req_prefer_main_roads := Some (VBool true);
     req_prefer_well_lit := None;
     req_prefer_populated := None;
     req_safety_weight := None;
     req_distance_weight := None |}.

(** The totals the sampling loop of the scorer reaches on a two-point
    route without population records nearby, when each point has
    [crimes] crimes (at most 3, so no hotspot) and lighting score
    [light] nearby. *)
Definition two_point_totals (crimes : nat) (light : R) : ScoreAcc :=
  {| total_crime := crimes + crimes;
     max_crime_at_point := crimes;
     crime_hotspot_count := 0;
     total_lighting := 0 + light + light;
     total_population := 0 + 5 + 5;
     total_traffic := 0 + 5 + 5;
     main_road_count := 0 |}.

(** The length of a polyline as [detect_route_backtracking] adds it up:
    the sum of the distances between consecutive points. *)
Definition polyline_length
    (haversine_distance : pyval -> pyval -> pyval -> pyval -> pyfloat)
    (route_points : list point) : pyfloat :=
  fold_left (fun acc i => add acc (gap_at haversine_distance route_points i))
            (seq 0 (length route_points - 1)) (Fin 0).

(* ------------------------------------------------------------------ *)
(** ** app/routes.py: the heatmap endpoints and [/api/calculate-route] *)

Module RoutesApi.

(** [s.split(',')]. *)
Fixpoint split_comma (s : string) : list string :=
  match s with
  | EmptyString => [EmptyString]
  | String ch rest =>
      if (String ch EmptyString =? ",")%string
      then EmptyString :: split_comma rest
      else
        match split_comma rest with
        | h :: t => String ch h :: t
        | [] => [String ch EmptyString]
        end
  end.

(** [df.empty]: no row or no column. *)
Definition df_empty (df : DataFrame) : bool :=
  (df_len df =? 0)%nat || (length (df_columns df) =? 0)%nat.

(** [int(x)] of a float: truncation towards zero. *)
Definition py_int (x : R) : Z :=
  if Rleb 0 x then Zfloor x else (- Zfloor (- x))%Z.

(** The JSON body of a heatmap answer: the count and the points. *)
Record HeatmapAnswer : Type := mkHeatmapAnswer {
  heat_total : nat;
  heat_data : list (list R)
}.

Section Heatmaps.

(** [float(s)] on a [str]: the number the text denotes, if it denotes
    one. *)
Variable parse_float : string -> option R.

Definition str_value (s : string) : pyval :=
  match parse_float s with
  | Some r => VNumStr s r
  | None => VBadStr s
  end.

(** [_filter_bbox(df, bbox)].  Unpacking [map(float, bbox)] into four
    names raises [ValueError] unless [bbox] has four items; the handler
    returns the frame as it came. *)
Definition _filter_bbox (df : DataFrame) (bbox : list string) : DataFrame :=
  if df_empty df then df
  else
    try_except
      (match bbox with
       | [a; b; c; d] =>
           min_lat <- py_float (str_value a) ;;
           min_lon <- py_float (str_value b) ;;
           max_lat <- py_float (str_value c) ;;
           max_lon <- py_float (str_value d) ;;
           if has_column df "Latitude" && has_column df "Longitude" then
             Ret (mkDataFrame (df_columns df)
                    (filter (fun row =>
                               Rgeb (row "Latitude"%string) min_lat
                               && Rleb (row "Latitude"%string) max_lat
                               && Rgeb (row "Longitude"%string) min_lon
                               && Rleb (row "Longitude"%string) max_lon)
                            (df_rows df)))
           else Raise KeyError
       | _ => Raise ValueError
       end)
      df.

(** The lines the three heatmap endpoints start with: the frame, cut to
    the box when the query carries a non-empty [bbox] of four parts. *)
Definition boxed (df : DataFrame) (bbox : option string) : DataFrame :=
  match bbox with
  | Some s =>
      if negb (s =? "")%string then
        let parts := split_comma s in
        if (length parts =? 4)%nat then _filter_bbox df parts else df
      else df
  | None => df
  end.

(** The body the three endpoints share: an empty frame gives the empty
    answer; otherwise the columns are selected (a missing one is a
    [KeyError], which no handler catches), the first [cap] rows are kept
    and [cells] builds the point of a row. *)
Definition heatmap (df : DataFrame) (bbox : option string)
    (columns : list string) (cap : nat) (cells : (string -> R) -> list R)
  : result HeatmapAnswer :=
  let df := boxed df bbox in
  if df_empty df then Ret {| heat_total := 0; heat_data := [] |}
  else if forallb (has_column df) columns then
    let subset := firstn cap (df_rows df) in
    let data := map cells subset in
    Ret {| heat_total := length data; heat_data := data |}
  else Raise KeyError.

(** [api_crime_heatmap()]. *)
Definition api_crime_heatmap (w : World) (bbox : option string)
  : result HeatmapAnswer :=
  heatmap (crime_data w) bbox ["Latitude"; "Longitude"]%string 2000
    (fun row => [row "Latitude"%string; row "Longitude"%string]).

(** [api_lighting_heatmap()]. *)
Definition api_lighting_heatmap (w : World) (bbox : option string)
  : result HeatmapAnswer :=
  heatmap (lighting_data w) bbox
    ["Latitude"; "Longitude"; "lighting_score"]%string 5000
    (fun row => [row "Latitude"%string; row "Longitude"%string;
                 row "lighting_score"%string]).

(** [api_population_heatmap()]; the last cell is [int(r['is_main_road'])]. *)
Definition api_population_heatmap (w : World) (bbox : option string)
  : result HeatmapAnswer :=
  heatmap (population_data w) bbox
    ["Latitude"; "Longitude"; "population_density"; "traffic_level";
     "is_main_road"]%string 5000
    (fun row => [row "Latitude"%string; row "Longitude"%string;
                 row "population_density"%string; row "traffic_level"%string;
                 IZR (py_int (row "is_main_road"%string))]).

End Heatmaps.

(** *** [/api/calculate-route] *)

(** An argument of a Python call. *)
Inductive PyArg : Type :=
| ArgRoute (route_points : list point)
| ArgFrame (df : DataFrame)
| ArgPreferences (preferences : option Preferences).

(** Binding the arguments of a call to a function declared
    [def f(route, preferences=None)]: positional arguments fill [route]
    and then [preferences]; no [route], a third positional argument, or
    [preferences] given both by position and by keyword is a
    [TypeError]. *)
Definition bind_route_preferences (positional : list PyArg)
    (keyword_preferences : option PyArg) : result (PyArg * option PyArg) :=
  match positional, keyword_preferences with
  | [], _ => Raise TypeError
  | [r], kw => Ret (r, kw)
  | [r; p], None => Ret (r, Some p)
  | [_; _], Some _ => Raise TypeError
  | _ :: _ :: _ :: _, _ => Raise TypeError
  end.

(** A call of [calculate_route_safety_comprehensive] with the given
    positional arguments and keyword [preferences], once they are bound. *)
Definition call_route_safety (w : World) (positional : list PyArg)
    (keyword_preferences : option PyArg) : result (option SafetyMetrics) :=
  '(r, p) <- bind_route_preferences positional keyword_preferences ;;
  match r, p with
  | ArgRoute route_points, None =>
      Ret (calculate_route_safety_comprehensive w route_points None)
  | ArgRoute route_points, Some (ArgPreferences preferences) =>
      Ret (calculate_route_safety_comprehensive w route_points preferences)
  | _, _ => Raise TypeError
  end.

(** What [requests.get] gives back: the status code and the parsed body
    ([response.json()] may raise). *)
Record HttpResponse : Type := mkHttpResponse {
  status_code : nat;
  json : result OsrmJson
}.

(** The answers of [/api/calculate-route]. *)
Inductive CalcAnswer : Type :=
| CalcSuccess (route_coords : list point) (distance_rounded : R) (time : Z)
              (safety : option R)
| CalcError (status : nat) (error : string).

(** [api_calculate_route()], for a request body that is a JSON object.
    [http_get] is the provider request, an exception of [requests] being a
    [Raise]. *)
Definition api_calculate_route (w : World)
    (http_get : OsrmQuery -> result HttpResponse) (data : RequestJson)
  : CalcAnswer :=
  let float_of (v : option pyval) :=
    py_float (match v with Some x => x | None => VNone end) in
  try_except
    (a <- float_of (start_lat data) ;;
     b <- float_of (start_lon data) ;;
     c <- float_of (end_lat data) ;;
     d <- float_of (end_lon data) ;;
     response <- http_get {| q_start := (a, b); q_end := (c, d);
                             q_waypoint := None |} ;;
     if negb (status_code response =? 200)%nat
     then Ret (CalcError 500 "Route calculation failed")
     else
       route_data <- json response ;;
       match routes route_data with
       | None | Some [] => Ret (CalcError 404 "No route found")
       | Some (first :: _) =>
           coordinates <-
             match geometry first with
             | Some coords => Ret coords
             | None => Raise KeyError
             end ;;
           let route_coords :=
             map (fun coord => (snd coord, fst coord)) coordinates in
           dist <- match distance first with
                   | Some x => Ret x
                   | None => Raise KeyError
                   end ;;
           dur <- match duration first with
                  | Some x => Ret x
                  | None => Raise KeyError
                  end ;;
           let distance_km := dist / 1000 in
           let duration_min := py_int (dur / 60) in
           safety_details <-
             call_route_safety w
               [ArgRoute route_coords; ArgFrame (crime_data w);
                ArgFrame (lighting_data w); ArgFrame (population_data w)]
               (Some (ArgPreferences None)) ;;
           let safety :=
             match safety_details with
             | Some s => Some (py_round (safety_score s / 10) 1)
             | None => None
             end in
           Ret (CalcSuccess route_coords (py_round distance_km 2)
                  duration_min safety)
       end)
    (CalcError 500 "Failed to calculate route").

End RoutesApi.

(* ================================================================== *)
(** * Properties *)

(** ** Booleans that decide real comparisons *)

Lemma Rltb_true (x y : R) : x < y -> Rltb x y = true.
Proof. intros H; unfold Rltb; destruct (Rlt_dec x y); [reflexivity | contradiction]. Qed.

Lemma Rltb_false (x y : R) : y <= x -> Rltb x y = false.
Proof. intros H; unfold Rltb; destruct (Rlt_dec x y); [lra | reflexivity]. Qed.

Lemma Rleb_true (x y : R) : x <= y -> Rleb x y = true.
Proof. intros H; unfold Rleb; destruct (Rle_dec x y); [reflexivity | contradiction]. Qed.

Lemma Rleb_false (x y : R) : y < x -> Rleb x y = false.
Proof. intros H; unfold Rleb; destruct (Rle_dec x y); [lra | reflexivity]. Qed.

Lemma Rltb_spec (x y : R) : Rltb x y = true <-> x < y.
Proof.
  unfold Rltb; destruct (Rlt_dec x y); split; intros; auto; discriminate.
Qed.

Lemma Rleb_spec (x y : R) : Rleb x y = true <-> x <= y.
Proof.
  unfold Rleb; destruct (Rle_dec x y); split; intros; auto; discriminate.
Qed.

(** Decide the boolean comparisons of a goal whose operands are closed
    arithmetic, leaving linear side conditions to [lra]. *)
Ltac rcmp :=
  repeat first
    [ rewrite Rltb_true by lra
    | rewrite Rltb_false by lra
    | rewrite Rleb_true by lra
    | rewrite Rleb_false by lra ].

Lemma py_min_Rmin (a b : R) : py_min a b = Rmin a b.
Proof.
  unfold py_min, Rltb, Rmin.
  destruct (Rlt_dec b a), (Rle_dec a b); lra.
Qed.

Lemma py_max_Rmax (a b : R) : py_max a b = Rmax a b.
Proof.
  unfold py_max, Rgtb, Rltb, Rmax.
  destruct (Rlt_dec a b), (Rle_dec a b); lra.
Qed.

Lemma np_clip_bounds (x lo hi : R) : lo <= hi -> lo <= np_clip x lo hi <= hi.
Proof.
  intros H; unfold np_clip, Rmin, Rmax.
  destruct (Rle_dec x lo), (Rle_dec lo hi), (Rle_dec x hi); lra.
Qed.

Lemma np_clip_id (x lo hi : R) : lo <= x <= hi -> np_clip x lo hi = x.
Proof.
  intros H; unfold np_clip, Rmin, Rmax.
  destruct (Rle_dec x lo), (Rle_dec lo hi), (Rle_dec x hi); lra.
Qed.

(** ** Rounding *)

Lemma round_half_even_bounds (x : R) :
  x - 1 / 2 <= IZR (round_half_even x) <= x + 1 / 2.
Proof.
  unfold round_half_even.
  pose proof (Zfloor_bound x) as B.
  destruct (Rltb (x - IZR (Zfloor x)) (1 / 2)) eqn:E1.
  - apply Rltb_spec in E1; lra.
  - destruct (Rltb (1 / 2) (x - IZR (Zfloor x))) eqn:E2.
    + apply Rltb_spec in E2; rewrite plus_IZR; lra.
    + assert (x - IZR (Zfloor x) = 1 / 2).
      { unfold Rltb in E1, E2.
        destruct (Rlt_dec (x - IZR (Zfloor x)) (1 / 2)); [discriminate |].
        destruct (Rlt_dec (1 / 2) (x - IZR (Zfloor x))); [discriminate |].
        lra. }
      destruct (Z.even (Zfloor x)); [| rewrite plus_IZR]; lra.
Qed.

Lemma round_half_even_IZR (z : Z) : round_half_even (IZR z) = z.
Proof.
  unfold round_half_even; rewrite ZfloorZ.
  rewrite Rltb_true by lra; reflexivity.
Qed.

Lemma round_half_even_mono (x y : R) :
  x <= y -> (round_half_even x <= round_half_even y)%Z.
Proof.
  intros Hxy.
  pose proof (Zfloor_le x y Hxy) as Hf.
  pose proof (Zfloor_bound x) as Bx.
  pose proof (Zfloor_bound y) as By.
  destruct (Z.eq_dec (Zfloor x) (Zfloor y)) as [E | NE].
  - unfold round_half_even; rewrite <- E.
    destruct (Rltb (x - IZR (Zfloor x)) (1 / 2)) eqn:X1.
    + destruct (Rltb (y - IZR (Zfloor x)) (1 / 2));
        [lia | destruct (Rltb (1 / 2) (y - IZR (Zfloor x))); [lia |]];
        destruct (Z.even (Zfloor x)); lia.
    + assert (Y1 : Rltb (y - IZR (Zfloor x)) (1 / 2) = false).
      { apply Rltb_false.
        unfold Rltb in X1; destruct (Rlt_dec (x - IZR (Zfloor x)) (1 / 2));
          [discriminate | lra]. }
      rewrite Y1.
      destruct (Rltb (1 / 2) (x - IZR (Zfloor x))) eqn:X2.
      * apply Rltb_spec in X2.
        rewrite (Rltb_true (1 / 2) (y - IZR (Zfloor x))) by lra; lia.
      * destruct (Rltb (1 / 2) (y - IZR (Zfloor x)));
          destruct (Z.even (Zfloor x)); lia.
  - assert (Zfloor x + 1 <= Zfloor y)%Z by lia.
    assert (round_half_even x <= Zfloor x + 1)%Z.
    { unfold round_half_even.
      destruct (Rltb _ _); [lia |].
      destruct (Rltb _ _); [lia |].
      destruct (Z.even _); lia. }
    assert (Zfloor y <= round_half_even y)%Z.
    { unfold round_half_even.
      destruct (Rltb _ _); [lia |].
      destruct (Rltb _ _); [lia |].
      destruct (Z.even _); lia. }
    lia.
Qed.

Lemma pow10_pos (n : nat) : 0 < 10 ^ n.
Proof. apply pow_lt; lra. Qed.

Lemma py_round_mono (x y : R) (n : nat) :
  x <= y -> py_round x n <= py_round y n.
Proof.
  intros H; unfold py_round.
  pose proof (pow10_pos n) as P.
  apply Rmult_le_compat_r; [left; apply Rinv_0_lt_compat; exact P |].
  apply IZR_le, round_half_even_mono.
  apply Rmult_le_compat_r; lra.
Qed.

Lemma py_round_IZR (z : Z) (n : nat) : py_round (IZR z) n = IZR z.
Proof.
  unfold py_round.
  pose proof (pow10_pos n) as P.
  replace (IZR z * 10 ^ n) with (IZR (z * 10 ^ Z.of_nat n)).
  - rewrite round_half_even_IZR, mult_IZR.
    rewrite <- pow_IZR. field; lra.
  - rewrite mult_IZR, <- pow_IZR; reflexivity.
Qed.

Lemma py_round_range (x : R) (n : nat) (lo hi : Z) :
  IZR lo <= x <= IZR hi -> IZR lo <= py_round x n <= IZR hi.
Proof.
  intros [Hlo Hhi]; split.
  - rewrite <- (py_round_IZR lo n); apply py_round_mono; exact Hlo.
  - rewrite <- (py_round_IZR hi n); apply py_round_mono; exact Hhi.
Qed.

(** ** The distance helper *)

Lemma haversine_a_refl (lat lon : R) : haversine_a lat lon lat lon = 0.
Proof.
  unfold haversine_a; cbv zeta.
  replace ((lat - lat) / 2) with 0 by lra.
  replace ((lon - lon) / 2) with 0 by lra.
  rewrite sin_0; ring.
Qed.

Lemma haversine_a_sym (lat1 lon1 lat2 lon2 : R) :
  haversine_a lat1 lon1 lat2 lon2 = haversine_a lat2 lon2 lat1 lon1.
Proof.
  unfold haversine_a; cbv zeta.
  replace ((lat1 - lat2) / 2) with (- ((lat2 - lat1) / 2)) by lra.
  replace ((lon1 - lon2) / 2) with (- ((lon2 - lon1) / 2)) by lra.
  rewrite !sin_neg; ring.
Qed.

(** The haversine term is a squared half-chord: it stays in [[0, 1]],
    so in exact arithmetic neither [sqrt] nor [asin] leaves its domain. *)
Lemma haversine_a_range (lat1 lon1 lat2 lon2 : R) :
  0 <= haversine_a lat1 lon1 lat2 lon2 <= 1.
Proof.
  unfold haversine_a; cbv zeta.
  set (u := (lat2 - lat1) / 2). set (v := (lon2 - lon1) / 2).
  assert (Hc : cos lat1 * cos lat2 = (cos (lat2 - lat1) + cos (lat2 + lat1)) / 2).
  { rewrite cos_minus, cos_plus; lra. }
  assert (Hd : cos (lat2 - lat1) = 1 - 2 * (sin u) ^ 2).
  { replace (lat2 - lat1) with (2 * u) by (unfold u; lra).
    rewrite cos_2a_sin; simpl; ring. }
  pose proof (COS_bound (lat2 + lat1)) as [B1 B2].
  pose proof (sin2_cos2 u) as Su. pose proof (sin2_cos2 v) as Sv.
  unfold Rsqr in Su, Sv.
  assert (0 <= sin u * sin u) by nra.
  assert (0 <= sin v * sin v) by nra.
  assert (0 <= cos u * cos u) by nra.
  assert (0 <= cos v * cos v) by nra.
  rewrite Hc, Hd. simpl.
  split; nra.
Qed.

Lemma haversine_rad_total (lat1 lon1 lat2 lon2 : R) :
  haversine_rad lat1 lon1 lat2 lon2 =
  Ret (2 * asin (sqrt (haversine_a lat1 lon1 lat2 lon2)) * 6371).
Proof.
  unfold haversine_rad; cbv zeta.
  pose proof (haversine_a_range lat1 lon1 lat2 lon2) as [H0 H1].
  unfold math_sqrt; rewrite Rltb_false by exact H0; simpl.
  unfold math_asin.
  assert (0 <= sqrt (haversine_a lat1 lon1 lat2 lon2)) by apply sqrt_pos.
  assert (sqrt (haversine_a lat1 lon1 lat2 lon2) <= 1).
  { rewrite <- sqrt_1; apply sqrt_le_1_alt; exact H1. }
  rewrite !Rleb_true by lra; reflexivity.
Qed.

Lemma haversine_rad_refl (lat lon : R) : haversine_rad lat lon lat lon = Ret 0.
Proof.
  rewrite haversine_rad_total, haversine_a_refl, sqrt_0, asin_0.
  f_equal; ring.
Qed.

Lemma haversine_rad_sym (lat1 lon1 lat2 lon2 : R) :
  haversine_rad lat1 lon1 lat2 lon2 = haversine_rad lat2 lon2 lat1 lon1.
Proof. unfold haversine_rad; rewrite haversine_a_sym; reflexivity. Qed.

(** On floats the distance helpers of [app.py] and [app/routes.py] agree:
    the handler is never entered. *)
Lemma app_haversine_floats (a b c d : R) :
  App.haversine_distance (VFloat a) (VFloat b) (VFloat c) (VFloat d) =
  Fin (2 * asin (sqrt (haversine_a (radians a) (radians b)
                                   (radians c) (radians d))) * 6371).
Proof.
  unfold App.haversine_distance; simpl.
  rewrite haversine_rad_total; reflexivity.
Qed.

Lemma routes_haversine_floats (a b c d : R) :
  Routes.haversine_distance (VFloat a) (VFloat b) (VFloat c) (VFloat d) =
  App.haversine_distance (VFloat a) (VFloat b) (VFloat c) (VFloat d).
Proof.
  unfold Routes.haversine_distance, App.haversine_distance; simpl.
  rewrite haversine_rad_total; reflexivity.
Qed.

Lemma app_haversine_same_point (a b : R) :
  App.haversine_distance (VFloat a) (VFloat b) (VFloat a) (VFloat b) = Fin 0.
Proof.
  unfold App.haversine_distance; simpl.
  rewrite haversine_rad_refl; reflexivity.
Qed.

(** Two points on one meridian, the second at most 180 degrees north of
    the first: the distance is the arc [6371 * dlat]. *)
Lemma app_haversine_same_lon (lat1 lat2 lon : R) :
  0 <= lat2 - lat1 <= 180 ->
  App.haversine_distance (VFloat lat1) (VFloat lon) (VFloat lat2) (VFloat lon) =
  Fin ((lat2 - lat1) * (PI / 180) * 6371).
Proof.
  intros [H0 H1].
  rewrite app_haversine_floats.
  unfold haversine_a; cbv zeta.
  replace ((radians lon - radians lon) / 2) with 0 by lra.
  rewrite sin_0.
  set (x := (radians lat2 - radians lat1) / 2).
  assert (Hx : x = (lat2 - lat1) * (PI / 180) / 2) by (unfold x, radians; lra).
  pose proof PI_RGT_0 as Hpi.
  assert (Hx0 : 0 <= x) by (rewrite Hx; nra).
  assert (Hx1 : x <= PI / 2) by (rewrite Hx; nra).
  replace ((sin x) ^ 2 + cos (radians lat1) * cos (radians lat2) * 0 ^ 2)
    with (Rsqr (sin x)) by (unfold Rsqr; ring).
  assert (Hs : 0 <= sin x) by (apply sin_ge_0; lra).
  rewrite sqrt_Rsqr by exact Hs.
  rewrite asin_sin by lra.
  f_equal; rewrite Hx; lra.
Qed.

Lemma PI_gt_3 : 3 < PI.
Proof. pose proof PI2_3_2; lra. Qed.

(** C10.  For all coordinates [a] and [b], [distanceKm(a, a)] is exactly
    [0] and [distanceKm] is symmetric: [distanceKm(a, b) = distanceKm(b, a)]. *)
Theorem distanceKm_zero_and_symmetric (a b : Coordinate) :
  distanceKm a a = Fin 0 /\ distanceKm a b = distanceKm b a.
Proof.
  split.
  - unfold distanceKm; apply app_haversine_same_point.
  - unfold distanceKm, App.haversine_distance; simpl.
    rewrite (haversine_rad_sym (radians (lat a))); reflexivity.
Qed.

(** C8, as amended.  In [app.py], whenever one of the four arguments
    fails to parse as a number, [haversine_distance] returns [+inf] and
    raises nothing. *)
Theorem app_haversine_inf_on_invalid (lat1 lon1 lat2 lon2 : pyval) :
  unparsable lat1 \/ unparsable lon1 \/ unparsable lat2 \/ unparsable lon2 ->
  App.haversine_distance lat1 lon1 lat2 lon2 = PInf.
Proof.
  unfold unparsable, App.haversine_distance.
  intros [[e H] | [[e H] | [[e H] | [e H]]]].
  - rewrite H; reflexivity.
  - rewrite H; destruct (py_float lat1); reflexivity.
  - rewrite H; destruct (py_float lat1), (py_float lon1); reflexivity.
  - rewrite H; destruct (py_float lat1), (py_float lon1), (py_float lat2);
      reflexivity.
Qed.

Lemma app_haversine_inf_on_None :
  unparsable VNone /\
  App.haversine_distance VNone (VFloat 77.59) (VFloat 12.98) (VFloat 77.6) = PInf.
Proof.
  assert (H : unparsable VNone) by (exists TypeError; reflexivity).
  split; [exact H |].
  apply (app_haversine_inf_on_invalid VNone (VFloat 77.59) (VFloat 12.98) (VFloat 77.6)).
  left; exact H.
Defined.

(** C8, counterexample to [+inf] in every copy: on an argument that does
    not parse, the copy in [app/routes.py] returns [0] and the copy in
    [app/safety/guardrails.py] raises. *)
Lemma haversine_copies_disagree_on_invalid :
  unparsable VNone /\
  Routes.haversine_distance VNone (VFloat 77.59) (VFloat 12.98) (VFloat 77.6)
    = Fin 0 /\
  Fin 0 <> PInf /\
  Guardrails.haversine_distance VNone (VFloat 77.59) (VFloat 12.98) (VFloat 77.6)
    = Raise TypeError.
Proof.
  split; [exists TypeError; reflexivity |].
  split; [reflexivity |].
  split; [discriminate | reflexivity].
Qed.

(** ** The guardrail engine *)

Section GuardrailFacts.

Variable lib : PyLib.
Variable now : DateTime.

Lemma check_time_safe (t : DateTime) (dur : R) :
  fst (fst (Guardrails.check_time_based_safety lib t dur))
  = negb (in_late_night (hour t)).
Proof.
  unfold Guardrails.check_time_based_safety, in_late_night; cbv zeta.
  destruct ((23 <=? hour t)%Z || (hour t <? 5)%Z); simpl.
  - reflexivity.
  - destruct ((5 <=? hour t)%Z && (hour t <? 7)%Z);
      destruct ((23 <=? _)%Z || (_ <? 5)%Z); reflexivity.
Qed.

Lemma check_time_factor (t : DateTime) (dur : R) :
  snd (fst (Guardrails.check_time_based_safety lib t dur))
  = time_factor_spec (hour t) (fromtimestamp_hour lib (timestamp t + dur)).
Proof.
  unfold Guardrails.check_time_based_safety, time_factor_spec,
    in_late_night, in_early_morning; cbv zeta.
  destruct ((23 <=? hour t)%Z || (hour t <? 5)%Z); simpl.
  - lra.
  - destruct ((5 <=? hour t)%Z && (hour t <? 7)%Z);
      destruct ((23 <=? _)%Z || (_ <? 5)%Z); simpl; lra.
Qed.

(** The verdict: invalid exactly in the rejection window. *)
Lemma reject_window_spec (t : DateTime) (dur : R) :
  (if negb (fst (fst (Guardrails.check_time_based_safety lib t dur)))
      && (0 <=? hour t)%Z && (hour t <? 3)%Z
   then false else true)
  = negb (in_reject_window (hour t)).
Proof.
  rewrite check_time_safe, negb_involutive.
  unfold in_late_night, in_reject_window.
  destruct (23 <=? hour t)%Z eqn:A, (hour t <? 5)%Z eqn:B,
           (0 <=? hour t)%Z eqn:C, (hour t <? 3)%Z eqn:D;
    simpl; try reflexivity; lia.
Qed.

(** Without extracted coordinates the three data guardrails are skipped,
    whatever the datasets. *)
Lemma guardrails_without_coords (info : Guardrails.RouteInfo) (score : R)
    (t : DateTime) (cd ld pd : option DataFrame) :
  Guardrails.extract_route_coords
    (match Guardrails.info_steps info with Some s => s | None => [] end) = [] ->
  Guardrails.apply_safety_guardrails lib now info score (Some t) cd ld pd =
  let dur := match Guardrails.info_duration info with Some d => d | None => 0 end in
  let v := Guardrails.check_time_based_safety lib t dur in
  Ret (negb (in_reject_window (hour t)),
       np_clip (score * snd (fst v)) 0 100,
       snd v).
Proof.
  intros Hc; unfold Guardrails.apply_safety_guardrails; cbv zeta.
  rewrite Hc.
  rewrite <- (reject_window_spec t
     (match Guardrails.info_duration info with Some d => d | None => 0 end)).
  destruct (Guardrails.check_time_based_safety lib t _) as [[ts tf] tw].
  destruct cd, ld, pd; reflexivity.
Qed.

(** With no dataset at all the three data guardrails are skipped too. *)
Lemma guardrails_without_data (info : Guardrails.RouteInfo) (score : R)
    (t : DateTime) :
  Guardrails.apply_safety_guardrails lib now info score (Some t) None None None =
  let dur := match Guardrails.info_duration info with Some d => d | None => 0 end in
  let v := Guardrails.check_time_based_safety lib t dur in
  Ret (negb (in_reject_window (hour t)),
       np_clip (score * snd (fst v)) 0 100,
       snd v).
Proof.
  unfold Guardrails.apply_safety_guardrails; cbv zeta.
  rewrite <- (reject_window_spec t
     (match Guardrails.info_duration info with Some d => d | None => 0 end)).
  destruct (Guardrails.check_time_based_safety lib t _) as [[ts tf] tw].
  reflexivity.
Qed.

(** Whenever the engine answers, it rejects exactly in the rejection
    window. *)
Lemma guardrails_verdict (info : Guardrails.RouteInfo) (score : R)
    (t : DateTime) (cd ld pd : option DataFrame) :
  match Guardrails.apply_safety_guardrails lib now info score (Some t) cd ld pd with
  | Ret (is_valid, _, _) => is_valid = negb (in_reject_window (hour t))
  | Raise _ => True
  end.
Proof.
  unfold Guardrails.apply_safety_guardrails; cbv zeta.
  rewrite <- (reject_window_spec t
     (match Guardrails.info_duration info with Some d => d | None => 0 end)).
  destruct (Guardrails.check_time_based_safety lib t _) as [[ts tf] tw].
  cbn [fst snd].
  repeat match goal with
         | |- context [bind ?m _] =>
             destruct m as [[? ?] |]; cbn [bind]; try exact I
         end.
  reflexivity.
Qed.

(** Whenever the engine answers, the adjusted score is the input score
    times the time-of-day factor times the product [k] of the data
    penalties that applied, clamped to [[0,100]]. *)
Lemma guardrails_score_form (info : Guardrails.RouteInfo) (score : R)
    (t : DateTime) (cd ld pd : option DataFrame) :
  match Guardrails.apply_safety_guardrails lib now info score (Some t) cd ld pd with
  | Ret (_, adjusted, _) =>
      exists k, 0 < k <= 1
        /\ adjusted
           = np_clip (score
                      * time_factor_spec (hour t)
                          (fromtimestamp_hour lib
                             (timestamp t
                              + match Guardrails.info_duration info with
                                | Some d => d | None => 0 end))
                      * k) 0 100
  | Raise _ => True
  end.
Proof.
  unfold Guardrails.apply_safety_guardrails; cbv zeta.
  rewrite <- (check_time_factor t).
  destruct (Guardrails.check_time_based_safety lib t _) as [[ts tf] tw].
  cbn [fst snd].
  set (coords := Guardrails.extract_route_coords _).
  destruct (0 <? length coords)%nat, cd as [cd |], ld as [ld |], pd as [pd |];
    cbn [bind];
    repeat match goal with
           | |- context [bind ?m _] =>
               destruct m as [[[? ?] ?] |]; cbn [bind]; try exact I
           end;
    repeat match goal with
           | |- context [negb ?b] => destruct b; cbn [negb andb]
           end;
    repeat match goal with
           | |- context [if ?c then _ * 0.8 else _] => destruct c
           end;
    first [ exists 1; split; [lra | f_equal; ring]
          | exists 0.7; split; [lra | f_equal; ring]
          | exists 0.8; split; [lra | f_equal; ring]
          | exists (0.7 * 0.8); split; [lra | f_equal; ring]
          | exists (0.8 * 0.8); split; [lra | f_equal; ring]
          | exists (0.7 * 0.8 * 0.8); split; [lra | f_equal; ring] ].
Qed.
End GuardrailFacts.

(** The optimizer passes polyline points as steps: nothing is extracted. *)
Lemma optimizer_steps_have_no_coords (points : list point) :
  Guardrails.extract_route_coords
    (map (fun p => Guardrails.StepList [fst p; snd p]) points) = [].
Proof.
  induction points as [| p rest IH]; [reflexivity |].
  simpl; exact IH.
Qed.

Lemma guard_eq (w : World) (t : DateTime) (r : RouteDict) :
  guard w t r =
  let v := Guardrails.check_time_based_safety (lib w) t
             (duration_min (rd_geometry r) * 60) in
  Ret (negb (in_reject_window (hour t)),
       np_clip (rd_safety_score r * snd (fst v)) 0 100,
       snd v).
Proof.
  unfold guard.
  rewrite guardrails_without_coords; [reflexivity |].
  apply optimizer_steps_have_no_coords.
Qed.

(** C4.  The time-of-day guardrail: the factor is 0.5 for a current hour
    in [[23,5)], 0.8 in [[5,7)], times a further 0.8 when only the projected
    end hour is in [[23,5)]; the engine multiplies the score by that factor
    (and by the data penalties, if any) before clamping; the verdict is
    invalid exactly for a current hour in [[0,3)], whatever the end hour
    and the datasets; the optimizer's guardrail call rejects a route at
    1 AM and accepts the same route at 14:00. *)
Theorem time_guardrail_factor_and_verdict :
  (forall lib t dur,
      snd (fst (Guardrails.check_time_based_safety lib t dur))
      = time_factor_spec (hour t) (fromtimestamp_hour lib (timestamp t + dur)))
  /\ (forall lib now info score t cd ld pd,
         match Guardrails.apply_safety_guardrails lib now info score
                 (Some t) cd ld pd with
         | Ret (is_valid, _, _) => is_valid = negb (in_reject_window (hour t))
         | Raise _ => True
         end)
  /\ (forall lib now info score t cd ld pd,
         match Guardrails.apply_safety_guardrails lib now info score
                 (Some t) cd ld pd with
         | Ret (_, adjusted, _) =>
             exists k, 0 < k <= 1
               /\ adjusted
                  = np_clip (score
                             * time_factor_spec (hour t)
                                 (fromtimestamp_hour lib
                                    (timestamp t
                                     + match Guardrails.info_duration info with
                                       | Some d => d | None => 0 end))
                             * k) 0 100
         | Raise _ => True
         end)
  /\ (forall lib now info score t,
         Guardrails.apply_safety_guardrails lib now info score
           (Some t) None None None =
         let dur := match Guardrails.info_duration info with
                    | Some d => d | None => 0 end in
         Ret (negb (in_reject_window (hour t)),
              np_clip (score * time_factor_spec (hour t)
                         (fromtimestamp_hour lib (timestamp t + dur))) 0 100,
              snd (Guardrails.check_time_based_safety lib t dur)))
  /\ (forall h, in_reject_window h = true <-> (0 <= h < 3)%Z)
  /\ (forall w r weekday timestamp,
         fst (fst (try_except (guard w (mkDateTime 1 weekday timestamp) r)
                              (true, 0, [])))
         = false
         /\ fst (fst (try_except (guard w (mkDateTime 14 weekday timestamp) r)
                                 (false, 0, [])))
            = true).
Proof.
  split; [intros; apply check_time_factor |].
  split; [intros; apply guardrails_verdict |].
  split; [intros; apply guardrails_score_form |].
  split.
  { intros; rewrite guardrails_without_data; cbv zeta.
    rewrite check_time_factor; reflexivity. }
  split.
  { intros h; unfold in_reject_window.
    rewrite andb_true_iff, Z.leb_le, Z.ltb_lt; reflexivity. }
  intros w r wd ts; rewrite !guard_eq; split; reflexivity.
Qed.

(** C5.  In every call the optimizer makes to the guardrail engine the
    polyline points are the steps, the coordinate list extracted from them
    is empty, the crime, lighting and isolation guardrails are skipped, and
    the adjusted score is the input score times the time-of-day factor,
    clamped to [[0,100]]. *)
Theorem optimizer_guardrails_time_only (w : World) (t : DateTime) (r : RouteDict) :
  Guardrails.info_steps (guardrail_argument r)
    = Some (map (fun p => Guardrails.StepList [fst p; snd p])
                (route (rd_geometry r)))
  /\ Guardrails.extract_route_coords
       (map (fun p => Guardrails.StepList [fst p; snd p])
            (route (rd_geometry r))) = []
  /\ guard w t r =
     Ret (negb (in_reject_window (hour t)),
          np_clip (rd_safety_score r
                   * time_factor_spec (hour t)
                       (fromtimestamp_hour (lib w)
                          (timestamp t + duration_min (rd_geometry r) * 60)))
                  0 100,
          snd (Guardrails.check_time_based_safety (lib w) t
                 (duration_min (rd_geometry r) * 60)))
  /\ 0 <= np_clip (rd_safety_score r
                   * time_factor_spec (hour t)
                       (fromtimestamp_hour (lib w)
                          (timestamp t + duration_min (rd_geometry r) * 60)))
                  0 100 <= 100.
Proof.
  split; [reflexivity |].
  split; [apply optimizer_steps_have_no_coords |].
  split.
  - rewrite guard_eq; cbv zeta; rewrite check_time_factor; reflexivity.
  - apply np_clip_bounds; lra.
Qed.

(** ** The composite ranker *)

(** C7, as amended.  In [app.py], with [prefer_main_roads] enabled the
    preference bonus is [(main_road_pct / 100) * 0.35], plus [0.15] when
    [main_road_pct] exceeds 70, plus the lighting and population terms;
    the composite score adds that bonus. *)
Theorem app_main_road_bonus (r : RouteDict) (preferences : Preferences) :
  prefer_main_roads preferences = true ->
  let main_road_pct := get_main_road_percentage r 0 in
  (main_road_pct > 70 ->
   App.preference_bonus r preferences
   = main_road_pct / 100 * 0.35 + 0.15 + other_bonus r preferences)
  /\ (main_road_pct <= 70 ->
      App.preference_bonus r preferences
      = main_road_pct / 100 * 0.35 + other_bonus r preferences)
  /\ App.calculate_composite_score r preferences
     = ranking_base r preferences + App.preference_bonus r preferences.
Proof.
  intros Hp; cbv zeta.
  split; [| split].
  - intros H; unfold App.preference_bonus, other_bonus, Rgtb.
    rewrite Hp, Rltb_true by lra; lra.
  - intros H; unfold App.preference_bonus, other_bonus, Rgtb.
    rewrite Hp, Rltb_false by lra; lra.
  - unfold App.calculate_composite_score, ranking_base; reflexivity.
Qed.

(** On a route that is all main roads the bonus of [app.py] holds the
    base term and the term for coverage above 70. *)
Lemma app_main_road_bonus_full_coverage :
  App.preference_bonus main_road_route main_road_preferences
  = get_main_road_percentage main_road_route 0 / 100 * 0.35 + 0.15
    + other_bonus main_road_route main_road_preferences.
Proof.
  destruct (app_main_road_bonus main_road_route main_road_preferences eq_refl)
    as [H _].
  apply H; cbn; lra.
Defined.

(** C7, counterexample to the rule holding in every copy of the ranker:
    on the same route, with [prefer_main_roads] enabled and 100 percent
    main roads, the bonus of [app/routes.py] is [0.15], not
    [0.35 + 0.15]. *)
Lemma routes_main_road_bonus_differs :
  prefer_main_roads main_road_preferences = true
  /\ get_main_road_percentage main_road_route 0 = 100
  /\ Routes.preference_bonus main_road_route main_road_preferences = 0.15
  /\ App.preference_bonus main_road_route main_road_preferences = 0.5
  /\ Routes.preference_bonus main_road_route main_road_preferences
     <> get_main_road_percentage main_road_route 0 / 100 * 0.35 + 0.15
        + other_bonus main_road_route main_road_preferences.
Proof.
  assert (HR : Routes.preference_bonus main_road_route main_road_preferences
               = 0.15).
  { unfold Routes.preference_bonus; cbn; lra. }
  split; [reflexivity |].
  split; [reflexivity |].
  split; [exact HR |].
  split.
  - unfold App.preference_bonus, Rgtb; cbn.
    rewrite Rltb_true by lra; lra.
  - rewrite HR; unfold other_bonus; cbn; lra.
Qed.

(** ** The candidate pool *)

Lemma NoDup_snoc {A : Type} (l : list A) (x : A) :
  NoDup l -> ~ In x l -> NoDup (l ++ [x]).
Proof.
  intros HN Hx; induction HN as [| y l Hy HN IH]; simpl.
  - constructor; [intros [] | constructor].
  - constructor.
    + intros Hin; apply in_app_or in Hin as [Hin | [-> | []]].
      * contradiction.
      * apply Hx; left; reflexivity.
    + apply IH; intros Hin; apply Hx; right; exact Hin.
Qed.

Section PoolFacts.

Variable haversine_distance : pyval -> pyval -> pyval -> pyval -> pyfloat.
Variable w : World.

Lemma fresh_hash_spec (oh : option string) (hashes : list string) (h : string) :
  fresh_hash oh hashes = Some h -> oh = Some h /\ ~ In h hashes.
Proof.
  unfold fresh_hash; destruct oh as [h' |]; [| discriminate].
  destruct (negb (h' =? "")%string); simpl; [| discriminate].
  destruct (existsb (String.eqb h') hashes) eqn:E; simpl; [discriminate |].
  intros [= <-]; split; [reflexivity |].
  intros Hin.
  assert (existsb (String.eqb h') hashes = true).
  { apply existsb_exists; exists h'; split; [exact Hin | apply String.eqb_refl]. }
  congruence.
Qed.

Lemma pool_ok_nil : pool_ok haversine_distance w [] [].
Proof. split; constructor. Qed.

Lemma pool_ok_add (routes : list RouteDict) (hashes : list string)
    (g : Geometry) (s : SafetyMetrics) (src ty h : string) :
  pool_ok haversine_distance w routes hashes ->
  validate_route_connectivity haversine_distance (route g) 0.5 = true ->
  fresh_hash (calculate_route_hash w (route g)) hashes = Some h ->
  pool_ok haversine_distance w (routes ++ [candidate g s src ty]) (hashes ++ [h]).
Proof.
  intros [HF HN] Hv Hfresh.
  apply fresh_hash_spec in Hfresh as [Hh Hnew].
  split.
  - apply Forall_app; split.
    + eapply Forall_impl; [| exact HF].
      intros r [Hc [h' [Hf Hin]]]; split; [exact Hc |].
      exists h'; split; [exact Hf | apply in_or_app; left; exact Hin].
    + constructor; [| constructor].
      split; [exact Hv |].
      exists h; split; [exact Hh | apply in_or_app; right; left; reflexivity].
  - rewrite map_app; cbn [map].
    replace (fingerprint w (candidate g s src ty)) with (Some h) by (symmetry; exact Hh).
    apply NoDup_snoc.
    + exact HN.
    + intros Hin. apply in_map_iff in Hin as [r [Hr Hin]].
      rewrite Forall_forall in HF.
      destruct (HF r Hin) as [_ [h' [Hf Hh']]].
      rewrite Hf in Hr; injection Hr as ->; contradiction.
Qed.


Lemma direct_step_ok (preferences : Preferences)
    (start_lat start_lon end_lat end_lon : R)
    (st : list RouteDict * list string) (entry : nat * Geometry) :
  pool_ok haversine_distance w (fst st) (snd st) ->
  pool_ok haversine_distance w
    (fst (direct_step haversine_distance w preferences
            start_lat start_lon end_lat end_lon st entry))
    (snd (direct_step haversine_distance w preferences
            start_lat start_lon end_lat end_lon st entry)).
Proof.
  intros H; destruct st as [routes hashes], entry as [idx g].
  unfold direct_step.
  destruct (validate_route_connectivity haversine_distance (route g) 0.5) eqn:Hv;
    cbn [negb]; [| exact H].
  destruct (detect_route_backtracking _ _ _ _ _ _); cbn [negb]; [| exact H].
  destruct (fresh_hash _ hashes) as [h |] eqn:Hf; [| exact H].
  destruct (calculate_route_safety_comprehensive w (route g) _) as [s |];
    [| exact H].
  destruct (check_route_main_road_coverage w (route g) 0.4) as [hm mp].
  destruct (prefer_main_roads preferences && Rltb mp 40); [exact H |].
  cbn [fst snd] in *.
  apply pool_ok_add; assumption.
Qed.

Lemma direct_fold_ok (preferences : Preferences)
    (start_lat start_lon end_lat end_lon : R)
    (entries : list (nat * Geometry)) (st : list RouteDict * list string) :
  pool_ok haversine_distance w (fst st) (snd st) ->
  pool_ok haversine_distance w
    (fst (fold_left (direct_step haversine_distance w preferences
                       start_lat start_lon end_lat end_lon) entries st))
    (snd (fold_left (direct_step haversine_distance w preferences
                       start_lat start_lon end_lat end_lon) entries st)).
Proof.
  revert st; induction entries as [| e rest IH]; intros st H; [exact H |].
  cbn [fold_left]; apply IH, direct_step_ok, H.
Qed.


Lemma waypoint_routes_loop_ok (preferences : Preferences)
    (start_lat start_lon end_lat end_lon : R)
    (waypoint_routes : list Geometry) (st : Explore) :
  explore_ok haversine_distance w st ->
  explore_ok haversine_distance w (waypoint_routes_loop haversine_distance w preferences
                start_lat start_lon end_lat end_lon waypoint_routes st).
Proof.
  revert st; induction waypoint_routes as [| g rest IH]; intros st H;
    [exact H |].
  cbn [waypoint_routes_loop].
  destruct (validate_route_connectivity haversine_distance (route g) 0.5) eqn:Hv;
    cbn [negb]; [| apply IH, H].
  destruct (detect_route_backtracking _ _ _ _ _ _); cbn [negb]; [| apply IH, H].
  destruct (fresh_hash _ (route_hashes st)) as [h |] eqn:Hf; [| apply IH, H].
  destruct (calculate_route_safety_comprehensive w (route g) _) as [s |];
    [| apply IH, H].
  destruct (prefer_main_roads preferences && Rltb (main_road_percentage s) 40);
    [apply IH, H |].
  assert (H' : explore_ok haversine_distance w
                 {| all_routes :=
                      all_routes st ++
                      [candidate g s
                         ("waypoint_" ++ str_of_nat (waypoint_count st))%string
                         "waypoint"];
                    route_hashes := route_hashes st ++ [h];
                    waypoint_count := S (waypoint_count st);
                    calls := calls st |}).
  { unfold explore_ok; cbn [all_routes route_hashes].
    apply pool_ok_add; assumption. }
  destruct (max_waypoints <=? _)%nat; [exact H' | apply IH, H'].
Qed.

Lemma waypoint_step_ok (preferences : Preferences)
    (start_lat start_lon end_lat end_lon : R) (base_distance : pyfloat)
    (perp_lat perp_lon position offset direction : R) (st : Explore) :
  explore_ok haversine_distance w st ->
  explore_ok haversine_distance w (waypoint_step haversine_distance w preferences
                start_lat start_lon end_lat end_lon base_distance
                perp_lat perp_lon position offset direction st).
Proof.
  intros H; unfold waypoint_step; cbv zeta.
  destruct (validate_coordinates _ _); cbn [negb]; [| exact H].
  destruct (gtb _ (Fin 1.8)); [exact H |].
  destruct (get_route_from_osrm _ _ _ _ _ _ _ _) as [wr calls'].
  apply waypoint_routes_loop_ok; exact H.
Qed.

Lemma for_until_full_inv {A : Type} (P : Explore -> Prop) (items : list A)
    (body : A -> Explore -> Explore) (st : Explore) :
  (forall item st', P st' -> P (body item st')) ->
  P st -> P (for_until_full items body st).
Proof.
  intros Hb; unfold for_until_full.
  revert st; induction items as [| x rest IH]; intros st H; [exact H |].
  cbn [fold_left]; apply IH.
  destruct (max_waypoints <=? waypoint_count st)%nat; [exact H | apply Hb, H].
Qed.

Lemma collect_candidates_ok (preferences : Preferences)
    (start_lat start_lon end_lat end_lon : R) :
  explore_ok haversine_distance w (collect_candidates haversine_distance w preferences
                start_lat start_lon end_lat end_lon).
Proof.
  unfold collect_candidates.
  destruct (get_route_from_osrm _ _ 0 _ _ _ _ None) as [direct_routes calls1].
  pose proof (direct_fold_ok preferences start_lat start_lon end_lat end_lon
                (enumerate (truthy_routes direct_routes)) ([], [])
                pool_ok_nil) as H1.
  destruct (fold_left _ _ ([], [])) as [routes1 hashes1].
  cbv zeta.
  destruct (if Rgtb _ 0 then _ else _) as [perp_lat perp_lon].
  apply for_until_full_inv; [| exact H1].
  intros position st1 Hs1; apply for_until_full_inv; [| exact Hs1].
  intros offset st2 Hs2; apply for_until_full_inv; [| exact Hs2].
  intros direction st3 Hs3; apply waypoint_step_ok; exact Hs3.
Qed.

End PoolFacts.

(** ** Phases 3 and 4 and the curation keep the geometry *)

Lemma score_route_geometry
    (cs : RouteDict -> Preferences -> R) (w : World)
    (preferences : Preferences) (t : DateTime) (r : RouteDict) :
  rd_geometry (score_route cs w preferences t r) = rd_geometry r.
Proof.
  unfold score_route.
  destruct (ML_AVAILABLE w); [| reflexivity].
  unfold ml_blend.
  destruct (ML.extract_route_features _ _ _) as [f | e]; [| reflexivity].
  cbn [bind].
  destruct (ML.predict_safety_score _ _) as [m | e]; reflexivity.
Qed.

Lemma score_route_composite
    (cs : RouteDict -> Preferences -> R) (w : World)
    (preferences : Preferences) (t : DateTime) (r : RouteDict) :
  rd_composite_score (score_route cs w preferences t r)
  = Some (cs r preferences).
Proof.
  unfold score_route.
  destruct (ML_AVAILABLE w); [| reflexivity].
  unfold ml_blend.
  destruct (ML.extract_route_features _ _ _) as [f | e]; [| reflexivity].
  cbn [bind].
  destruct (ML.predict_safety_score _ _) as [m | e]; reflexivity.
Qed.

Lemma map_score_route_fingerprints
    (cs : RouteDict -> Preferences -> R) (w : World)
    (preferences : Preferences) (t : DateTime) (l : list RouteDict) :
  map (fingerprint w) (map (score_route cs w preferences t) l)
  = map (fingerprint w) l.
Proof.
  rewrite map_map; apply map_ext; intros r.
  unfold fingerprint; rewrite score_route_geometry; reflexivity.
Qed.

(** *** Sorting *)

Lemma insert_desc_perm (x : RouteDict) (l : list RouteDict) :
  Permutation (insert_desc x l) (x :: l).
Proof.
  induction l as [| y t IH]; cbn [insert_desc]; [reflexivity |].
  destruct (Rgtb (composite_key y) (composite_key x)); [| reflexivity].
  rewrite IH; apply perm_swap.
Qed.

Lemma sort_by_composite_perm (l : list RouteDict) :
  Permutation (sort_by_composite l) l.
Proof.
  induction l as [| x t IH]; cbn; [reflexivity |].
  rewrite insert_desc_perm; constructor; exact IH.
Qed.

Lemma sort_by_composite_length (l : list RouteDict) :
  length (sort_by_composite l) = length l.
Proof. apply Permutation_length, sort_by_composite_perm. Qed.

Lemma insert_desc_head (x : RouteDict) (l : list RouteDict) :
  head_is_best l -> head_is_best (insert_desc x l).
Proof.
  destruct l as [| b t]; cbn [insert_desc head_is_best].
  - intros _ r [-> | []]; lra.
  - intros H.
    destruct (Rgtb (composite_key b) (composite_key x)) eqn:E.
    + intros r Hin.
      destruct Hin as [-> | Hin]; [lra |].
      apply (Permutation_in _ (insert_desc_perm x t)) in Hin.
      destruct Hin as [-> | Hin].
      * apply Rltb_spec in E; lra.
      * apply H; right; exact Hin.
    + assert (composite_key b <= composite_key x).
      { unfold Rgtb, Rltb in E.
        destruct (Rlt_dec (composite_key x) (composite_key b));
          [discriminate | lra]. }
      intros r [-> | Hin]; [lra |].
      specialize (H r Hin); lra.
Qed.

Lemma sort_by_composite_head (l : list RouteDict) :
  head_is_best (sort_by_composite l).
Proof.
  induction l as [| x t IH]; cbn; [exact I |].
  apply insert_desc_head, IH.
Qed.

(** *** The guardrail loop *)

Section LoopFacts.

Variable w : World.
Variable t : DateTime.

(** The loop never raises, and what it returns is the accumulator
    followed by guardrail-adjusted copies of routes met in order. *)
Lemma guardrail_loop_spec (routes validated : list RouteDict) :
  exists out,
    guardrail_loop w t routes validated = Ret out
    /\ (forall P : RouteDict -> Prop,
           Forall P validated ->
           (forall r s ws, In r routes -> 0 <= s <= 100 ->
                           P (set_guardrail r s ws)) ->
           Forall P out)
    /\ (NoDup (map (fingerprint w) (validated ++ routes)) ->
        NoDup (map (fingerprint w) out))
    /\ (in_reject_window (hour t) = true -> out = validated)
    /\ (in_reject_window (hour t) = false -> routes <> [] -> out <> []).
Proof.
  revert validated; induction routes as [| r rest IH]; intros validated.
  - exists validated; cbn [guardrail_loop].
    split; [reflexivity |].
    split; [intros P H _; exact H |].
    split; [rewrite app_nil_r; auto |].
    split; [reflexivity | intros _ H; contradiction].
  - cbn [guardrail_loop]; rewrite guard_eq; cbv zeta; cbn [bind].
    destruct (in_reject_window (hour t)) eqn:Hw; cbn [negb].
    + destruct (IH validated) as [out [E [HP [HN [HR _]]]]].
      exists out; split; [exact E |].
      split.
      { intros P Hv Hs; apply HP; [exact Hv |].
        intros r' s ws Hin; apply Hs; right; exact Hin. }
      split.
      { intros H; apply HN.
        rewrite map_app in *; cbn [map] in H.
        eapply NoDup_remove_1; exact H. }
      split; [intros _; apply HR; reflexivity | discriminate].
    + set (s := np_clip _ 0 100).
      set (ws := snd (Guardrails.check_time_based_safety _ _ _)).
      assert (Hs : 0 <= s <= 100) by (apply np_clip_bounds; lra).
      assert (Hfp : map (fingerprint w) ((validated ++ [set_guardrail r s ws]) ++ rest)
                    = map (fingerprint w) (validated ++ r :: rest)).
      { rewrite <- app_assoc; cbn [app]; rewrite !map_app; reflexivity. }
      destruct (20 <=? length (validated ++ [set_guardrail r s ws]))%nat.
      * exists (validated ++ [set_guardrail r s ws]); split; [reflexivity |].
        split.
        { intros P Hv Hstep; apply Forall_app; split; [exact Hv |].
          constructor; [| constructor].
          apply Hstep; [left; reflexivity | exact Hs]. }
        split.
        { intros H; rewrite <- Hfp, map_app in H.
          eapply NoDup_app_remove_r; exact H. }
        split; [discriminate |].
        intros _ _ E; apply app_eq_nil in E as [_ E]; discriminate.
      * destruct (IH (validated ++ [set_guardrail r s ws]))
          as [out [E [HP [HN [_ HA]]]]].
        exists out; split; [exact E |].
        split.
        { intros P Hv Hstep; apply HP.
          - apply Forall_app; split; [exact Hv |].
            constructor; [| constructor].
            apply Hstep; [left; reflexivity | exact Hs].
          - intros r' s' ws' Hin; apply Hstep; right; exact Hin. }
        split; [intros H; apply HN; rewrite Hfp; exact H |].
        split; [discriminate |].
        intros _ _.
        destruct rest as [| r2 rest2].
        { cbn [guardrail_loop] in E; injection E as <-.
          intros E; apply app_eq_nil in E as [_ E]; discriminate. }
        apply HA; [reflexivity | discriminate].
Qed.

End LoopFacts.

(** *** Curation *)

Lemma enumerate_snd {A : Type} (l : list A) : map snd (enumerate l) = l.
Proof.
  unfold enumerate.
  generalize 0%nat; induction l as [| x t IH]; intros n; cbn; [reflexivity |].
  f_equal; apply IH.
Qed.

Lemma enumerate_length {A : Type} (l : list A) :
  length (enumerate l) = length l.
Proof.
  unfold enumerate; rewrite length_combine, length_seq; apply Nat.min_id.
Qed.

Lemma curate_route_geometry (w : World) (final : list RouteDict)
    (e : nat * RouteDict) :
  rd_geometry (curate_route w final e) = rd_geometry (snd e).
Proof.
  destruct e as [idx r]; unfold curate_route.
  destruct (category_of final idx r); reflexivity.
Qed.

Lemma curate_route_score (w : World) (final : list RouteDict)
    (e : nat * RouteDict) :
  rd_safety_score (curate_route w final e) = rd_safety_score (snd e).
Proof.
  destruct e as [idx r]; unfold curate_route.
  destruct (category_of final idx r); reflexivity.
Qed.

Lemma curate_length (w : World) (validated : list RouteDict) :
  (length (curate w validated) <= 7)%nat.
Proof.
  unfold curate; rewrite length_map, enumerate_length, length_firstn.
  apply Nat.le_min_l.
Qed.

Lemma curate_fingerprints (w : World) (validated : list RouteDict) :
  map (fingerprint w) (curate w validated)
  = map (fingerprint w) (firstn 7 validated).
Proof.
  unfold curate.
  rewrite <- (enumerate_snd (firstn 7 validated)) at 3.
  rewrite !map_map; apply map_ext; intros e.
  unfold fingerprint; rewrite curate_route_geometry; reflexivity.
Qed.

Lemma curate_scores (w : World) (validated : list RouteDict) :
  Forall score_in_range validated ->
  Forall score_in_range (curate w validated).
Proof.
  intros H; unfold curate.
  apply Forall_forall; intros r Hin.
  apply in_map_iff in Hin as [[idx r0] [<- Hin]].
  unfold score_in_range; rewrite curate_route_score; cbn [snd].
  assert (Hin0 : In r0 (firstn 7 validated)).
  { rewrite <- (enumerate_snd (firstn 7 validated)).
    apply in_map_iff; exists (idx, r0); split; [reflexivity | exact Hin]. }
  rewrite Forall_forall in H; apply H.
  rewrite <- (firstn_skipn 7 validated); apply in_or_app; left; exact Hin0.
Qed.

Lemma NoDup_firstn {A : Type} (n : nat) (l : list A) :
  NoDup l -> NoDup (firstn n l).
Proof.
  intros H; rewrite <- (firstn_skipn n l) in H.
  eapply NoDup_app_remove_r; exact H.
Qed.

Lemma firstn_map_comm {A B : Type} (f : A -> B) (n : nat) (l : list A) :
  firstn n (map f l) = map f (firstn n l).
Proof.
  revert l; induction n as [| n IH]; intros [| x t]; cbn; try reflexivity.
  f_equal; apply IH.
Qed.

(** ** What the two handlers can answer *)

Lemma parse_coordinates_failure (data : RequestJson) (answer : Response) :
  parse_coordinates data = inl answer ->
  exists status err, answer = Failure status err.
Proof.
  unfold parse_coordinates.
  destruct (start_lat data), (start_lon data), (end_lat data), (end_lon data);
    try (intros [= <-]; eexists; eexists; reflexivity).
  destruct (py_float p) as [x1 | []]; cbn [bind handle];
    [destruct (py_float p0) as [x2 | []]; cbn [bind handle];
       [destruct (py_float p1) as [x3 | []]; cbn [bind handle];
          [destruct (py_float p2) as [x4 | []]; cbn [bind handle] | .. ] | .. ]
    | .. ];
    try discriminate;
    intros [= <-]; eexists; eexists; reflexivity.
Qed.

(** The sorted pre-guardrail pool of a parsed request. *)
Lemma app_outcome (w : World) (data : RequestJson) :
  (exists status err, App.optimize_route w data = Failure status err)
  \/ exists preferences a b c d validated,
       validated <> []
       /\ guardrail_loop w (now w)
            (request_pool App.haversine_distance App.calculate_composite_score
               w preferences a b c d) [] = Ret validated
       /\ App.optimize_route w data
          = regular_answer w
              (request_pool App.haversine_distance App.calculate_composite_score
                 w preferences a b c d) validated.
Proof.
  unfold App.optimize_route.
  destruct (parse_coordinates data) as [answer | [[[a b] c] d]] eqn:Hp.
  { left; apply parse_coordinates_failure in Hp as [s [e ->]].
    exists s, e; reflexivity. }
  destruct (parse_preferences data) as [preferences | e]; cbn [bind handle];
    [| left; eexists; eexists; reflexivity].
  destruct (negb _); [left; eexists; eexists; reflexivity |].
  destruct (length _ =? 0)%nat; [left; eexists; eexists; reflexivity |].
  fold (request_pool App.haversine_distance App.calculate_composite_score
          w preferences a b c d).
  destruct (guardrail_loop_spec w (now w)
              (request_pool App.haversine_distance App.calculate_composite_score
                 w preferences a b c d) [])
    as [out [E _]].
  rewrite E; cbn [bind].
  destruct out as [| r0 out']; cbn [length Nat.eqb];
    [left; eexists; eexists; reflexivity |].
  right; exists preferences, a, b, c, d, (r0 :: out').
  split; [discriminate |]. split; [exact E | reflexivity].
Qed.

Lemma routes_outcome (w : World) (data : RequestJson) :
  (exists status err, Routes.api_optimize_route w data = Failure status err)
  \/ (exists preferences g msg,
         Routes.api_optimize_route w data
         = Success [Routes.direct_fallback_route w preferences g] 1 msg true)
  \/ (exists preferences a b c d best n msg,
         In best (request_pool Routes.haversine_distance
                    Routes.calculate_composite_score w preferences a b c d)
         /\ Routes.api_optimize_route w data
            = Success [Routes.best_available_route w best] n msg true)
  \/ exists preferences a b c d validated,
       validated <> []
       /\ guardrail_loop w (now w)
            (request_pool Routes.haversine_distance
               Routes.calculate_composite_score w preferences a b c d) []
          = Ret validated
       /\ Routes.api_optimize_route w data
          = regular_answer w
              (request_pool Routes.haversine_distance
                 Routes.calculate_composite_score w preferences a b c d)
              validated.
Proof.
  unfold Routes.api_optimize_route.
  destruct (parse_coordinates data) as [answer | [[[a b] c] d]] eqn:Hp.
  { left; apply parse_coordinates_failure in Hp as [s [e ->]].
    exists s, e; reflexivity. }
  destruct (parse_preferences data) as [preferences | e]; cbn [bind handle];
    [| left; eexists; eexists; reflexivity].
  destruct (negb _); [left; eexists; eexists; reflexivity |].
  destruct (length _ =? 0)%nat.
  { unfold Routes.empty_pool_answer.
    destruct (get_route_from_osrm _ _ _ _ _ _ _ None) as [fb calls'].
    destruct (truthy_routes fb);
      [left; eexists; eexists; reflexivity
      | right; left; eexists; eexists; eexists; reflexivity]. }
  fold (request_pool Routes.haversine_distance Routes.calculate_composite_score
          w preferences a b c d).
  destruct (guardrail_loop_spec w (now w)
              (request_pool Routes.haversine_distance
                 Routes.calculate_composite_score w preferences a b c d) [])
    as [out [E _]].
  rewrite E; cbn [bind].
  destruct out as [| r0 out']; cbn [length Nat.eqb].
  { unfold Routes.all_rejected_answer.
    destruct (request_pool Routes.haversine_distance
                Routes.calculate_composite_score w preferences a b c d)
      as [| best rest] eqn:Ep;
      [left; eexists; eexists; reflexivity |].
    right; right; left.
    exists preferences, a, b, c, d, best; eexists; eexists.
    split; [rewrite Ep; left; reflexivity | reflexivity]. }
  right; right; right; exists preferences, a, b, c, d, (r0 :: out').
  split; [discriminate |]. split; [exact E | reflexivity].
Qed.

Section RegularAnswer.

Variable haversine_distance : pyval -> pyval -> pyval -> pyval -> pyfloat.
Variable cs : RouteDict -> Preferences -> R.
Variable w : World.
Variable preferences : Preferences.
Variables a b c d : R.

Lemma request_pool_fingerprints :
  NoDup (map (fingerprint w)
           (request_pool haversine_distance cs w preferences a b c d)).
Proof.
  unfold request_pool.
  eapply Permutation_NoDup.
  - apply Permutation_map; symmetry; apply sort_by_composite_perm.
  - rewrite map_score_route_fingerprints.
    apply (collect_candidates_ok haversine_distance w preferences a b c d).
Qed.

Lemma regular_answer_ok (validated : list RouteDict) :
  guardrail_loop w (now w)
    (request_pool haversine_distance cs w preferences a b c d) [] = Ret validated ->
  let routes :=
    routes_of (regular_answer w
                 (request_pool haversine_distance cs w preferences a b c d)
                 validated) in
  (length routes <= 7)%nat
  /\ Forall score_in_range routes
  /\ NoDup (map (fingerprint w) routes).
Proof.
  intros E; cbv zeta; cbn [regular_answer routes_of].
  destruct (guardrail_loop_spec w (now w)
              (request_pool haversine_distance cs w preferences a b c d) [])
    as [out [E' [HP [HN _]]]].
  rewrite E in E'; injection E' as <-.
  split; [apply curate_length |].
  split.
  - apply curate_scores, HP; [constructor |].
    intros r s ws _ Hs; exact Hs.
  - rewrite curate_fingerprints, <- firstn_map_comm.
    apply NoDup_firstn, HN; cbn [app].
    apply request_pool_fingerprints.
Qed.

End RegularAnswer.

(** C3.  Within one request no two returned routes share a fingerprint,
    in either handler, and the candidate pool itself holds pairwise
    distinct fingerprints that are all recorded in the dedup set: a
    candidate enters only with a fingerprint the set does not hold yet. *)
Theorem returned_fingerprints_distinct (w : World) (data : RequestJson) :
  NoDup (map (fingerprint w) (routes_of (App.optimize_route w data)))
  /\ NoDup (map (fingerprint w) (routes_of (Routes.api_optimize_route w data)))
  /\ (forall hd preferences a b c d,
         let st := collect_candidates hd w preferences a b c d in
         NoDup (map (fingerprint w) (all_routes st))
         /\ forall r, In r (all_routes st) ->
                      exists h, fingerprint w r = Some h
                                /\ In h (route_hashes st))
  /\ (forall oh hashes,
         match fresh_hash oh hashes with
         | Some h => oh = Some h /\ ~ In h hashes
         | None => True
         end).
Proof.
  split.
  { destruct (app_outcome w data)
      as [[s [e ->]] | [p [a [b [c [d [v [_ [E ->]]]]]]]]].
    - constructor.
    - apply (regular_answer_ok _ _ w p a b c d v E). }
  split.
  { destruct (routes_outcome w data)
      as [[s [e ->]]
         | [[p [g [m ->]]]
           | [[p [a [b [c [d [best [n [m [_ ->]]]]]]]]]
             | [p [a [b [c [d [v [_ [E ->]]]]]]]]]]].
    - constructor.
    - cbn; constructor; [intros [] | constructor].
    - cbn; constructor; [intros [] | constructor].
    - apply (regular_answer_ok _ _ w p a b c d v E). }
  split.
  { intros hd p a b c d; cbv zeta.
    destruct (collect_candidates_ok hd w p a b c d) as [HF HN].
    split; [exact HN |].
    intros r Hin; rewrite Forall_forall in HF.
    destruct (HF r Hin) as [_ H]; exact H. }
  intros oh hashes.
  destruct (fresh_hash oh hashes) as [h |] eqn:E; [| exact I].
  apply (fresh_hash_spec oh hashes h E).
Qed.

(** ** Connectivity *)

Section Connectivity.

Variable haversine_distance : pyval -> pyval -> pyval -> pyval -> pyfloat.

Lemma connectivity_loop_gap (max_gap : R) (prefix suffix : list point)
    (current p q : point) :
  gtb (hav haversine_distance (fst p) (snd p) (fst q) (snd q)) (Fin max_gap)
    = true ->
  connectivity_loop haversine_distance max_gap current
    (prefix ++ p :: q :: suffix) = false
  /\ connectivity_loop haversine_distance max_gap p (q :: suffix) = false.
Proof.
  intros Hgap.
  assert (Hpq : connectivity_loop haversine_distance max_gap p (q :: suffix)
                = false).
  { cbn [connectivity_loop]; rewrite Hgap; reflexivity. }
  split; [| exact Hpq].
  revert current; induction prefix as [| x rest IH]; intros current.
  - cbn [app connectivity_loop]; rewrite Hgap.
    destruct (gtb (hav haversine_distance (fst current) _ _ _) _); reflexivity.
  - cbn [app]; cbn [connectivity_loop].
    destruct (gtb (hav haversine_distance (fst current) _ _ _) _);
      [reflexivity | apply IH].
Qed.

Lemma validate_route_connectivity_gap (max_gap : R)
    (prefix suffix : list point) (p q : point) :
  gtb (hav haversine_distance (fst p) (snd p) (fst q) (snd q)) (Fin max_gap)
    = true ->
  validate_route_connectivity haversine_distance
    (prefix ++ p :: q :: suffix) max_gap = false.
Proof.
  intros Hgap; unfold validate_route_connectivity.
  destruct (length _ <? 2)%nat; [reflexivity |].
  destruct prefix as [| x rest]; cbn [app].
  - apply (connectivity_loop_gap max_gap [] suffix p p q Hgap).
  - apply (connectivity_loop_gap max_gap rest suffix x p q Hgap).
Qed.

End Connectivity.

(** C9.  A geometry with two consecutive points more than 0.5 km apart
    (as the handler's own distance helper measures them) is rejected by
    the connectivity validator, and no route of the validated candidate
    pool has that geometry. *)
Theorem gap_route_rejected
    (haversine_distance : pyval -> pyval -> pyval -> pyval -> pyfloat)
    (prefix suffix : list point) (p q : point) :
  gtb (hav haversine_distance (fst p) (snd p) (fst q) (snd q)) (Fin 0.5) = true ->
  validate_route_connectivity haversine_distance
    (prefix ++ p :: q :: suffix) 0.5 = false
  /\ forall w preferences a b c d r,
       In r (all_routes
               (collect_candidates haversine_distance w preferences a b c d)) ->
       route (rd_geometry r) <> prefix ++ p :: q :: suffix.
Proof.
  intros Hgap.
  pose proof (validate_route_connectivity_gap haversine_distance 0.5
                prefix suffix p q Hgap) as Hrej.
  split; [exact Hrej |].
  intros w preferences a b c d r Hin E.
  destruct (collect_candidates_ok haversine_distance w preferences a b c d)
    as [HF _].
  rewrite Forall_forall in HF.
  destruct (HF r Hin) as [Hv _].
  rewrite E in Hv; congruence.
Qed.

(** The gap of the synthetic geometry: 0.009 degrees of latitude on one
    meridian, about 1.0008 km. *)
Lemma one_km_gap :
  gtb (hav App.haversine_distance 12.97 77.59 12.979 77.59) (Fin 0.5) = true.
Proof.
  unfold hav; rewrite app_haversine_same_lon by lra.
  unfold gtb, ltb; apply Rltb_true.
  pose proof PI_gt_3; lra.
Defined.

(** The 3-point geometry with one gap of about 1 km is rejected. *)
Lemma three_point_gap_rejected :
  validate_route_connectivity App.haversine_distance
    [(12.97, 77.59); (12.979, 77.59); (12.98, 77.59)] 0.5 = false
  /\ forall w preferences a b c d r,
       In r (all_routes
               (collect_candidates App.haversine_distance w preferences a b c d)) ->
       route (rd_geometry r) <> [(12.97, 77.59); (12.979, 77.59); (12.98, 77.59)].
Proof.
  exact (gap_route_rejected App.haversine_distance []
           [(12.98, 77.59)] (12.97, 77.59) (12.979, 77.59) one_km_gap).
Defined.

(** ** The pool only grows during the waypoint exploration *)

Section PoolGrows.

Variable haversine_distance : pyval -> pyval -> pyval -> pyval -> pyfloat.
Variable w : World.

Lemma waypoint_routes_loop_nonempty (preferences : Preferences)
    (start_lat start_lon end_lat end_lon : R)
    (waypoint_routes : list Geometry) (st : Explore) :
  all_routes st <> [] ->
  all_routes (waypoint_routes_loop haversine_distance w preferences
                start_lat start_lon end_lat end_lon waypoint_routes st) <> [].
Proof.
  revert st; induction waypoint_routes as [| g rest IH]; intros st H;
    [exact H |].
  cbn [waypoint_routes_loop].
  destruct (validate_route_connectivity _ _ _); cbn [negb]; [| apply IH, H].
  destruct (detect_route_backtracking _ _ _ _ _ _); cbn [negb]; [| apply IH, H].
  destruct (fresh_hash _ _) as [h |]; [| apply IH, H].
  destruct (calculate_route_safety_comprehensive _ _ _) as [s |];
    [| apply IH, H].
  destruct (prefer_main_roads preferences && _); [apply IH, H |].
  assert (H' : forall x n c,
             all_routes {| all_routes := all_routes st ++ [x];
                           route_hashes := route_hashes st ++ [h];
                           waypoint_count := n; calls := c |} <> []).
  { intros x n c E; cbn in E; apply app_eq_nil in E as [_ E]; discriminate. }
  destruct (max_waypoints <=? _)%nat; [apply H' | apply IH, H'].
Qed.

Lemma waypoint_step_nonempty (preferences : Preferences)
    (start_lat start_lon end_lat end_lon : R) (base_distance : pyfloat)
    (perp_lat perp_lon position offset direction : R) (st : Explore) :
  all_routes st <> [] ->
  all_routes (waypoint_step haversine_distance w preferences
                start_lat start_lon end_lat end_lon base_distance
                perp_lat perp_lon position offset direction st) <> [].
Proof.
  intros H; unfold waypoint_step; cbv zeta.
  destruct (validate_coordinates _ _); cbn [negb]; [| exact H].
  destruct (gtb _ (Fin 1.8)); [exact H |].
  destruct (get_route_from_osrm _ _ _ _ _ _ _ _) as [wr calls'].
  apply waypoint_routes_loop_nonempty; exact H.
Qed.

(** A direct alternative accepted in phase 1 stays in the pool. *)
Lemma collect_candidates_nonempty (preferences : Preferences)
    (start_lat start_lon end_lat end_lon : R) :
  fst (fold_left (direct_step haversine_distance w preferences
                    start_lat start_lon end_lat end_lon)
         (enumerate (truthy_routes
            (fst (get_route_from_osrm haversine_distance w 0
                    start_lat start_lon end_lat end_lon None))))
         ([], [])) <> [] ->
  all_routes (collect_candidates haversine_distance w preferences
                start_lat start_lon end_lat end_lon) <> [].
Proof.
  unfold collect_candidates.
  destruct (get_route_from_osrm _ _ 0 _ _ _ _ None) as [direct_routes calls1].
  cbn [fst].
  destruct (fold_left _ _ ([], [])) as [routes1 hashes1]; cbn [fst].
  intros H1; cbv zeta.
  destruct (if Rgtb _ 0 then _ else _) as [perp_lat perp_lon].
  apply (for_until_full_inv (fun st => all_routes st <> [])); [| exact H1].
  intros position st1 Hs1.
  apply (for_until_full_inv (fun st => all_routes st <> [])); [| exact Hs1].
  intros offset st2 Hs2.
  apply (for_until_full_inv (fun st => all_routes st <> [])); [| exact Hs2].
  intros direction st3 Hs3; apply waypoint_step_nonempty; exact Hs3.
Qed.

End PoolGrows.

(** ** The scenario at 1 AM *)

Section NightScenario.

Variable haversine_distance : pyval -> pyval -> pyval -> pyval -> pyfloat.

(** The distance helper agrees with the one of [app.py] on floats. *)
Hypothesis on_floats : forall a b c d,
  haversine_distance (VFloat a) (VFloat b) (VFloat c) (VFloat d)
  = App.haversine_distance (VFloat a) (VFloat b) (VFloat c) (VFloat d).

Lemma demo_valid_start :
  validate_coordinates (VFloat 12.97) (VFloat 77.59) = true.
Proof.
  unfold validate_coordinates, min_lat, max_lat, min_lon, max_lon; cbn.
  rcmp; reflexivity.
Qed.

Lemma demo_valid_end :
  validate_coordinates (VFloat 12.973) (VFloat 77.59) = true.
Proof.
  unfold validate_coordinates, min_lat, max_lat, min_lon, max_lon; cbn.
  rcmp; reflexivity.
Qed.

Lemma demo_direct_routes (n : nat) :
  get_route_from_osrm haversine_distance night_world n
    12.97 77.59 12.973 77.59 None = (Some [demo_geometry], S n).
Proof.
  unfold get_route_from_osrm.
  rewrite demo_valid_start, demo_valid_end; cbn [andb negb].
  cbn [night_world osrm_get demo_osrm bind code routes String.eqb
       Ascii.eqb Bool.eqb negb fold_left try_except].
  unfold osrm_route_entry; cbn [geometry length Nat.ltb Nat.leb map fst snd nth
                                Nat.sub distance duration].
  unfold hav; rewrite !on_floats, !app_haversine_same_point.
  unfold gtb, ltb; rewrite Rltb_false by lra; cbn [orb bind app].
  reflexivity.
Qed.

Lemma demo_connected :
  validate_route_connectivity haversine_distance
    [(12.97, 77.59); (12.973, 77.59)] 0.5 = true.
Proof.
  unfold validate_route_connectivity; cbn [length Nat.ltb Nat.leb].
  cbn [connectivity_loop fst snd]; unfold hav.
  rewrite on_floats, app_haversine_same_lon by lra.
  unfold gtb, ltb; rewrite Rltb_false; [reflexivity |].
  pose proof PI_4; lra.
Qed.

Lemma demo_pool_nonempty (preferences : Preferences) :
  prefer_main_roads preferences = false ->
  all_routes (collect_candidates haversine_distance night_world preferences
                12.97 77.59 12.973 77.59) <> [].
Proof.
  intros Hp; apply collect_candidates_nonempty.
  rewrite demo_direct_routes; cbn [fst truthy_routes enumerate length seq combine].
  cbn [fold_left]; unfold direct_step.
  cbn [demo_geometry route]; rewrite demo_connected; cbn [negb].
  cbn [detect_route_backtracking length Nat.ltb Nat.leb negb].
  cbn.
  rewrite Hp; cbn.
  intros E; discriminate.
Qed.

End NightScenario.

(** ** The fallback policy *)

Lemma guardrail_loop_all_rejected (w : World) (t : DateTime)
    (routes : list RouteDict) :
  in_reject_window (hour t) = true ->
  guardrail_loop w t routes [] = Ret [].
Proof.
  intros H.
  destruct (guardrail_loop_spec w t routes []) as [out [E [_ [_ [HR _]]]]].
  rewrite (HR H) in E; exact E.
Qed.

Lemma guardrail_loop_some_accepted (w : World) (t : DateTime)
    (routes : list RouteDict) :
  in_reject_window (hour t) = false -> routes <> [] ->
  guardrail_loop w t routes [] <> Ret [].
Proof.
  intros H Hne E.
  destruct (guardrail_loop_spec w t routes []) as [out [E' [_ [_ [_ HA]]]]].
  rewrite E in E'; injection E' as <-.
  exact (HA H Hne eq_refl).
Qed.

Lemma request_pool_length
    (hd : pyval -> pyval -> pyval -> pyval -> pyfloat)
    (cs : RouteDict -> Preferences -> R) (w : World)
    (preferences : Preferences) (a b c d : R) :
  length (request_pool hd cs w preferences a b c d)
  = length (all_routes (collect_candidates hd w preferences a b c d)).
Proof.
  unfold request_pool; rewrite sort_by_composite_length, length_map; reflexivity.
Qed.

Lemma length_zero_iff_nil_b {A : Type} (l : list A) :
  (length l =? 0)%nat = true <-> l = [].
Proof. destruct l; cbn; split; intros; congruence. Qed.

(** [app.py] has no fallback: with a non-empty pool and the clock in the
    rejection window the answer is a 404. *)
Lemma app_all_rejected_is_404 (w : World) (data : RequestJson)
    (a b c d : R) (preferences : Preferences) :
  parse_coordinates data = inr (a, b, c, d) ->
  parse_preferences data = Ret preferences ->
  validate_coordinates (VFloat a) (VFloat b)
  && validate_coordinates (VFloat c) (VFloat d) = true ->
  all_routes (collect_candidates App.haversine_distance w preferences a b c d)
    <> [] ->
  in_reject_window (hour (now w)) = true ->
  App.optimize_route w data
  = Failure 404 "No routes passed safety validation".
Proof.
  intros Hc Hp Hv Hne Hw.
  unfold App.optimize_route; rewrite Hc, Hp; cbn [bind]; rewrite Hv; cbn [negb].
  destruct (length _ =? 0)%nat eqn:E.
  { apply length_zero_iff_nil_b in E; contradiction. }
  rewrite guardrail_loop_all_rejected by exact Hw.
  reflexivity.
Qed.

(** C1, as amended.  In [app/routes.py], for a request that parses and
    lies inside the service area: when the candidate pool is empty the
    handler asks the provider once more and answers with the first direct
    alternative, unvalidated and flagged as fallback, or with a 404 when
    that request yields nothing; when every candidate of a non-empty pool
    fails the guardrails it answers with the candidate of best composite
    score, flagged as fallback; both fallback routes carry a caution
    warning; a 404 is returned only if the pool is empty. *)
Theorem routes_fallback_policy (w : World) (data : RequestJson)
    (a b c d : R) (preferences : Preferences) :
  parse_coordinates data = inr (a, b, c, d) ->
  parse_preferences data = Ret preferences ->
  validate_coordinates (VFloat a) (VFloat b)
  && validate_coordinates (VFloat c) (VFloat d) = true ->
  let st := collect_candidates Routes.haversine_distance w preferences a b c d in
  let pool := request_pool Routes.haversine_distance
                Routes.calculate_composite_score w preferences a b c d in
  let answer := Routes.api_optimize_route w data in
  (all_routes st = [] ->
   match truthy_routes
           (fst (get_route_from_osrm Routes.haversine_distance w (calls st)
                   a b c d None)) with
   | g :: _ =>
       answer = Success [Routes.direct_fallback_route w preferences g] 1
                  "No validated routes found. Showing direct route with caution."
                  true
       /\ rd_geometry (Routes.direct_fallback_route w preferences g) = g
       /\ option_map warning
            (rd_label (Routes.direct_fallback_route w preferences g))
          = Some (Some Routes.direct_fallback_warning)
   | [] => answer = Failure 404 "No valid routes found"
   end)
  /\ (all_routes st <> [] ->
      guardrail_loop w (now w) pool [] = Ret [] ->
      exists best rest,
        pool = best :: rest
        /\ (forall r, In r pool -> composite_key r <= composite_key best)
        /\ answer = Success [Routes.best_available_route w best] (length pool)
                      "All routes failed safety validation. Showing best available option with caution."
                      true
        /\ rd_geometry (Routes.best_available_route w best) = rd_geometry best
        /\ rd_safety_score (Routes.best_available_route w best)
           = rd_safety_score best
        /\ option_map warning (rd_label (Routes.best_available_route w best))
           = Some (Some Routes.best_available_warning))
  /\ (all_routes st <> [] ->
      (guardrail_loop w (now w) pool [] = Ret []
       <-> in_reject_window (hour (now w)) = true))
  /\ (forall err, answer = Failure 404 err -> all_routes st = []).
Proof.
  intros Hc Hp Hv; cbv zeta.
  unfold Routes.api_optimize_route; rewrite Hc, Hp; cbn [bind]; rewrite Hv;
    cbn [negb].
  fold (request_pool Routes.haversine_distance Routes.calculate_composite_score
          w preferences a b c d).
  set (st := collect_candidates Routes.haversine_distance w preferences a b c d).
  set (pool := request_pool Routes.haversine_distance
                 Routes.calculate_composite_score w preferences a b c d).
  assert (Hlen : length pool = length (all_routes st))
    by apply request_pool_length.
  assert (Hbest : head_is_best pool) by apply sort_by_composite_head.
  clearbody pool.
  split; [| split; [| split]].
  - intros E; rewrite E; cbn [length Nat.eqb handle].
    unfold Routes.empty_pool_answer.
    destruct (get_route_from_osrm _ _ _ _ _ _ _ None) as [fb calls'];
      cbn [fst].
    destruct (truthy_routes fb) as [| g rest]; [reflexivity |].
    split; [reflexivity |].
    unfold Routes.direct_fallback_route.
    destruct (calculate_route_safety_comprehensive _ _ _);
      split; reflexivity.
  - intros Hne Hloop.
    destruct (length (all_routes st) =? 0)%nat eqn:E.
    { apply length_zero_iff_nil_b in E; contradiction. }
    rewrite Hloop; cbn [bind length Nat.eqb handle].
    destruct pool as [| best rest].
    { cbn in Hlen; symmetry in Hlen; apply length_zero_iff_nil in Hlen;
        contradiction. }
    exists best, rest; split; [reflexivity |].
    split; [exact Hbest |].
    repeat split; reflexivity.
  - intros Hne; split.
    + intros Hloop.
      destruct (in_reject_window (hour (now w))) eqn:Hw; [reflexivity |].
      exfalso; apply (guardrail_loop_some_accepted w (now w) pool Hw);
        [| exact Hloop].
      intros Epool; rewrite Epool in Hlen; cbn in Hlen.
      symmetry in Hlen; apply length_zero_iff_nil in Hlen; contradiction.
    + apply guardrail_loop_all_rejected.
  - intros err.
    destruct (length (all_routes st) =? 0)%nat eqn:E.
    { intros _; apply length_zero_iff_nil_b; exact E. }
    destruct (guardrail_loop_spec w (now w) pool []) as [out [E' _]].
    rewrite E'; cbn [bind].
    destruct out as [| r0 out']; cbn [length Nat.eqb handle].
    + unfold Routes.all_rejected_answer.
      destruct pool as [| best rest]; [| discriminate].
      cbn in Hlen; rewrite <- Hlen in E; discriminate.
    + discriminate.
Qed.

(** The scenario at 1 AM: the pool holds the direct route, the
    guardrails reject it, [app/routes.py] answers with it as fallback. *)
Lemma routes_fallback_at_night :
  exists best rest,
    request_pool Routes.haversine_distance Routes.calculate_composite_score
      night_world default_preferences 12.97 77.59 12.973 77.59 = best :: rest
    /\ Routes.api_optimize_route night_world demo_request
       = Success [Routes.best_available_route night_world best]
           (length (best :: rest))
           "All routes failed safety validation. Showing best available option with caution."
           true
    /\ option_map warning (rd_label (Routes.best_available_route night_world best))
       = Some (Some Routes.best_available_warning).
Proof.
  pose proof (routes_fallback_policy night_world demo_request
                12.97 77.59 12.973 77.59 default_preferences
                eq_refl eq_refl) as H.
  rewrite (demo_valid_start), (demo_valid_end) in H.
  specialize (H eq_refl); cbv zeta in H.
  destruct H as [_ [H _]].
  destruct (H (demo_pool_nonempty Routes.haversine_distance
                 routes_haversine_floats default_preferences eq_refl)
              (guardrail_loop_all_rejected night_world (now night_world) _ eq_refl))
    as [best [rest [Hpool [_ [Hans [_ [_ Hwarn]]]]]]].
  exists best, rest.
  split; [exact Hpool |].
  split; [rewrite Hans, Hpool; reflexivity | exact Hwarn].
Defined.

(** C1, counterexample on [app.py]: at 1 AM the pool of the scenario is
    not empty, every candidate fails the guardrails, and [optimize_route]
    answers 404 instead of a fallback route. *)
Lemma app_has_no_fallback :
  all_routes (collect_candidates App.haversine_distance night_world
                default_preferences 12.97 77.59 12.973 77.59) <> []
  /\ guardrail_loop night_world (now night_world)
       (request_pool App.haversine_distance App.calculate_composite_score
          night_world default_preferences 12.97 77.59 12.973 77.59) []
     = Ret []
  /\ App.optimize_route night_world demo_request
     = Failure 404 "No routes passed safety validation"
  /\ routes_of (App.optimize_route night_world demo_request) = [].
Proof.
  assert (Hne : all_routes (collect_candidates App.haversine_distance
                              night_world default_preferences
                              12.97 77.59 12.973 77.59) <> []).
  { apply demo_pool_nonempty; [intros; reflexivity | reflexivity]. }
  assert (Hans : App.optimize_route night_world demo_request
                 = Failure 404 "No routes passed safety validation").
  { apply (app_all_rejected_is_404 night_world demo_request
             12.97 77.59 12.973 77.59 default_preferences);
      try reflexivity; [| exact Hne].
    rewrite demo_valid_start, demo_valid_end; reflexivity. }
  split; [exact Hne |].
  split; [apply guardrail_loop_all_rejected; reflexivity |].
  split; [exact Hans | rewrite Hans; reflexivity].
Qed.

(** ** The safety scorer *)

Lemma Rsum_from_nonneg (l : list R) (acc : R) :
  Forall (fun x => 0 <= x) l -> 0 <= acc -> 0 <= fold_left Rplus l acc.
Proof.
  revert acc; induction l as [| x t IH]; intros acc Hl Hacc; [exact Hacc |].
  inversion Hl; subst; cbn [fold_left]; apply IH; [assumption | lra].
Qed.

Lemma df_nearby_rows (df near : DataFrame) (lat lon radius : R) (c : string) :
  df_nearby df lat lon radius = Ret near ->
  nonneg_column df c -> nonneg_column near c /\ df_columns near = df_columns df.
Proof.
  unfold df_nearby, nonneg_column.
  destruct (has_column df "Latitude" && has_column df "Longitude");
    [| discriminate].
  intros [= <-] H; cbn [df_rows df_columns]; split; [| reflexivity].
  apply Forall_forall; intros row Hin.
  apply filter_In in Hin as [Hin _].
  rewrite Forall_forall in H; apply H, Hin.
Qed.

Lemma df_mean_nonneg (df : DataFrame) (c : string) (m : R) :
  nonneg_column df c -> df_mean df c = Ret m -> 0 <= m.
Proof.
  unfold df_mean, nonneg_column; intros H.
  destruct (has_column df c); [| discriminate].
  intros [= <-].
  assert (0 <= Rsum (map (fun row => row c) (df_rows df))).
  { apply Rsum_from_nonneg; [| lra].
    apply Forall_map; exact H. }
  unfold df_len.
  destruct (df_rows df) as [| r0 rest].
  - cbn [length INR]; unfold Rdiv; rewrite Rinv_0; lra.
  - apply Rmult_le_pos; [assumption |].
    left; apply Rinv_0_lt_compat, lt_0_INR; cbn; lia.
Qed.

Lemma calculate_lighting_score_nonneg (w : World) (lat lon radius : R) :
  nonneg_column (lighting_data w) "lighting_score" ->
  0 <= calculate_lighting_score w lat lon radius.
Proof.
  intros H; unfold calculate_lighting_score.
  destruct (df_nearby (lighting_data w) lat lon radius) as [near | e] eqn:E;
    cbn [bind try_except]; [| lra].
  destruct (df_nearby_rows _ _ _ _ _ "lighting_score"%string E H) as [Hn _].
  destruct (0 <? df_len near)%nat; [| cbn; lra].
  destruct (df_mean near "lighting_score") as [m | e] eqn:Em; cbn; [| lra].
  exact (df_mean_nonneg _ _ _ Hn Em).
Qed.

Lemma calculate_population_score_nonneg (w : World) (lat lon radius : R) :
  nonneg_column (population_data w) "population_density" ->
  nonneg_column (population_data w) "traffic_level" ->
  0 <= fst (fst (calculate_population_score w lat lon radius))
  /\ 0 <= snd (fst (calculate_population_score w lat lon radius)).
Proof.
  intros Hd Ht; unfold calculate_population_score.
  destruct (df_nearby (population_data w) lat lon radius) as [near | e] eqn:E;
    cbn [bind try_except]; [| cbn; lra].
  destruct (df_nearby_rows _ _ _ _ _ "population_density"%string E Hd) as [Hnd _].
  destruct (df_nearby_rows _ _ _ _ _ "traffic_level"%string E Ht) as [Hnt _].
  destruct (0 <? df_len near)%nat; [| cbn; lra].
  destruct (df_mean near "population_density") as [m1 | e] eqn:E1;
    cbn [bind]; [| cbn; lra].
  destruct (df_mean near "traffic_level") as [m2 | e] eqn:E2;
    cbn [bind]; [| cbn; lra].
  destruct (df_mean near "is_main_road") as [m3 | e] eqn:E3;
    cbn [bind try_except fst snd]; [| lra].
  pose proof (df_mean_nonneg _ _ _ Hnd E1).
  pose proof (df_mean_nonneg _ _ _ Hnt E2).
  split; lra.
Qed.

Lemma stride_from_incl {A : Type} (k skip : nat) (l : list A) (x : A) :
  In x (stride_from k skip l) -> In x l.
Proof.
  revert skip; induction l as [| y t IH]; intros skip; cbn [stride_from];
    [intros [] |].
  destruct skip as [| s].
  - intros [-> | H]; [left; reflexivity | right; exact (IH _ H)].
  - intros H; right; exact (IH _ H).
Qed.

Lemma py_stride_nonempty {A : Type} (l : list A) (k : nat) :
  l <> [] -> py_stride l k <> [].
Proof.
  destruct l as [| x t]; [contradiction |]; intros _; discriminate.
Qed.

(** How the accumulators of two runs relate when only the crime data
    differ and crime counts do not decrease: the crime totals do not
    decrease, the other totals are equal and non-negative. *)
Lemma score_fold_related (w1 w2 : World) (points : list point)
    (acc1 acc2 : ScoreAcc) :
  lighting_data w1 = lighting_data w2 ->
  population_data w1 = population_data w2 ->
  nonneg_column (lighting_data w1) "lighting_score" ->
  nonneg_column (population_data w1) "population_density" ->
  nonneg_column (population_data w1) "traffic_level" ->
  (forall p, In p points ->
             (calculate_crime_exposure w1 (fst p) (snd p) 0.003
              <= calculate_crime_exposure w2 (fst p) (snd p) 0.003)%nat) ->
  acc_related acc1 acc2 ->
  acc_related (fold_left (score_step w1) points acc1)
              (fold_left (score_step w2) points acc2).
Proof.
  intros Hl Hp Hnl Hnd Hnt.
  revert acc1 acc2; induction points as [| p rest IH]; intros acc1 acc2 Hc Hr;
    [exact Hr |].
  cbn [fold_left]; apply IH; [intros q Hq; apply Hc; right; exact Hq |].
  specialize (Hc p (or_introl eq_refl)).
  destruct p as [lat lon]; cbn [fst snd] in Hc.
  unfold score_step.
  assert (El : calculate_lighting_score w2 lat lon 0.005
               = calculate_lighting_score w1 lat lon 0.005).
  { unfold calculate_lighting_score; rewrite Hl; reflexivity. }
  assert (Ep : calculate_population_score w2 lat lon 0.005
               = calculate_population_score w1 lat lon 0.005).
  { unfold calculate_population_score; rewrite Hp; reflexivity. }
  rewrite El, Ep.
  pose proof (calculate_lighting_score_nonneg w1 lat lon 0.005 Hnl) as Nl.
  pose proof (calculate_population_score_nonneg w1 lat lon 0.005 Hnd Hnt)
    as [Np Nt].
  destruct (calculate_population_score w1 lat lon 0.005) as [[ps ts] mr].
  cbn [fst snd] in Np, Nt.
  destruct Hr as [H1 [H2 [H3 [H4 [H5 [H6 [H7 [H8 [H9 H10]]]]]]]]].
  unfold acc_related;
    cbn [total_crime max_crime_at_point crime_hotspot_count total_lighting
         total_population total_traffic main_road_count].
  repeat split; try lia; try lra.
  - destruct (3 <? calculate_crime_exposure w1 lat lon 0.003)%nat eqn:A,
             (3 <? calculate_crime_exposure w2 lat lon 0.003)%nat eqn:B;
      try lia.
    apply Nat.ltb_lt in A; apply Nat.ltb_ge in B; lia.
  - rewrite H7; reflexivity.
Qed.

Lemma stride_from_length {A : Type} (k skip : nat) (l : list A) :
  (1 <= k)%nat ->
  length (stride_from k skip l) = ((length l - skip + (k - 1)) / k)%nat.
Proof.
  intros Hk. revert skip.
  induction l as [| x t IH]; intros skip; cbn [stride_from length].
  - cbn. symmetry. apply Nat.div_small. lia.
  - destruct skip as [| s].
    + cbn [length]. rewrite IH.
      replace (S (length t) - 0 + (k - 1))%nat with (length t + 1 * k)%nat by lia.
      rewrite Nat.div_add by lia.
      destruct (Nat.le_gt_cases (k - 1) (length t)) as [Hge | Hlt].
      * replace (length t - (k - 1) + (k - 1))%nat with (length t) by lia. lia.
      * replace (length t - (k - 1) + (k - 1))%nat with (k - 1)%nat by lia.
        rewrite !Nat.div_small by lia. lia.
    + rewrite IH. reflexivity.
Qed.

Lemma sample_route_length (points : list point) :
  length (sample_route points)
  = ((length points + (Nat.max 1 (length points / 50) - 1))
     / Nat.max 1 (length points / 50))%nat.
Proof.
  unfold sample_route, py_stride.
  rewrite stride_from_length by lia.
  rewrite Nat.sub_0_r. reflexivity.
Qed.

Lemma score_fold_nonneg (w : World) (points : list point) :
  nonneg_datasets w ->
  0 <= total_lighting (fold_left (score_step w) points empty_acc)
  /\ 0 <= total_population (fold_left (score_step w) points empty_acc)
  /\ 0 <= total_traffic (fold_left (score_step w) points empty_acc).
Proof.
  intros [Hnl [Hnd Hnt]].
  pose proof (score_fold_related w w points empty_acc empty_acc
                eq_refl eq_refl Hnl Hnd Hnt (fun p _ => le_n _)) as Hrel.
  assert (H0 : acc_related empty_acc empty_acc).
  { unfold acc_related, empty_acc; cbn; repeat split; try lia; lra. }
  destruct (Hrel H0) as [_ [_ [_ [_ [_ [_ [_ [H8 [H9 H10]]]]]]]]].
  tauto.
Qed.

Lemma sample_route_nonempty (points : list point) :
  (2 <= length points)%nat -> (1 <= length (sample_route points))%nat.
Proof.
  intros H. destruct points as [| p rest]; [cbn in H; lia |].
  unfold sample_route, py_stride; cbn; lia.
Qed.

Lemma multiplier_ge_1 (acc : ScoreAcc) (n : nat)
    (well_lit populated main_roads : bool) :
  (1 <= n)%nat ->
  0 <= total_lighting acc -> 0 <= total_population acc ->
  0 <= total_traffic acc ->
  1 <= (1 + total_lighting acc / INR n / 10 * (if well_lit then 2.5 else 0.8)
        + (1 + total_population acc / INR n / 10
               * (if populated then 2 else 0.6))
        + (1 + total_traffic acc / INR n / 10
               * (if populated then 1.5 else 0.4))
        + (1 + INR (main_road_count acc) / INR n * 100 / 100
               * (if main_roads then 2.5 else 0.7))) / 4.
Proof.
  intros Hn Hl Hp Ht.
  assert (Hpos : 0 < INR n) by (apply lt_0_INR; lia).
  assert (Hinv : 0 < / INR n) by (apply Rinv_0_lt_compat; exact Hpos).
  assert (0 <= total_lighting acc / INR n) by (apply Rmult_le_pos; lra).
  assert (0 <= total_population acc / INR n) by (apply Rmult_le_pos; lra).
  assert (0 <= total_traffic acc / INR n) by (apply Rmult_le_pos; lra).
  assert (0 <= INR (main_road_count acc) / INR n).
  { apply Rmult_le_pos; [apply pos_INR | lra]. }
  destruct well_lit, populated, main_roads; nra.
Qed.

Lemma sample_route_at_most_99 (points : list point) :
  (length (sample_route points) <= 99)%nat.
Proof.
  rewrite sample_route_length.
  set (n := length points).
  pose proof (Nat.Div0.mul_div_le n 50) as Hlo.
  pose proof (Nat.mul_succ_div_gt n 50 ltac:(lia)) as Hhi.
  destruct (Nat.max_spec 1 (n / 50)) as [[Hk ->] | [Hk ->]].
  - apply Nat.Div0.div_le_upper_bound; lia.
  - assert (n < 100)%nat by lia.
    rewrite Nat.sub_diag, Nat.add_0_r, Nat.div_1_r. lia.
Qed.

Lemma py_pow_nonneg (x e : R) : 0 <= py_pow x e.
Proof.
  unfold py_pow; destruct (Rltb 0 x); [| lra].
  left; unfold Rpower; apply exp_pos.
Qed.

Lemma py_pow_mono (x y e : R) :
  0 <= e -> 0 <= x <= y -> py_pow x e <= py_pow y e.
Proof.
  intros He [Hx Hxy]; unfold py_pow.
  destruct (Rltb 0 x) eqn:Ex.
  - apply Rltb_spec in Ex.
    rewrite Rltb_true by lra.
    apply Rle_Rpower_l; [exact He | lra].
  - destruct (Rltb 0 y); [| lra].
    left; unfold Rpower; apply exp_pos.
Qed.

Lemma Rpower_1_base (e : R) : Rpower 1 e = 1.
Proof. unfold Rpower; rewrite ln_1, Rmult_0_r; apply exp_0. Qed.

Lemma py_pow_0 (e : R) : py_pow 0 e = 0.
Proof. unfold py_pow; rewrite Rltb_false by lra; reflexivity. Qed.

Lemma py_pow_1 (e : R) : py_pow 1 e = 1.
Proof. unfold py_pow; rewrite Rltb_true by lra; apply Rpower_1_base. Qed.

(** The score formula does not increase when the crime totals grow. *)
Lemma score_of_totals_antitone (acc1 acc2 : ScoreAcc) (n : nat)
    (well_lit populated main_roads : bool) :
  (1 <= n)%nat ->
  acc_related acc1 acc2 ->
  safety_score (score_of_totals acc2 n well_lit populated main_roads)
  <= safety_score (score_of_totals acc1 n well_lit populated main_roads).
Proof.
  intros Hn [H1 [H2 [H3 [H4 [H5 [H6 [H7 [H8 [H9 H10]]]]]]]]].
  unfold score_of_totals; cbn [safety_score].
  apply py_round_mono.
  rewrite !py_min_Rmin, !py_max_Rmax.
  rewrite <- H4, <- H5, <- H6, <- H7.
  assert (Hpos : 0 < INR n) by (apply lt_0_INR; lia).
  assert (Hinv : 0 < / INR n) by (apply Rinv_0_lt_compat; exact Hpos).
  set (M := (1 + total_lighting acc1 / INR n / 10 * (if well_lit then 2.5 else 0.8)
             + (1 + total_population acc1 / INR n / 10
                    * (if populated then 2 else 0.6))
             + (1 + total_traffic acc1 / INR n / 10
                    * (if populated then 1.5 else 0.4))
             + (1 + INR (main_road_count acc1) / INR n * 100 / 100
                    * (if main_roads then 2.5 else 0.7))) / 4).
  assert (HM : 0 <= M).
  { assert (0 <= total_lighting acc1 / INR n) by (apply Rmult_le_pos; lra).
    assert (0 <= total_population acc1 / INR n) by (apply Rmult_le_pos; lra).
    assert (0 <= total_traffic acc1 / INR n) by (apply Rmult_le_pos; lra).
    assert (0 <= INR (main_road_count acc1) / INR n).
    { apply Rmult_le_pos; [apply pos_INR | lra]. }
    unfold M.
    destruct well_lit, populated, main_roads; nra. }
  apply Rle_min_compat_l.
  apply Rmult_le_compat_r; [exact HM |].
  apply Rle_max_compat_l.
  assert (Ha : INR (total_crime acc1) / INR n <= INR (total_crime acc2) / INR n).
  { apply Rmult_le_compat_r; [lra | apply le_INR; exact H1]. }
  assert (Ha0 : 0 <= INR (total_crime acc1) / INR n).
  { apply Rmult_le_pos; [apply pos_INR | lra]. }
  assert (Hm : INR (max_crime_at_point acc1) <= INR (max_crime_at_point acc2))
    by (apply le_INR; exact H2).
  assert (Hh : INR (crime_hotspot_count acc1) / INR n * 100 * 0.5
               <= INR (crime_hotspot_count acc2) / INR n * 100 * 0.5).
  { assert (INR (crime_hotspot_count acc1) / INR n
            <= INR (crime_hotspot_count acc2) / INR n).
    { apply Rmult_le_compat_r; [lra | apply le_INR; exact H3]. }
    lra. }
  pose proof (py_pow_mono _ _ 1.2 ltac:(lra) (conj Ha0 Ha)) as P1.
  pose proof (py_pow_mono _ _ 1.4 ltac:(lra)
                (conj (pos_INR (max_crime_at_point acc1)) Hm)) as P2.
  assert (Q1 : Rmin 40 (py_pow (INR (total_crime acc1) / INR n) 1.2 * 5)
               <= Rmin 40 (py_pow (INR (total_crime acc2) / INR n) 1.2 * 5))
    by (apply Rle_min_compat_l; lra).
  assert (Q2 : Rmin 40 (py_pow (INR (max_crime_at_point acc1)) 1.4 * 7)
               <= Rmin 40 (py_pow (INR (max_crime_at_point acc2)) 1.4 * 7))
    by (apply Rle_min_compat_l; lra).
  assert (Q3 : Rmin 30 (INR (crime_hotspot_count acc1) / INR n * 100 * 0.5)
               <= Rmin 30 (INR (crime_hotspot_count acc2) / INR n * 100 * 0.5))
    by (apply Rle_min_compat_l; exact Hh).
  lra.
Qed.

Lemma Rpower_le_self (t p : R) : 0 < t <= 1 -> 1 <= p -> Rpower t p <= t.
Proof.
  intros [Ht0 Ht1] Hp. unfold Rpower.
  apply Rle_trans with (exp (ln t)); [| rewrite exp_ln; lra].
  assert (Hl : ln t <= 0).
  { destruct (Req_dec t 1) as [-> | Hne]; [rewrite ln_1; lra |].
    left. rewrite <- ln_1. apply ln_increasing; lra. }
  destruct (Req_dec (p * ln t) (ln t)) as [-> | Hne]; [lra |].
  left. apply exp_increasing. nra.
Qed.

Lemma Rpower_superadditive (x y p : R) :
  0 < x -> 0 < y -> 1 <= p -> Rpower x p + Rpower y p <= Rpower (x + y) p.
Proof.
  intros Hx Hy Hp.
  assert (Hs : 0 < x + y) by lra.
  assert (Hxs : 0 < x / (x + y)) by (apply Rdiv_lt_0_compat; lra).
  assert (Hys : 0 < y / (x + y)) by (apply Rdiv_lt_0_compat; lra).
  assert (Ex : Rpower x p = Rpower (x + y) p * Rpower (x / (x + y)) p).
  { rewrite Rpower_mult_distr by assumption. f_equal. field. lra. }
  assert (Ey : Rpower y p = Rpower (x + y) p * Rpower (y / (x + y)) p).
  { rewrite Rpower_mult_distr by assumption. f_equal. field. lra. }
  assert (Hone : x / (x + y) + y / (x + y) = 1) by (field; lra).
  assert (Bx : Rpower (x / (x + y)) p <= x / (x + y)).
  { apply Rpower_le_self; [split; lra | exact Hp]. }
  assert (By : Rpower (y / (x + y)) p <= y / (x + y)).
  { apply Rpower_le_self; [split; lra | exact Hp]. }
  assert (Hpos : 0 < Rpower (x + y) p) by (unfold Rpower; apply exp_pos).
  rewrite Ex, Ey. nra.
Qed.

Lemma py_pow_add (x y p : R) :
  0 <= x -> 0 < y -> 1 <= p -> py_pow x p + Rpower y p <= py_pow (x + y) p.
Proof.
  intros Hx Hy Hp. unfold py_pow.
  rewrite (Rltb_true 0 (x + y)) by lra.
  destruct (Rltb 0 x) eqn:E.
  - apply Rltb_spec in E. apply Rpower_superadditive; assumption.
  - assert (x = 0).
    { unfold Rltb in E. destruct (Rlt_dec 0 x); [discriminate | lra]. }
    subst x. rewrite !Rplus_0_l. apply Rle_refl.
Qed.

Lemma Rpower_99_bound : Rpower 99 1.2 < 500.
Proof.
  destruct (Rlt_le_dec (Rpower 99 1.2) 500) as [H | H]; [exact H | exfalso].
  assert (H5 : Rpower 500 (INR 5) <= Rpower (Rpower 99 1.2) (INR 5)).
  { apply Rle_Rpower_l; [apply pos_INR | lra]. }
  rewrite Rpower_mult in H5.
  replace (1.2 * INR 5) with (INR 6) in H5 by (simpl; lra).
  rewrite !Rpower_pow in H5 by lra.
  lra.
Qed.

Lemma crime_step_bound (n : nat) :
  (1 <= n <= 99)%nat -> 0.002 < Rpower (/ INR n) 1.2.
Proof.
  intros [Hlo Hhi].
  assert (Hn : 0 < INR n) by (apply lt_0_INR; lia).
  assert (Hn99 : INR n <= 99).
  { replace 99 with (INR 99) by (simpl; lra). apply le_INR; exact Hhi. }
  assert (H99 : / 99 <= / INR n) by (apply Rinv_le_contravar; lra).
  apply Rlt_le_trans with (Rpower (/ 99) 1.2);
    [| apply Rle_Rpower_l; [lra | split; [lra | exact H99]]].
  assert (E : Rpower (/ 99) 1.2 = / Rpower 99 1.2).
  { rewrite <- Rpower_Ropp. unfold Rpower. rewrite ln_Rinv by lra.
    f_equal. ring. }
  rewrite E.
  pose proof Rpower_99_bound as B.
  assert (Hp : 0 < Rpower 99 1.2) by (unfold Rpower; apply exp_pos).
  replace 0.002 with (/ 500) by lra.
  apply Rinv_lt_contravar; [nra | exact B].
Qed.

Lemma base_penalty_below_cap (a : R) : a <= 5.655 -> py_pow a 1.2 * 5 <= 40.
Proof.
  intros Ha. unfold py_pow.
  destruct (Rltb 0 a) eqn:E; [| lra].
  apply Rltb_spec in E.
  assert (B : Rpower 5.655 1.2 <= 8).
  { destruct (Rle_lt_dec (Rpower 5.655 1.2) 8) as [H | H]; [exact H | exfalso].
    assert (H5 : Rpower 8 (INR 5) < Rpower (Rpower 5.655 1.2) (INR 5)).
    { apply Rlt_Rpower_l; [simpl; lra | lra]. }
    rewrite Rpower_mult in H5.
    replace (1.2 * INR 5) with (INR 6) in H5 by (simpl; lra).
    rewrite !Rpower_pow in H5 by lra.
    lra. }
  assert (Rpower a 1.2 <= Rpower 5.655 1.2)
    by (apply Rle_Rpower_l; [lra | split; assumption]).
  lra.
Qed.

Lemma py_round_lt (x y : R) : x + 0.01 < y -> py_round x 2 < py_round y 2.
Proof.
  intros H. unfold py_round.
  pose proof (round_half_even_bounds (x * 10 ^ 2)) as [_ Bx].
  pose proof (round_half_even_bounds (y * 10 ^ 2)) as [By _].
  assert (IZR (round_half_even (x * 10 ^ 2)) < IZR (round_half_even (y * 10 ^ 2)))
    by lra.
  lra.
Qed.

Lemma py_round_error (x : R) : x - 0.005 <= py_round x 2 <= x + 0.005.
Proof.
  unfold py_round.
  pose proof (round_half_even_bounds (x * 10 ^ 2)) as [B1 B2].
  split; lra.
Qed.

Lemma py_round_pos_inv (x : R) : 0 < py_round x 2 -> 0 < x.
Proof.
  intros H. destruct (Rlt_le_dec 0 x) as [Hx | Hx]; [exact Hx | exfalso].
  pose proof (py_round_mono x 0 2 Hx) as M.
  rewrite (py_round_IZR 0 2) in M. lra.
Qed.

Lemma py_round_below_inv (x : R) : py_round x 2 < 100 -> x < 100.
Proof.
  intros H. destruct (Rlt_le_dec x 100) as [Hx | Hx]; [exact Hx | exfalso].
  pose proof (py_round_mono 100 x 2 Hx) as M.
  rewrite (py_round_IZR 100 2) in M. lra.
Qed.

Lemma score_fold_total_crime (w : World) (points : list point) (acc : ScoreAcc) :
  total_crime (fold_left (score_step w) points acc)
  = (total_crime acc
     + list_sum (map (fun p => calculate_crime_exposure w (fst p) (snd p) 0.003)
                     points))%nat.
Proof.
  revert acc. induction points as [| [lat lon] rest IH]; intros acc;
    cbn [fold_left map]; [cbn; lia |].
  change (list_sum (?x :: ?t)) with (x + list_sum t)%nat.
  rewrite IH. unfold score_step.
  destruct (calculate_population_score w lat lon 0.005) as [[ps ts] mr].
  cbn [total_crime fst snd]. lia.
Qed.

Lemma list_sum_lt {A : Type} (f g : A -> nat) (l : list A) :
  (forall p, In p l -> (f p <= g p)%nat) ->
  (exists p, In p l /\ (f p < g p)%nat) ->
  (list_sum (map f l) < list_sum (map g l))%nat.
Proof.
  intros Hle [q [Hq Hlt]].
  assert (Hall : forall l', (forall p, In p l' -> (f p <= g p)%nat) ->
                            (list_sum (map f l') <= list_sum (map g l'))%nat).
  { induction l' as [| x t IH]; intros H; cbn [map];
      [cbn; lia | change (list_sum (?a :: ?b)) with (a + list_sum b)%nat].
    pose proof (H x (or_introl eq_refl)).
    pose proof (IH (fun p Hp => H p (or_intror Hp))). lia. }
  induction l as [| x t IH]; [destruct Hq |].
  cbn [map]. change (list_sum (?a :: ?b)) with (a + list_sum b)%nat.
  pose proof (Hle x (or_introl eq_refl)) as Hx.
  destruct Hq as [-> | Hq].
  - pose proof (Hall t (fun p Hp => Hle p (or_intror Hp))). lia.
  - pose proof (IH (fun p Hp => Hle p (or_intror Hp)) Hq). lia.
Qed.

Lemma Rmax_0_pos_inv (x : R) : 0 < Rmax 0 x -> Rmax 0 x = x /\ 0 < x.
Proof.
  unfold Rmax. destruct (Rle_dec 0 x); intros H; [split; lra | lra].
Qed.

(** Below the caps the score formula drops strictly when the crime total
    grows: one crime more among at most 99 samples raises the base
    penalty by more than 0.01, which survives the rounding to two
    decimals. *)
Lemma score_of_totals_strict (acc1 acc2 : ScoreAcc) (n : nat)
    (well_lit populated main_roads : bool) :
  (1 <= n <= 99)%nat ->
  acc_related acc1 acc2 ->
  (total_crime acc1 < total_crime acc2)%nat ->
  crime_density (score_of_totals acc2 n well_lit populated main_roads) <= 5.65 ->
  0 < safety_score (score_of_totals acc2 n well_lit populated main_roads) ->
  safety_score (score_of_totals acc1 n well_lit populated main_roads) < 100 ->
  safety_score (score_of_totals acc2 n well_lit populated main_roads)
  < safety_score (score_of_totals acc1 n well_lit populated main_roads).
Proof.
  intros [Hn Hn99] [H1 [H2 [H3 [H4 [H5 [H6 [H7 [H8 [H9 H10]]]]]]]]] Hlt
    Hd Hpos Hcap.
  pose proof (multiplier_ge_1 acc1 n well_lit populated main_roads
                Hn H8 H9 H10) as HM.
  pose proof (crime_step_bound n (conj Hn Hn99)) as Hstep.
  unfold score_of_totals in *; cbn [safety_score crime_density] in *.
  rewrite !py_min_Rmin, !py_max_Rmax in *.
  rewrite <- H4, <- H5, <- H6, <- H7 in *.
  match type of HM with 1 <= ?m => set (M := m) in * end.
  assert (Hpos_n : 0 < INR n) by (apply lt_0_INR; lia).
  assert (Hinv : 0 < / INR n) by (apply Rinv_0_lt_compat; exact Hpos_n).
  set (a1 := INR (total_crime acc1) / INR n) in *.
  set (a2 := INR (total_crime acc2) / INR n) in *.
  assert (Ha0 : 0 <= a1).
  { unfold a1. apply Rmult_le_pos; [apply pos_INR | lra]. }
  assert (Ha : a1 + / INR n <= a2).
  { unfold a1, a2.
    assert (INR (total_crime acc1) + 1 <= INR (total_crime acc2)).
    { rewrite <- S_INR. apply le_INR. lia. }
    unfold Rdiv. nra. }
  assert (Ha2 : a2 <= 5.655).
  { pose proof (py_round_error a2). lra. }
  assert (Hb2 : Rmin 40 (py_pow a2 1.2 * 5) = py_pow a2 1.2 * 5).
  { apply Rmin_right. apply base_penalty_below_cap. exact Ha2. }
  assert (Hb1 : Rmin 40 (py_pow a1 1.2 * 5) <= py_pow a1 1.2 * 5)
    by apply Rmin_r.
  assert (Hadd : py_pow a1 1.2 + Rpower (/ INR n) 1.2 <= py_pow a2 1.2).
  { apply Rle_trans with (py_pow (a1 + / INR n) 1.2).
    - apply py_pow_add; lra.
    - apply py_pow_mono; lra. }
  assert (Hm : INR (max_crime_at_point acc1) <= INR (max_crime_at_point acc2))
    by (apply le_INR; exact H2).
  pose proof (py_pow_mono _ _ 1.4 ltac:(lra)
                (conj (pos_INR (max_crime_at_point acc1)) Hm)) as P2.
  assert (Q2 : Rmin 40 (py_pow (INR (max_crime_at_point acc1)) 1.4 * 7)
               <= Rmin 40 (py_pow (INR (max_crime_at_point acc2)) 1.4 * 7))
    by (apply Rle_min_compat_l; lra).
  assert (Q3 : Rmin 30 (INR (crime_hotspot_count acc1) / INR n * 100 * 0.5)
               <= Rmin 30 (INR (crime_hotspot_count acc2) / INR n * 100 * 0.5)).
  { apply Rle_min_compat_l.
    assert (INR (crime_hotspot_count acc1) / INR n
            <= INR (crime_hotspot_count acc2) / INR n).
    { apply Rmult_le_compat_r; [lra | apply le_INR; exact H3]. }
    lra. }
  rewrite Hb2 in *.
  set (b1 := Rmin 40 (py_pow a1 1.2 * 5)) in *.
  set (c1 := Rmin 40 (py_pow (INR (max_crime_at_point acc1)) 1.4 * 7)) in *.
  set (c2 := Rmin 40 (py_pow (INR (max_crime_at_point acc2)) 1.4 * 7)) in *.
  set (h1 := Rmin 30 (INR (crime_hotspot_count acc1) / INR n * 100 * 0.5)) in *.
  set (h2 := Rmin 30 (INR (crime_hotspot_count acc2) / INR n * 100 * 0.5)) in *.
  set (b2 := py_pow a2 1.2 * 5) in *.
  apply py_round_pos_inv in Hpos.
  apply py_round_below_inv in Hcap.
  assert (Hprod2 : 0 < Rmax 0 (100 - (b2 + c2 + h2)) * M).
  { eapply Rlt_le_trans; [exact Hpos | apply Rmin_r]. }
  assert (HB2 : 0 < Rmax 0 (100 - (b2 + c2 + h2))).
  { pose proof (Rmax_l 0 (100 - (b2 + c2 + h2))). nra. }
  apply Rmax_0_pos_inv in HB2 as [EB2 HB2]. rewrite EB2 in *.
  assert (EB1 : Rmax 0 (100 - (b1 + c1 + h1)) = 100 - (b1 + c1 + h1)).
  { apply Rmax_right. unfold b2 in *. lra. }
  rewrite EB1 in *.
  assert (Hcap1 : (100 - (b1 + c1 + h1)) * M < 100).
  { unfold Rmin in Hcap. destruct (Rle_dec 100 _); lra. }
  rewrite (Rmin_right 100 ((100 - (b1 + c1 + h1)) * M)) by lra.
  apply py_round_lt.
  apply Rle_lt_trans with ((100 - (b2 + c2 + h2)) * M + 0.01);
    [pose proof (Rmin_r 100 ((100 - (b2 + c2 + h2)) * M)); lra |].
  assert (Hgap : b1 + c1 + h1 + 0.01 < b2 + c2 + h2) by (unfold b2; lra).
  nra.
Qed.

(** C6, as amended.  With the lighting and population datasets fixed and
    holding non-negative values, raising the crime counts at the sampled
    points of a route never raises its safety score.  Where no cap is
    reached the score drops strictly: if some sampled point has more
    crime, the crime density of the route with more crime is at most 5.65
    (its base penalty is below the cap of 40), its score is above the
    floor 0 and the score of the route with less crime is below the cap
    100, then the score with more crime is strictly lower. *)
Theorem safety_score_antitone_in_crime (w1 w2 : World) (points : list point)
    (preferences : option Preferences) :
  lighting_data w1 = lighting_data w2 ->
  population_data w1 = population_data w2 ->
  nonneg_column (lighting_data w1) "lighting_score" ->
  nonneg_column (population_data w1) "population_density" ->
  nonneg_column (population_data w1) "traffic_level" ->
  (forall p, In p (sample_route points) ->
             (calculate_crime_exposure w1 (fst p) (snd p) 0.003
              <= calculate_crime_exposure w2 (fst p) (snd p) 0.003)%nat) ->
  match calculate_route_safety_comprehensive w1 points preferences,
        calculate_route_safety_comprehensive w2 points preferences with
  | Some m1, Some m2 =>
      safety_score m2 <= safety_score m1
      /\ ((exists p, In p (sample_route points)
                     /\ (calculate_crime_exposure w1 (fst p) (snd p) 0.003
                         < calculate_crime_exposure w2 (fst p) (snd p) 0.003)%nat) ->
          crime_density m2 <= 5.65 ->
          0 < safety_score m2 ->
          safety_score m1 < 100 ->
          safety_score m2 < safety_score m1)
  | None, None => (length points < 2)%nat
  | _, _ => False
  end.
Proof.
  intros Hl Hp Hnl Hnd Hnt Hc.
  unfold calculate_route_safety_comprehensive.
  destruct (length points <? 2)%nat eqn:E; [apply Nat.ltb_lt; exact E |].
  apply Nat.ltb_ge in E.
  pose proof (sample_route_nonempty points E) as Hn.
  pose proof (sample_route_at_most_99 points) as Hn99.
  assert (Hrel : acc_related
                   (fold_left (score_step w1) (sample_route points) empty_acc)
                   (fold_left (score_step w2) (sample_route points) empty_acc)).
  { apply score_fold_related; try assumption.
    unfold acc_related, empty_acc; cbn.
    repeat split; try lia; lra. }
  split.
  - apply score_of_totals_antitone; assumption.
  - intros Hmore.
    apply score_of_totals_strict; [split; assumption | exact Hrel |].
    rewrite !score_fold_total_crime. cbn [empty_acc total_crime Nat.add].
    apply list_sum_lt; [exact Hc | exact Hmore].
Qed.

(** *** The scenario with one crime *)

Lemma Rabs_ltb (x r : R) : - r < x < r -> Rltb (Rabs x) r = true.
Proof. intros H; apply Rltb_true, Rabs_def1; lra. Qed.

Lemma no_crime_exposure (lat lon radius : R) :
  calculate_crime_exposure night_world lat lon radius = 0%nat.
Proof. reflexivity. Qed.

Lemma one_crime_exposure (lat lon : R) :
  - 0.003 < 12.97 - lat < 0.003 ->
  - 0.003 < 77.59 - lon < 0.003 ->
  calculate_crime_exposure one_crime_world lat lon 0.003 = 1%nat.
Proof.
  intros H1 H2; unfold calculate_crime_exposure, df_nearby.
  cbn.
  rewrite !Rabs_ltb by lra.
  reflexivity.
Qed.

Lemma quiet_lighting_score (w : World) (lat lon radius : R) :
  lighting_data w = no_lights ->
  calculate_lighting_score w lat lon radius = 5.
Proof. intros E; unfold calculate_lighting_score; rewrite E; reflexivity. Qed.

Lemma quiet_population_score (w : World) (lat lon radius : R) :
  population_data w = no_people ->
  calculate_population_score w lat lon radius = (5, 5, false).
Proof. intros E; unfold calculate_population_score; rewrite E; reflexivity. Qed.

(** Without any crime the two-point route scores 100. *)
Lemma short_route_score_without_crime :
  option_map safety_score
    (calculate_route_safety_comprehensive night_world short_route
       (Some default_preferences)) = Some 100.
Proof.
  unfold calculate_route_safety_comprehensive, sample_route, short_route.
  cbn [length Nat.ltb Nat.leb Nat.div Nat.divmod Nat.max fst py_stride
       stride_from Nat.sub fold_left option_map].
  unfold score_step.
  rewrite !no_crime_exposure.
  rewrite !quiet_lighting_score, !quiet_population_score by reflexivity.
  unfold score_of_totals, empty_acc;
    cbn [total_crime max_crime_at_point crime_hotspot_count total_lighting
         total_population total_traffic main_road_count safety_score
         Nat.add Nat.max Nat.ltb Nat.leb default_preferences
         prefer_well_lit prefer_populated prefer_main_roads INR].
  replace (0 / (1 + 1)) with 0 by lra.
  rewrite !py_pow_0.
  rewrite !py_min_Rmin, !py_max_Rmax.
  replace (Rmin 40 (0 * 5)) with 0 by (rewrite Rmin_right; lra).
  replace (Rmin 40 (0 * 7)) with 0 by (rewrite Rmin_right; lra).
  replace (Rmin 30 (0 * 100 * 0.5)) with 0 by (rewrite Rmin_right; lra).
  replace (Rmax 0 (100 - (0 + 0 + 0))) with 100 by (rewrite Rmax_right; lra).
  rewrite Rmin_left by lra.
  f_equal; apply (py_round_IZR 100 2).
Qed.

(** With one crime within reach of both points it still scores 100. *)
Lemma short_route_score_with_crime :
  option_map safety_score
    (calculate_route_safety_comprehensive one_crime_world short_route
       (Some default_preferences)) = Some 100.
Proof.
  unfold calculate_route_safety_comprehensive, sample_route, short_route.
  cbn [length Nat.ltb Nat.leb Nat.div Nat.divmod Nat.max fst py_stride
       stride_from Nat.sub fold_left option_map].
  unfold score_step.
  rewrite !one_crime_exposure by lra.
  rewrite !quiet_lighting_score, !quiet_population_score by reflexivity.
  unfold score_of_totals, empty_acc;
    cbn [total_crime max_crime_at_point crime_hotspot_count total_lighting
         total_population total_traffic main_road_count safety_score
         Nat.add Nat.max Nat.ltb Nat.leb default_preferences
         prefer_well_lit prefer_populated prefer_main_roads INR].
  replace ((1 + 1) / (1 + 1)) with 1 by lra.
  rewrite !py_pow_1.
  rewrite !py_min_Rmin, !py_max_Rmax.
  replace (Rmin 40 (1 * 5)) with 5 by (rewrite Rmin_right; lra).
  replace (Rmin 40 (1 * 7)) with 7 by (rewrite Rmin_right; lra).
  replace (Rmin 30 (0 / (1 + 1) * 100 * 0.5)) with 0 by (rewrite Rmin_right; lra).
  replace (Rmax 0 (100 - (5 + 7 + 0))) with 88 by (rewrite Rmax_right; lra).
  rewrite Rmin_left by lra.
  f_equal; apply (py_round_IZR 100 2).
Qed.

(** *** Two-point routes without population records *)

Lemma py_round_hundredths (z : Z) : py_round (IZR z / 100) 2 = IZR z / 100.
Proof.
  unfold py_round.
  replace (IZR z / 100 * 10 ^ 2) with (IZR z) by (simpl; field).
  rewrite round_half_even_IZR. simpl. f_equal. lra.
Qed.

Lemma two_point_scorer (w : World) (lat1 lon1 lat2 lon2 : R) (crimes : nat)
    (light : R) (preferences : Preferences) :
  population_data w = no_people ->
  calculate_crime_exposure w lat1 lon1 0.003 = crimes ->
  calculate_crime_exposure w lat2 lon2 0.003 = crimes ->
  (crimes <= 3)%nat ->
  calculate_lighting_score w lat1 lon1 0.005 = light ->
  calculate_lighting_score w lat2 lon2 0.005 = light ->
  calculate_route_safety_comprehensive w [(lat1, lon1); (lat2, lon2)]
    (Some preferences)
  = Some (score_of_totals (two_point_totals crimes light) 2
            (prefer_well_lit preferences) (prefer_populated preferences)
            (prefer_main_roads preferences)).
Proof.
  intros Hp H1 H2 Hk L1 L2.
  unfold calculate_route_safety_comprehensive, sample_route.
  cbn [length Nat.ltb Nat.leb Nat.div Nat.divmod Nat.max fst py_stride
       stride_from Nat.sub fold_left].
  unfold score_step.
  rewrite H1, H2, L1, L2, !quiet_population_score by exact Hp.
  unfold two_point_totals, empty_acc.
  cbn [total_crime max_crime_at_point crime_hotspot_count total_lighting
       total_population total_traffic main_road_count Nat.add].
  replace (3 <? crimes)%nat with false by (symmetry; apply Nat.ltb_ge; lia).
  rewrite Nat.max_0_l, Nat.max_id.
  reflexivity.
Qed.

(** The score of such a route when neither lighting nor population is
    preferred: the two crime penalties, and the multiplier
    [(4.5 + 0.08 * light) / 4]. *)
Lemma two_point_score (crimes : nat) (light : R) (main_roads : bool) :
  safety_score (score_of_totals (two_point_totals crimes light) 2
                  false false main_roads)
  = py_round
      (Rmin 100
         (Rmax 0 (100 - (Rmin 40 (py_pow (INR crimes) 1.2 * 5)
                         + Rmin 40 (py_pow (INR crimes) 1.4 * 7)))
          * ((4.5 + light * 0.08) / 4))) 2.
Proof.
  unfold score_of_totals, two_point_totals.
  cbn [safety_score total_crime max_crime_at_point crime_hotspot_count
       total_lighting total_population total_traffic main_road_count].
  rewrite !py_min_Rmin, !py_max_Rmax.
  assert (E2 : INR 2 = 2) by (simpl; lra).
  rewrite plus_INR, E2. cbn [INR].
  replace ((INR crimes + INR crimes) / 2) with (INR crimes) by field.
  replace (Rmin 30 (0 / 2 * 100 * 0.5)) with 0 by (rewrite Rmin_right; lra).
  f_equal. f_equal.
  rewrite Rplus_0_r.
  f_equal. destruct main_roads; lra.
Qed.

Lemma two_point_crime_density (crimes : nat) (light : R)
    (well_lit populated main_roads : bool) :
  crime_density (score_of_totals (two_point_totals crimes light) 2
                   well_lit populated main_roads)
  = INR crimes.
Proof.
  unfold score_of_totals, two_point_totals.
  cbn [crime_density total_crime].
  assert (E2 : INR 2 = 2) by (simpl; lra).
  rewrite plus_INR, E2.
  replace ((INR crimes + INR crimes) / 2) with (INR crimes) by field.
  rewrite INR_IZR_INZ. apply py_round_IZR.
Qed.

Lemma two_point_main_road_percentage (crimes : nat) (light : R)
    (well_lit populated main_roads : bool) :
  main_road_percentage (score_of_totals (two_point_totals crimes light) 2
                          well_lit populated main_roads)
  = 0.
Proof.
  unfold score_of_totals, two_point_totals.
  cbn [main_road_percentage main_road_count INR].
  replace (0 / (1 + 1) * 100) with (IZR 0) by (simpl; lra).
  apply py_round_IZR.
Qed.

Lemma dark_lighting_score (w : World) (lat lon : R) :
  lighting_data w = dark_lights ->
  - 0.005 < 12.97 - lat < 0.005 ->
  - 0.005 < 77.59 - lon < 0.005 ->
  calculate_lighting_score w lat lon 0.005 = -100.
Proof.
  intros E H1 H2. unfold calculate_lighting_score, df_nearby. rewrite E.
  cbn.
  rewrite !Rabs_ltb by lra.
  cbn. unfold df_mean, Rsum, df_len. cbn. lra.
Qed.

Lemma near_crime_exposure (w : World) (crimes : nat) (lat lon : R) :
  crime_data w
  = mkDataFrame ["Latitude"; "Longitude"]%string (repeat crime_record crimes) ->
  - 0.003 < 12.97 - lat < 0.003 ->
  - 0.003 < 77.59 - lon < 0.003 ->
  calculate_crime_exposure w lat lon 0.003 = crimes.
Proof.
  intros E H1 H2. unfold calculate_crime_exposure, df_nearby. rewrite E.
  cbn [has_column df_columns existsb String.eqb Ascii.eqb Bool.eqb orb andb
       bind try_except df_rows df_len].
  assert (Hrow : Rltb (Rabs (crime_record "Latitude" - lat)) 0.003
                 && Rltb (Rabs (crime_record "Longitude" - lon)) 0.003 = true).
  { unfold crime_record. cbn. rewrite !Rabs_ltb by lra. reflexivity. }
  assert (Hall : forall k,
             length (filter
                       (fun row : string -> R =>
                          Rltb (Rabs (row "Latitude"%string - lat)) 0.003
                          && Rltb (Rabs (row "Longitude"%string - lon)) 0.003)
                       (repeat crime_record k)) = k).
  { induction k as [| k IH]; cbn [repeat filter length]; [reflexivity |].
    rewrite Hrow. cbn [length]. f_equal. exact IH. }
  apply Hall.
Qed.

Lemma penalties_of_no_crime :
  Rmin 40 (py_pow (INR 0) 1.2 * 5) + Rmin 40 (py_pow (INR 0) 1.4 * 7) = 0.
Proof.
  cbn [INR]. rewrite !py_pow_0.
  rewrite !Rmin_right by lra. lra.
Qed.

Lemma penalties_of_one_crime :
  Rmin 40 (py_pow (INR 1) 1.2 * 5) + Rmin 40 (py_pow (INR 1) 1.4 * 7) = 12.
Proof.
  cbn [INR]. rewrite !py_pow_1.
  rewrite !Rmin_right by lra. lra.
Qed.

(** With the negative lighting record nearby the multiplier is
    [(4.5 - 8) / 4 = -0.875]: the route without crime scores -87.5, and
    the route with one crime at each point scores 88 * -0.875 = -77. *)
Lemma dark_score_without_crime (main_roads : bool) :
  safety_score (score_of_totals (two_point_totals 0 (-100)) 2
                  false false main_roads) = -87.5.
Proof.
  rewrite two_point_score, penalties_of_no_crime.
  rewrite Rmax_right by lra.
  rewrite Rmin_right by lra.
  replace ((100 - 0) * ((4.5 + -100 * 0.08) / 4)) with (IZR (-8750) / 100)
    by lra.
  rewrite py_round_hundredths. lra.
Qed.

Lemma dark_score_with_crime (main_roads : bool) :
  safety_score (score_of_totals (two_point_totals 1 (-100)) 2
                  false false main_roads) = -77.
Proof.
  rewrite two_point_score, penalties_of_one_crime.
  rewrite Rmax_right by lra.
  rewrite Rmin_right by lra.
  replace ((100 - 12) * ((4.5 + -100 * 0.08) / 4)) with (IZR (-7700) / 100)
    by lra.
  rewrite py_round_hundredths. lra.
Qed.

Lemma dark_short_route_without_crime :
  calculate_route_safety_comprehensive dark_world short_route
    (Some default_preferences)
  = Some (score_of_totals (two_point_totals 0 (-100)) 2 false false false).
Proof.
  apply (two_point_scorer dark_world 12.97 77.59 12.971 77.59 0 (-100)
           default_preferences); try reflexivity; try lia;
    apply dark_lighting_score; try reflexivity; lra.
Qed.

Lemma dark_short_route_with_crime :
  calculate_route_safety_comprehensive dark_crime_world short_route
    (Some default_preferences)
  = Some (score_of_totals (two_point_totals 1 (-100)) 2 false false false).
Proof.
  apply (two_point_scorer dark_crime_world 12.97 77.59 12.971 77.59 1 (-100)
           default_preferences); try reflexivity; try lia;
    try (apply (near_crime_exposure dark_crime_world 1); try reflexivity; lra);
    apply dark_lighting_score; try reflexivity; lra.
Qed.

(** C6, counterexamples.  First, to strictness: one crime more at every
    sampled point, everything else unchanged, and the safety score stays
    at the cap of 100.  Second, to monotonicity on datasets with a
    negative value: with a lighting score of -100 near the route the
    multiplier is negative, and one crime more at every sampled point
    raises the safety score from -87.5 to -77. *)
Lemma more_crime_same_or_higher_score :
  (calculate_crime_exposure night_world 12.97 77.59 0.003 = 0%nat
   /\ calculate_crime_exposure night_world 12.971 77.59 0.003 = 0%nat
   /\ calculate_crime_exposure one_crime_world 12.97 77.59 0.003 = 1%nat
   /\ calculate_crime_exposure one_crime_world 12.971 77.59 0.003 = 1%nat
   /\ lighting_data one_crime_world = lighting_data night_world
   /\ population_data one_crime_world = population_data night_world
   /\ option_map safety_score
        (calculate_route_safety_comprehensive night_world short_route
           (Some default_preferences)) = Some 100
   /\ option_map safety_score
        (calculate_route_safety_comprehensive one_crime_world short_route
           (Some default_preferences)) = Some 100)
  /\ (calculate_crime_exposure dark_world 12.97 77.59 0.003 = 0%nat
      /\ calculate_crime_exposure dark_world 12.971 77.59 0.003 = 0%nat
      /\ calculate_crime_exposure dark_crime_world 12.97 77.59 0.003 = 1%nat
      /\ calculate_crime_exposure dark_crime_world 12.971 77.59 0.003 = 1%nat
      /\ lighting_data dark_crime_world = lighting_data dark_world
      /\ population_data dark_crime_world = population_data dark_world
      /\ option_map safety_score
           (calculate_route_safety_comprehensive dark_world short_route
              (Some default_preferences)) = Some (-87.5)
      /\ option_map safety_score
           (calculate_route_safety_comprehensive dark_crime_world short_route
              (Some default_preferences)) = Some (-77)
      /\ -87.5 < -77).
Proof.
  split.
  - repeat split;
      try apply no_crime_exposure;
      try (apply one_crime_exposure; lra).
    + apply short_route_score_without_crime.
    + apply short_route_score_with_crime.
  - repeat split; try reflexivity;
      try (apply (near_crime_exposure dark_crime_world 1); try reflexivity; lra).
    + rewrite dark_short_route_without_crime. cbn [option_map].
      f_equal. apply dark_score_without_crime.
    + rewrite dark_short_route_with_crime. cbn [option_map].
      f_equal. apply dark_score_with_crime.
    + lra.
Qed.

(** *** Below the caps: two crimes at each point, then three *)

Lemma short_route_two_crimes :
  calculate_route_safety_comprehensive two_crime_world short_route
    (Some default_preferences)
  = Some (score_of_totals (two_point_totals 2 5) 2 false false false).
Proof.
  apply (two_point_scorer two_crime_world 12.97 77.59 12.971 77.59 2 5
           default_preferences); try reflexivity; try lia;
    apply (near_crime_exposure two_crime_world 2); try reflexivity; lra.
Qed.

Lemma short_route_three_crimes :
  calculate_route_safety_comprehensive three_crime_world short_route
    (Some default_preferences)
  = Some (score_of_totals (two_point_totals 3 5) 2 false false false).
Proof.
  apply (two_point_scorer three_crime_world 12.97 77.59 12.971 77.59 3 5
           default_preferences); try reflexivity; try lia;
    apply (near_crime_exposure three_crime_world 3); try reflexivity; lra.
Qed.

Lemma py_pow_ge_base (x p : R) : 1 <= x -> 1 <= p -> x <= py_pow x p.
Proof.
  intros Hx Hp. unfold py_pow. rewrite Rltb_true by lra.
  rewrite <- (Rpower_1 x) at 1 by lra.
  apply Rle_Rpower; assumption.
Qed.

(** Two crimes at each point: the penalties are at least 10 + 14, so the
    score is at most 76 * 1.225 = 93.1, below the cap. *)
Lemma two_crime_score_below_cap :
  safety_score (score_of_totals (two_point_totals 2 5) 2 false false false)
  < 100.
Proof.
  rewrite two_point_score.
  assert (E : INR 2 = 2) by (simpl; lra). rewrite E.
  pose proof (py_pow_ge_base 2 1.2 ltac:(lra) ltac:(lra)) as P1.
  pose proof (py_pow_ge_base 2 1.4 ltac:(lra) ltac:(lra)) as P2.
  set (b := Rmin 40 (py_pow 2 1.2 * 5)).
  set (c := Rmin 40 (py_pow 2 1.4 * 7)).
  assert (Hb : 10 <= b) by (unfold b; apply Rmin_glb; lra).
  assert (Hc : 14 <= c) by (unfold c; apply Rmin_glb; lra).
  assert (HB : 0 <= Rmax 0 (100 - (b + c)) <= 76).
  { split; [apply Rmax_l | apply Rmax_lub; lra]. }
  set (B := Rmax 0 (100 - (b + c))) in *.
  pose proof (py_round_error (Rmin 100 (B * ((4.5 + 5 * 0.08) / 4)))) as [_ R].
  pose proof (Rmin_r 100 (B * ((4.5 + 5 * 0.08) / 4))).
  lra.
Qed.

(** Three crimes at each point: each penalty is capped at 40, so the
    score is at least 20 * 1.225 = 24.5, above the floor. *)
Lemma three_crime_score_above_floor :
  0 < safety_score (score_of_totals (two_point_totals 3 5) 2 false false false).
Proof.
  rewrite two_point_score.
  set (b := Rmin 40 (py_pow (INR 3) 1.2 * 5)).
  set (c := Rmin 40 (py_pow (INR 3) 1.4 * 7)).
  assert (Hb : b <= 40) by apply Rmin_l.
  assert (Hc : c <= 40) by apply Rmin_l.
  assert (HB : 20 <= Rmax 0 (100 - (b + c))).
  { eapply Rle_trans; [| apply Rmax_r]. lra. }
  set (B := Rmax 0 (100 - (b + c))) in *.
  pose proof (py_round_error (Rmin 100 (B * ((4.5 + 5 * 0.08) / 4)))) as [R _].
  assert (24 <= Rmin 100 (B * ((4.5 + 5 * 0.08) / 4)))
    by (apply Rmin_glb; lra).
  lra.
Qed.

(** C6, a case below the caps: the route with three crimes at each point
    scores strictly less than with two. *)
Lemma third_crime_lowers_score :
  match calculate_route_safety_comprehensive two_crime_world short_route
          (Some default_preferences),
        calculate_route_safety_comprehensive three_crime_world short_route
          (Some default_preferences) with
  | Some m1, Some m2 => safety_score m2 < safety_score m1
  | _, _ => False
  end.
Proof.
  assert (Hle : forall p, In p (sample_route short_route) ->
                  (calculate_crime_exposure two_crime_world (fst p) (snd p) 0.003
                   <= calculate_crime_exposure three_crime_world
                        (fst p) (snd p) 0.003)%nat).
  { intros p [<- | [<- | []]]; cbn [fst snd];
      rewrite (near_crime_exposure two_crime_world 2),
              (near_crime_exposure three_crime_world 3);
      try reflexivity; try lra; lia. }
  pose proof (safety_score_antitone_in_crime two_crime_world three_crime_world
                short_route (Some default_preferences)
                eq_refl eq_refl (Forall_nil _) (Forall_nil _) (Forall_nil _)
                Hle) as H.
  rewrite short_route_two_crimes, short_route_three_crimes in *.
  destruct H as [_ H]. apply H.
  - exists (12.97, 77.59). split; [left; reflexivity |]. cbn [fst snd].
    rewrite (near_crime_exposure two_crime_world 2),
            (near_crime_exposure three_crime_world 3);
      try reflexivity; try lra; lia.
  - rewrite two_point_crime_density. simpl; lra.
  - exact three_crime_score_above_floor.
  - exact two_crime_score_below_cap.
Defined.

(** ** Where pooled routes come from, and the range of their scores *)

Section Provenance.

Variable haversine_distance : pyval -> pyval -> pyval -> pyval -> pyfloat.
Variable w : World.
Variable preferences : Preferences.
Variables a b c d : R.

Lemma direct_step_provenance (st : list RouteDict * list string)
    (entry : nat * Geometry) :
  Forall (from_scorer haversine_distance w preferences a b c d) (fst st) ->
  Forall (from_scorer haversine_distance w preferences a b c d)
    (fst (direct_step haversine_distance w preferences a b c d st entry)).
Proof.
  intros H; destruct st as [routes hashes], entry as [idx g].
  unfold direct_step.
  destruct (validate_route_connectivity haversine_distance (route g) 0.5) eqn:Hv;
    cbn [negb]; [| exact H].
  destruct (detect_route_backtracking _ _ _ _ _ _) eqn:Hb; cbn [negb];
    [| exact H].
  destruct (fresh_hash _ hashes) as [h |]; [| exact H].
  destruct (calculate_route_safety_comprehensive w (route g) _) as [s |] eqn:Hs;
    [| exact H].
  destruct (check_route_main_road_coverage w (route g) 0.4) as [hm mp].
  destruct (prefer_main_roads preferences && Rltb mp 40); [exact H |].
  cbn [fst] in *.
  apply Forall_app; split; [exact H |].
  constructor; [| constructor].
  eexists; eexists; eexists; eexists; repeat split; eassumption.
Qed.

Lemma waypoint_routes_loop_provenance (waypoint_routes : list Geometry)
    (st : Explore) :
  Forall (from_scorer haversine_distance w preferences a b c d) (all_routes st) ->
  Forall (from_scorer haversine_distance w preferences a b c d)
    (all_routes (waypoint_routes_loop haversine_distance w preferences
                   a b c d waypoint_routes st)).
Proof.
  revert st; induction waypoint_routes as [| g rest IH]; intros st H;
    [exact H |].
  cbn [waypoint_routes_loop].
  destruct (validate_route_connectivity haversine_distance (route g) 0.5) eqn:Hv;
    cbn [negb]; [| apply IH, H].
  destruct (detect_route_backtracking _ _ _ _ _ _) eqn:Hb; cbn [negb];
    [| apply IH, H].
  destruct (fresh_hash _ (route_hashes st)) as [h |]; [| apply IH, H].
  destruct (calculate_route_safety_comprehensive w (route g) _) as [s |] eqn:Hs;
    [| apply IH, H].
  destruct (prefer_main_roads preferences && Rltb (main_road_percentage s) 40);
    [apply IH, H |].
  match goal with
  | |- context [if _ then ?st' else _] =>
      assert (H' : Forall (from_scorer haversine_distance w preferences a b c d)
                     (all_routes st'))
  end.
  { cbn [all_routes]; apply Forall_app; split; [exact H |].
    constructor; [| constructor].
    eexists; eexists; eexists; eexists; repeat split; eassumption. }
  destruct (max_waypoints <=? _)%nat; [exact H' | apply IH, H'].
Qed.

Lemma collect_candidates_provenance :
  Forall (from_scorer haversine_distance w preferences a b c d)
    (all_routes (collect_candidates haversine_distance w preferences a b c d)).
Proof.
  unfold collect_candidates.
  destruct (get_route_from_osrm _ _ 0 _ _ _ _ None) as [direct_routes calls1].
  assert (H1 : forall entries st,
             Forall (from_scorer haversine_distance w preferences a b c d)
               (fst st) ->
             Forall (from_scorer haversine_distance w preferences a b c d)
               (fst (fold_left
                       (direct_step haversine_distance w preferences a b c d)
                       entries st))).
  { induction entries as [| e rest IH]; intros st H; [exact H |].
    cbn [fold_left]; apply IH, direct_step_provenance, H. }
  specialize (H1 (enumerate (truthy_routes direct_routes)) ([], [])
                 (Forall_nil _)).
  destruct (fold_left _ _ ([], [])) as [routes1 hashes1]; cbn [fst] in H1.
  cbv zeta.
  destruct (if Rgtb _ 0 then _ else _) as [perp_lat perp_lon].
  apply (for_until_full_inv
           (fun st => Forall (from_scorer haversine_distance w preferences
                                a b c d) (all_routes st))); [| exact H1].
  intros position st1 Hs1.
  apply (for_until_full_inv
           (fun st => Forall (from_scorer haversine_distance w preferences
                                a b c d) (all_routes st))); [| exact Hs1].
  intros offset st2 Hs2.
  apply (for_until_full_inv
           (fun st => Forall (from_scorer haversine_distance w preferences
                                a b c d) (all_routes st))); [| exact Hs2].
  intros direction st3 Hs3.
  unfold waypoint_step; cbv zeta.
  destruct (validate_coordinates _ _); cbn [negb]; [| exact Hs3].
  destruct (gtb _ (Fin 1.8)); [exact Hs3 |].
  destruct (get_route_from_osrm _ _ _ _ _ _ _ _) as [wr calls'].
  apply waypoint_routes_loop_provenance; exact Hs3.
Qed.

End Provenance.

Lemma score_of_totals_range (acc : ScoreAcc) (n : nat)
    (well_lit populated main_roads : bool) :
  (1 <= n)%nat ->
  0 <= total_lighting acc -> 0 <= total_population acc ->
  0 <= total_traffic acc ->
  0 <= safety_score (score_of_totals acc n well_lit populated main_roads) <= 100.
Proof.
  intros Hn Hl Hp Ht.
  unfold score_of_totals; cbn [safety_score].
  apply (py_round_range _ 2 0 100).
  rewrite !py_min_Rmin, !py_max_Rmax.
  assert (Hpos : 0 < INR n) by (apply lt_0_INR; lia).
  assert (Hinv : 0 < / INR n) by (apply Rinv_0_lt_compat; exact Hpos).
  match goal with
  | |- _ <= Rmin 100 (Rmax 0 ?base * ?m) <= _ =>
      set (B := Rmax 0 base); set (M := m)
  end.
  assert (HB : 0 <= B) by apply Rmax_l.
  assert (HM : 0 <= M).
  { assert (0 <= total_lighting acc / INR n) by (apply Rmult_le_pos; lra).
    assert (0 <= total_population acc / INR n) by (apply Rmult_le_pos; lra).
    assert (0 <= total_traffic acc / INR n) by (apply Rmult_le_pos; lra).
    assert (0 <= INR (main_road_count acc) / INR n).
    { apply Rmult_le_pos; [apply pos_INR | lra]. }
    unfold M.
    destruct well_lit, populated, main_roads; nra. }
  split; [| apply Rmin_l].
  apply Rmin_glb; [lra | apply Rmult_le_pos; assumption].
Qed.

(** On non-negative data the scorer answers within [[0,100]]. *)
Lemma scorer_range (w : World) (points : list point)
    (preferences : option Preferences) (s : SafetyMetrics) :
  nonneg_datasets w ->
  calculate_route_safety_comprehensive w points preferences = Some s ->
  0 <= safety_score s <= 100.
Proof.
  intros [Hnl [Hnd Hnt]]; unfold calculate_route_safety_comprehensive.
  destruct (length points <? 2)%nat eqn:E; [discriminate |].
  intros [= <-].
  pose proof (score_fold_related w w (sample_route points)
                empty_acc empty_acc eq_refl eq_refl Hnl Hnd Hnt
                (fun p _ => le_n _)) as Hrel.
  assert (H0 : acc_related empty_acc empty_acc).
  { unfold acc_related, empty_acc; cbn; repeat split; try lia; lra. }
  destruct (Hrel H0) as [_ [_ [_ [_ [_ [_ [_ [H8 [H9 H10]]]]]]]]].
  apply score_of_totals_range; try assumption.
  destruct points as [| p0 rest]; [discriminate E |].
  unfold sample_route, py_stride; cbn; lia.
Qed.

Lemma score_route_range (cs : RouteDict -> Preferences -> R) (w : World)
    (preferences : Preferences) (t : DateTime) (r : RouteDict) :
  score_in_range r -> score_in_range (score_route cs w preferences t r).
Proof.
  intros H; unfold score_route.
  destruct (ML_AVAILABLE w); [| exact H].
  unfold ml_blend.
  destruct (ML.extract_route_features _ _ _) as [f | e]; [| exact H].
  cbn [bind].
  destruct (ML.predict_safety_score (ml_model w) f) as [m | e] eqn:Em;
    [| exact H].
  cbn [bind try_except]; unfold score_in_range in *; cbn.
  assert (Hm : 0 <= m <= 100).
  { unfold ML.predict_safety_score in Em.
    destruct (ml_model w) as [predict |].
    - destruct (predict f) as [x | e]; [| discriminate].
      cbn in Em; injection Em as <-; apply np_clip_bounds; lra.
    - injection Em as <-; apply np_clip_bounds; lra. }
  lra.
Qed.

(** On non-negative data every route of the pre-guardrail pool has its
    score in range. *)
Lemma request_pool_range
    (hd : pyval -> pyval -> pyval -> pyval -> pyfloat)
    (cs : RouteDict -> Preferences -> R) (w : World)
    (preferences : Preferences) (a b c d : R) :
  nonneg_datasets w ->
  Forall score_in_range (request_pool hd cs w preferences a b c d).
Proof.
  intros Hn; unfold request_pool.
  eapply Permutation_Forall; [symmetry; apply sort_by_composite_perm |].
  apply Forall_map.
  eapply Forall_impl; [| apply (collect_candidates_provenance hd w preferences a b c d)].
  intros r [g [s [src [ty [-> [_ [_ Hs]]]]]]].
  apply score_route_range; unfold score_in_range; cbn.
  exact (scorer_range w _ _ s Hn Hs).
Qed.

(** ** Size and score range of an answer *)

Lemma direct_fallback_route_range (w : World) (preferences : Preferences)
    (g : Geometry) :
  nonneg_datasets w ->
  score_in_range (Routes.direct_fallback_route w preferences g).
Proof.
  intros Hn; unfold Routes.direct_fallback_route, score_in_range.
  destruct (calculate_route_safety_comprehensive w (route g) (Some preferences))
    as [s |] eqn:Hs; cbn.
  - exact (scorer_range w _ _ s Hn Hs).
  - lra.
Qed.

(** C2, as amended.  Whatever the request (hence for every valid start
    and end inside the service bounding box), [optimize_route] of [app.py]
    returns at most 7 routes and every returned route has its
    [safety_score] in [[0,100]].  The handler of [app/routes.py] returns at
    most 7 routes as well; their scores are in [[0,100]] on the regular
    path, and on its fallback paths once the datasets hold no negative
    value: a fallback route carries the score of the scorer, which is not
    clipped. *)
Theorem optimize_route_at_most_7_scores_in_range (w : World) (data : RequestJson) :
  ((length (routes_of (App.optimize_route w data)) <= 7)%nat
   /\ Forall score_in_range (routes_of (App.optimize_route w data)))
  /\ (length (routes_of (Routes.api_optimize_route w data)) <= 7)%nat
  /\ (is_fallback_of (Routes.api_optimize_route w data) = false ->
      Forall score_in_range (routes_of (Routes.api_optimize_route w data)))
  /\ (nonneg_datasets w ->
      Forall score_in_range (routes_of (Routes.api_optimize_route w data))).
Proof.
  split.
  { destruct (app_outcome w data)
      as [[s [e ->]] | [p [a [b [c [d [v [_ [E ->]]]]]]]]].
    - cbn [routes_of length]; split; [lia | constructor].
    - destruct (regular_answer_ok _ _ w p a b c d v E) as [H1 [H2 _]].
      split; assumption. }
  destruct (routes_outcome w data)
    as [[s [e ->]]
       | [[p [g [m ->]]]
         | [[p [a [b [c [d [best [n [m [Hin ->]]]]]]]]]
           | [p [a [b [c [d [v [_ [E ->]]]]]]]]]]].
  - cbn [routes_of length is_fallback_of].
    split; [lia |]. split; constructor.
  - cbn [routes_of length is_fallback_of].
    split; [lia |]. split; [discriminate |].
    intros Hn; constructor; [| constructor].
    apply direct_fallback_route_range, Hn.
  - cbn [routes_of length is_fallback_of].
    split; [lia |]. split; [discriminate |].
    intros Hn; constructor; [| constructor].
    pose proof (request_pool_range Routes.haversine_distance
                  Routes.calculate_composite_score w p a b c d Hn) as HF.
    rewrite Forall_forall in HF.
    exact (HF best Hin).
  - destruct (regular_answer_ok _ _ w p a b c d v E) as [H1 [H2 _]].
    split; [exact H1 |]. split; intros _; exact H2.
Qed.

(** In the scenario at 1 AM the datasets are empty, hence non-negative:
    the fallback route returned by [app/routes.py] has its score in
    range. *)
Lemma night_answer_in_range :
  Forall score_in_range
    (routes_of (Routes.api_optimize_route night_world demo_request)).
Proof.
  destruct (optimize_route_at_most_7_scores_in_range night_world demo_request)
    as [_ [_ [_ H]]].
  apply H; repeat split; constructor.
Defined.

(** ** A fallback answer with a score below 0 *)

Section DarkScenario.

Variable haversine_distance : pyval -> pyval -> pyval -> pyval -> pyfloat.

Hypothesis on_floats : forall a b c d,
  haversine_distance (VFloat a) (VFloat b) (VFloat c) (VFloat d)
  = App.haversine_distance (VFloat a) (VFloat b) (VFloat c) (VFloat d).

Variable w : World.
Hypothesis demo_provider : osrm_get w = demo_osrm.

(** The provider of the scenarios answers every request, with or
    without waypoint, with the same two points. *)
Lemma demo_provider_routes (n : nat) (wp : option Waypoint) :
  get_route_from_osrm haversine_distance w n 12.97 77.59 12.973 77.59 wp
  = (Some [ {| route := [(12.97, 77.59); (12.973, 77.59)];
               distance_km := 334 / 1000;
               duration_min := 60 / 60;
               waypoint := wp;
               steps := [] |} ], S n).
Proof.
  unfold get_route_from_osrm.
  rewrite demo_valid_start, demo_valid_end; cbn [andb negb].
  rewrite demo_provider.
  cbn [demo_osrm bind code routes String.eqb
       Ascii.eqb Bool.eqb negb fold_left try_except].
  unfold osrm_route_entry; cbn [geometry length Nat.ltb Nat.leb map fst snd nth
                                Nat.sub distance duration].
  unfold hav; rewrite !on_floats, !app_haversine_same_point.
  unfold gtb, ltb; rewrite Rltb_false by lra; cbn [orb bind app].
  reflexivity.
Qed.

End DarkScenario.

Lemma dark_demo_route_scorer (preferences : Preferences) :
  calculate_route_safety_comprehensive dark_world
    [(12.97, 77.59); (12.973, 77.59)] (Some preferences)
  = Some (score_of_totals (two_point_totals 0 (-100)) 2
            (prefer_well_lit preferences) (prefer_populated preferences)
            (prefer_main_roads preferences)).
Proof.
  apply (two_point_scorer dark_world 12.97 77.59 12.973 77.59 0 (-100)
           preferences); try reflexivity; try lia;
    apply dark_lighting_score; try reflexivity; lra.
Qed.

(** When main roads are asked for, no candidate of the scenario is kept:
    there is no population record, hence no main road, near the route. *)
Lemma dark_pool_is_empty (preferences : Preferences) :
  prefer_main_roads preferences = true ->
  all_routes (collect_candidates Routes.haversine_distance dark_world
                preferences 12.97 77.59 12.973 77.59) = [].
Proof.
  intros Hp. unfold collect_candidates.
  rewrite (demo_provider_routes Routes.haversine_distance
             routes_haversine_floats dark_world eq_refl 0 None).
  cbn [truthy_routes enumerate length seq combine fold_left].
  unfold direct_step. cbn [route].
  rewrite (demo_connected Routes.haversine_distance routes_haversine_floats).
  cbn [negb detect_route_backtracking length Nat.ltb Nat.leb].
  assert (Hskip :
            (let '(has_main, main_pct) :=
               check_route_main_road_coverage dark_world
                 [(12.97, 77.59); (12.973, 77.59)] 0.4 in
             prefer_main_roads preferences && Rltb main_pct 40) = true).
  { unfold check_route_main_road_coverage.
    cbn [length Nat.ltb Nat.leb Nat.min Nat.div Nat.divmod fst Nat.max
         py_stride stride_from Nat.sub fold_left].
    rewrite !quiet_population_score by reflexivity.
    cbn [INR]. rewrite Hp. cbn [andb].
    apply Rltb_true. lra. }
  assert (Hdirect :
            match fresh_hash
                    (calculate_route_hash dark_world
                       [(12.97, 77.59); (12.973, 77.59)]) [] with
            | Some route_hash =>
                match calculate_route_safety_comprehensive dark_world
                        [(12.97, 77.59); (12.973, 77.59)] (Some preferences) with
                | Some safety =>
                    let '(has_main, main_pct) :=
                      check_route_main_road_coverage dark_world
                        [(12.97, 77.59); (12.973, 77.59)] 0.4 in
                    if prefer_main_roads preferences && Rltb main_pct 40
                    then ([], [])
                    else ([] ++ [candidate
                                   {| route := [(12.97, 77.59); (12.973, 77.59)];
                                      distance_km := 334 / 1000;
                                      duration_min := 60 / 60;
                                      waypoint := None;
                                      steps := [] |} safety
                                   ("direct_" ++ str_of_nat (0 + 1))%string
                                   "direct"],
                          [] ++ [route_hash])
                | None => ([], [])
                end
            | None => ([], [])
            end = (@nil RouteDict, @nil string)).
  { destruct (fresh_hash _ _); [| reflexivity].
    destruct (calculate_route_safety_comprehensive _ _ _); [| reflexivity].
    destruct (check_route_main_road_coverage _ _ _) as [hm mp].
    rewrite Hskip. reflexivity. }
  rewrite Hdirect. cbv zeta.
  destruct (if Rgtb _ 0 then _ else _) as [perp_lat perp_lon].
  apply (for_until_full_inv (fun st => all_routes st = [])); [| reflexivity].
  intros position st1 Hs1.
  apply (for_until_full_inv (fun st => all_routes st = [])); [| exact Hs1].
  intros offset st2 Hs2.
  apply (for_until_full_inv (fun st => all_routes st = [])); [| exact Hs2].
  intros direction st3 Hs3.
  unfold waypoint_step; cbv zeta.
  destruct (validate_coordinates _ _); cbn [negb]; [| exact Hs3].
  destruct (gtb _ (Fin 1.8)); [exact Hs3 |].
  rewrite (demo_provider_routes Routes.haversine_distance
             routes_haversine_floats dark_world eq_refl).
  cbn [truthy_routes waypoint_routes_loop route].
  rewrite (demo_connected Routes.haversine_distance routes_haversine_floats).
  cbn [negb detect_route_backtracking length Nat.ltb Nat.leb
       route_hashes all_routes waypoint_count calls].
  destruct (fresh_hash _ (route_hashes st3)); [| cbn [all_routes]; exact Hs3].
  rewrite dark_demo_route_scorer, two_point_main_road_percentage, Hp.
  rewrite Rltb_true by lra. cbn [andb all_routes]. exact Hs3.
Qed.

(** C2, counterexample on [app/routes.py]: both ends lie inside the
    service area, the request asks for main roads, the lighting dataset
    holds a negative score near the route; the pool is empty, the handler
    answers with the direct route as fallback, and that route carries the
    scorer's own score, -87.5, which is not in [[0, 100]]. *)
Lemma routes_fallback_score_below_zero :
  validate_coordinates (VFloat 12.97) (VFloat 77.59)
  && validate_coordinates (VFloat 12.973) (VFloat 77.59) = true
  /\ exists r,
       Routes.api_optimize_route dark_world main_road_request
       = Success [r] 1
           "No validated routes found. Showing direct route with caution."
           true
       /\ routes_of (Routes.api_optimize_route dark_world main_road_request)
          = [r]
       /\ is_fallback_of (Routes.api_optimize_route dark_world main_road_request)
          = true
       /\ rd_safety_score r = -87.5
       /\ ~ score_in_range r.
Proof.
  split; [rewrite demo_valid_start, demo_valid_end; reflexivity |].
  assert (Hanswer :
            Routes.api_optimize_route dark_world main_road_request
            = Success
                [Routes.direct_fallback_route dark_world main_road_preferences
                   {| route := [(12.97, 77.59); (12.973, 77.59)];
                      distance_km := 334 / 1000;
                      duration_min := 60 / 60;
                      waypoint := None;
                      steps := [] |}] 1
                "No validated routes found. Showing direct route with caution."
                true).
  { unfold Routes.api_optimize_route.
    change (parse_coordinates main_road_request)
      with (@inr Response _ (12.97, 77.59, 12.973, 77.59)).
    change (parse_preferences main_road_request)
      with (Ret main_road_preferences).
    cbn [bind]. rewrite demo_valid_start, demo_valid_end. cbn [andb negb].
    rewrite (dark_pool_is_empty main_road_preferences eq_refl).
    cbn [length Nat.eqb handle].
    unfold Routes.empty_pool_answer.
    rewrite (demo_provider_routes Routes.haversine_distance
               routes_haversine_floats dark_world eq_refl).
    reflexivity. }
  eexists. split; [exact Hanswer |].
  rewrite Hanswer. cbn [routes_of is_fallback_of].
  split; [reflexivity |]. split; [reflexivity |].
  assert (Hscore : rd_safety_score
                     (Routes.direct_fallback_route dark_world
                        main_road_preferences
                        {| route := [(12.97, 77.59); (12.973, 77.59)];
                           distance_km := 334 / 1000;
                           duration_min := 60 / 60;
                           waypoint := None;
                           steps := [] |}) = -87.5).
  { unfold Routes.direct_fallback_route. cbn [route].
    rewrite dark_demo_route_scorer. cbn [rd_safety_score].
    apply dark_score_without_crime. }
  split; [exact Hscore |].
  unfold score_in_range. rewrite Hscore. lra.
Qed.

(* ------------------------------------------------------------------ *)
(** * Further properties of the engine *)

(** ** The three distance helpers on numbers *)







(** ** The service-area test *)

(** X2.  [validate_coordinates] never raises: it answers [True] exactly
    when [float()] parses both arguments (numbers and numeric strings)
    and the point lies in the closed box of the service area, bounds
    included; every unparsable argument gives [False]. *)
Theorem validate_coordinates_accepts_exactly_the_box (lat lon : pyval) :
  validate_coordinates lat lon = true
  <-> exists x y, py_float lat = Ret x /\ py_float lon = Ret y
                  /\ in_service_area x y.
Proof.
  unfold validate_coordinates, in_service_area, min_lat, max_lat, min_lon, max_lon.
  destruct (py_float lat) as [x | e1] eqn:Hx; simpl.
  - destruct (py_float lon) as [y | e2] eqn:Hy; simpl.
    + rewrite !andb_true_iff, !Rleb_spec. split.
      * intros [[[A B] C] D]. exists x, y. repeat split; assumption.
      * intros (x' & y' & Ex & Ey & [A B] & [C D]).
        injection Ex as <-. injection Ey as <-. repeat split; assumption.
    + split; [discriminate |]. intros (x' & y' & _ & Ey & _); discriminate.
  - split; [discriminate |]. intros (x' & y' & Ex & _); discriminate.
Qed.

(** ** Connectivity of a polyline *)

Section ConnectivityFacts.

Variable haversine_distance : pyval -> pyval -> pyval -> pyval -> pyfloat.

Lemma connectivity_loop_spec (max_gap : R) (rest : list point) (current : point) :
  connectivity_loop haversine_distance max_gap current rest = true
  <-> forall i, (i < length rest)%nat ->
        gtb (gap_at haversine_distance (current :: rest) i) (Fin max_gap) = false.
Proof.
  revert current.
  induction rest as [| q rest IH]; intros current;
    cbn [connectivity_loop length].
  - split; [intros _ i Hi; lia | reflexivity].
  - assert (G0 : gap_at haversine_distance (current :: q :: rest) 0
                 = hav haversine_distance (fst current) (snd current)
                     (fst q) (snd q)) by reflexivity.
    assert (GS : forall i, gap_at haversine_distance (current :: q :: rest) (S i)
                           = gap_at haversine_distance (q :: rest) i)
      by reflexivity.
    destruct (gtb (hav haversine_distance (fst current) (snd current)
                     (fst q) (snd q)) (Fin max_gap)) eqn:Hg.
    + split; [intros H; discriminate H |]. intros H.
      specialize (H 0%nat ltac:(lia)). rewrite G0 in H. congruence.
    + rewrite IH. split.
      * intros H [| i] Hi.
        -- rewrite G0; exact Hg.
        -- rewrite GS. apply (H i). lia.
      * intros H i Hi. rewrite <- GS. apply (H (S i)). lia.
Qed.

Lemma validate_route_connectivity_spec (route_points : list point) (max_gap : R) :
  validate_route_connectivity haversine_distance route_points max_gap = true
  <-> (2 <= length route_points)%nat
      /\ forall i, (S i < length route_points)%nat ->
           gtb (gap_at haversine_distance route_points i) (Fin max_gap) = false.
Proof.
  unfold validate_route_connectivity.
  destruct (length route_points <? 2)%nat eqn:Hn.
  - apply Nat.ltb_lt in Hn. split; [discriminate | intros [H _]; lia].
  - apply Nat.ltb_ge in Hn.
    destruct route_points as [| p rest]; [simpl in Hn; lia |].
    rewrite connectivity_loop_spec. cbn [length] in *. split.
    + intros H. split; [lia |]. intros i Hi. apply H. lia.
    + intros [_ H] i Hi. apply H. lia.
Qed.

End ConnectivityFacts.

(** X3.  [validate_route_connectivity] accepts a route exactly when it has
    at least two points and no pair of consecutive points is more than
    [max_gap_km] apart (a gap of exactly [max_gap_km] passes). *)
Theorem connectivity_accepts_exactly_gap_free_routes
    (haversine_distance : pyval -> pyval -> pyval -> pyval -> pyfloat)
    (route_points : list point) (max_gap_km : R) :
  validate_route_connectivity haversine_distance route_points max_gap_km = true
  <-> (2 <= length route_points)%nat
      /\ forall i, (S i < length route_points)%nat ->
           gtb (gap_at haversine_distance route_points i) (Fin max_gap_km) = false.
Proof. apply validate_route_connectivity_spec. Qed.

Lemma app_hav_sym (a b c d : R) :
  hav App.haversine_distance a b c d = hav App.haversine_distance c d a b.
Proof.
  unfold hav. rewrite !app_haversine_floats, haversine_a_sym. reflexivity.
Qed.

Lemma gap_at_rev (route_points : list point) (i : nat) :
  (S i < length route_points)%nat ->
  gap_at App.haversine_distance (rev route_points) i
  = gap_at App.haversine_distance route_points (length route_points - 2 - i).
Proof.
  intros Hi. unfold gap_at.
  rewrite !rev_nth by lia.
  replace (length route_points - S (S i))%nat
    with (length route_points - 2 - i)%nat by lia.
  replace (length route_points - S i)%nat
    with (S (length route_points - 2 - i))%nat by lia.
  apply app_hav_sym.
Qed.

(** X4.  Travelling a route backwards does not change the verdict of
    [validate_route_connectivity]: the distance helper is symmetric, so
    the reversed polyline has the same gaps. *)
Theorem connectivity_of_reversed_route (route_points : list point) (max_gap_km : R) :
  validate_route_connectivity App.haversine_distance (rev route_points) max_gap_km
  = validate_route_connectivity App.haversine_distance route_points max_gap_km
  /\ validate_route_connectivity Routes.haversine_distance (rev route_points)
       max_gap_km
     = validate_route_connectivity Routes.haversine_distance route_points
         max_gap_km.
Proof.
  assert (HA : validate_route_connectivity App.haversine_distance
                 (rev route_points) max_gap_km
               = validate_route_connectivity App.haversine_distance
                   route_points max_gap_km).
  { apply eq_true_iff_eq.
    rewrite !validate_route_connectivity_spec, length_rev.
    split; intros [Hn H]; (split; [exact Hn |]); intros i Hi.
    - specialize (H (length route_points - 2 - i)%nat ltac:(lia)).
      rewrite gap_at_rev in H by lia.
      replace (length route_points - 2 - (length route_points - 2 - i))%nat
        with i in H by lia.
      exact H.
    - rewrite gap_at_rev by lia. apply H. lia. }
  split; [exact HA |].
  assert (E : forall pts,
             validate_route_connectivity Routes.haversine_distance pts max_gap_km
             = validate_route_connectivity App.haversine_distance pts max_gap_km).
  { intros pts. apply eq_true_iff_eq.
    rewrite !validate_route_connectivity_spec.
    assert (G : forall i, gap_at Routes.haversine_distance pts i
                          = gap_at App.haversine_distance pts i).
    { intros i. unfold gap_at, hav. apply routes_haversine_floats. }
    split; intros [Hn H]; (split; [exact Hn |]); intros i Hi;
      [rewrite <- G | rewrite G]; apply H; exact Hi. }
  rewrite !E. exact HA.
Qed.

(** ** The route fingerprint *)

Lemma calculate_route_hash_sampled (w : World) (r1 r2 : list point) :
  length r1 = length r2 ->
  (forall i, In i (sample_indices (length r1)) -> nth_error r1 i = nth_error r2 i) ->
  calculate_route_hash w r1 = calculate_route_hash w r2.
Proof.
  intros Hlen H. unfold calculate_route_hash. rewrite <- Hlen.
  set (n := length r1) in *.
  destruct (n <? 2)%nat; [reflexivity |].
  cbn [flat_map].
  assert (Hin : forall i, In i [0; n / 4; n / 2; 3 * n / 4; n - 1]%nat ->
                          nth_error r2 i = nth_error r1 i).
  { intros i Hi. symmetry. apply H. exact Hi. }
  rewrite !Hin by (cbn [In]; tauto).
  reflexivity.
Qed.

(** X5.  The fingerprint of a route reads only the points at positions
    0, n/4, n/2, 3n/4 and n-1: two routes of the same length that agree
    there have the same [calculate_route_hash], whatever lies between. *)
Theorem route_hash_reads_five_points (w : World) (r1 r2 : list point) :
  length r1 = length r2 ->
  (forall i, In i (sample_indices (length r1)) -> nth_error r1 i = nth_error r2 i) ->
  calculate_route_hash w r1 = calculate_route_hash w r2
  /\ (calculate_route_hash w r1 = None <-> (length r1 < 2)%nat).
Proof.
  intros Hlen H. split; [apply calculate_route_hash_sampled; assumption |].
  unfold calculate_route_hash.
  destruct (length r1 <? 2)%nat eqn:Hn.
  - apply Nat.ltb_lt in Hn. tauto.
  - apply Nat.ltb_ge in Hn. split; [discriminate | lia].
Qed.

Lemma lookalike_agrees_where_sampled (i : nat) :
  In i (sample_indices (length (route lookalike_geometry))) ->
  nth_error (route lookalike_geometry) i = nth_error (route meridian_geometry) i.
Proof.
  cbn. intros [<- | [<- | [<- | [<- | [<- | []]]]]]; reflexivity.
Qed.

Lemma lookalike_has_same_hash :
  calculate_route_hash night_world (route lookalike_geometry)
  = calculate_route_hash night_world (route meridian_geometry)
  /\ (calculate_route_hash night_world (route lookalike_geometry) = None
      <-> (length (route lookalike_geometry) < 2)%nat).
Proof.
  apply (route_hash_reads_five_points night_world
           (route lookalike_geometry) (route meridian_geometry)).
  - reflexivity.
  - exact lookalike_agrees_where_sampled.
Defined.

Lemma fresh_hash_known (h : string) (hashes : list string) :
  In h hashes -> fresh_hash (Some h) hashes = None.
Proof.
  intros Hin. unfold fresh_hash.
  assert (E : existsb (String.eqb h) hashes = true).
  { apply existsb_exists. exists h. split; [exact Hin | apply String.eqb_refl]. }
  rewrite E, andb_false_r. reflexivity.
Qed.

(** X6.  Deduplication works on fingerprints: once a route is pooled, an
    alternative of the same length that agrees with it at the five
    sampled positions is never added, neither by the loop over the direct
    alternatives nor by the loop over waypoint routes, even if it differs
    elsewhere. *)
Theorem lookalike_alternative_dropped
    (haversine_distance : pyval -> pyval -> pyval -> pyval -> pyfloat)
    (w : World) (preferences : Preferences) (a b c d : R)
    (st : Explore) (idx : nat) (g : Geometry) (r : RouteDict) :
  explore_ok haversine_distance w st ->
  In r (all_routes st) ->
  length (route g) = length (route (rd_geometry r)) ->
  (forall i, In i (sample_indices (length (route g))) ->
             nth_error (route g) i = nth_error (route (rd_geometry r)) i) ->
  direct_step haversine_distance w preferences a b c d
    (all_routes st, route_hashes st) (idx, g)
  = (all_routes st, route_hashes st)
  /\ waypoint_routes_loop haversine_distance w preferences a b c d [g] st = st.
Proof.
  intros [Hall _] Hin Hlen Hsame.
  rewrite Forall_forall in Hall.
  destruct (Hall r Hin) as (_ & h & Hfp & Hh).
  assert (Hg : calculate_route_hash w (route g) = Some h).
  { rewrite (calculate_route_hash_sampled w _ _ Hlen Hsame). exact Hfp. }
  split.
  - unfold direct_step.
    destruct (negb (validate_route_connectivity _ _ _)); [reflexivity |].
    destruct (negb (detect_route_backtracking _ _ _ _ _ _)); [reflexivity |].
    rewrite Hg, (fresh_hash_known h _ Hh). reflexivity.
  - cbn [waypoint_routes_loop].
    destruct (negb (validate_route_connectivity _ _ _)); [reflexivity |].
    destruct (negb (detect_route_backtracking _ _ _ _ _ _)); [reflexivity |].
    rewrite Hg, (fresh_hash_known h _ Hh). reflexivity.
Qed.

Lemma meridian_route_connected :
  validate_route_connectivity App.haversine_distance
    (route meridian_geometry) 0.5 = true.
Proof.
  apply validate_route_connectivity_spec. split; [cbn; lia |].
  pose proof PI_4 as Hpi. pose proof PI_RGT_0 as Hpos.
  intros i Hi. cbn in Hi.
  assert (Hcases : (i = 0 \/ i = 1 \/ i = 2 \/ i = 3 \/ i = 4)%nat) by lia.
  destruct Hcases as [-> | [-> | [-> | [-> | ->]]]];
    unfold gap_at, hav; cbn [nth route meridian_geometry fst snd];
    rewrite app_haversine_same_lon by lra;
    unfold gtb, ltb; apply Rltb_false; nra.
Qed.

Lemma meridian_pool_ok :
  explore_ok App.haversine_distance night_world
    {| all_routes := [candidate meridian_geometry quiet_metrics "direct_1" "direct"];
       route_hashes := ["d41d8cd98f00b204e9800998ecf8427e"%string];
       waypoint_count := 0;
       calls := 1 |}.
Proof.
  split; cbn [all_routes route_hashes].
  - constructor; [| constructor]. split.
    + exact meridian_route_connected.
    + exists "d41d8cd98f00b204e9800998ecf8427e"%string. split.
      * reflexivity.
      * left; reflexivity.
  - cbn [map]. constructor; [intros [] | constructor].
Qed.

Lemma lookalike_of_meridian_route_dropped :
  direct_step App.haversine_distance night_world default_preferences
    12.97 77.59 12.975 77.59
    ([candidate meridian_geometry quiet_metrics "direct_1" "direct"],
     ["d41d8cd98f00b204e9800998ecf8427e"%string])
    (1%nat, lookalike_geometry)
  = ([candidate meridian_geometry quiet_metrics "direct_1" "direct"],
     ["d41d8cd98f00b204e9800998ecf8427e"%string])
  /\ waypoint_routes_loop App.haversine_distance night_world default_preferences
       12.97 77.59 12.975 77.59 [lookalike_geometry]
       {| all_routes := [candidate meridian_geometry quiet_metrics
                           "direct_1" "direct"];
          route_hashes := ["d41d8cd98f00b204e9800998ecf8427e"%string];
          waypoint_count := 0;
          calls := 1 |}
     = {| all_routes := [candidate meridian_geometry quiet_metrics
                           "direct_1" "direct"];
          route_hashes := ["d41d8cd98f00b204e9800998ecf8427e"%string];
          waypoint_count := 0;
          calls := 1 |}.
Proof.
  apply (lookalike_alternative_dropped App.haversine_distance night_world
           default_preferences 12.97 77.59 12.975 77.59
           {| all_routes := [candidate meridian_geometry quiet_metrics
                               "direct_1" "direct"];
              route_hashes := ["d41d8cd98f00b204e9800998ecf8427e"%string];
              waypoint_count := 0;
              calls := 1 |}
           1%nat lookalike_geometry
           (candidate meridian_geometry quiet_metrics "direct_1" "direct")).
  - exact meridian_pool_ok.
  - left; reflexivity.
  - reflexivity.
  - exact lookalike_agrees_where_sampled.
Defined.

(** ** The safety scorer *)

(** X7.  The scorer examines between [min(n, 50)] and 99 points of a
    route of [n] points, each of them a point of the route, and always
    its first point. *)
Theorem scorer_sample_size (points : list point) :
  (Nat.min (length points) 50 <= length (sample_route points) <= 99)%nat
  /\ hd_error (sample_route points) = hd_error points
  /\ forall p, In p (sample_route points) -> In p points.
Proof.
  split; [| split].
  - rewrite sample_route_length.
    set (n := length points).
    pose proof (Nat.Div0.mul_div_le n 50) as Hlo.
    pose proof (Nat.mul_succ_div_gt n 50 ltac:(lia)) as Hhi.
    destruct (Nat.max_spec 1 (n / 50)) as [[Hk ->] | [Hk ->]].
    + split.
      * apply Nat.div_le_lower_bound; lia.
      * apply Nat.Div0.div_le_upper_bound; lia.
    + assert (n < 100)%nat by lia.
      rewrite Nat.sub_diag, Nat.add_0_r, Nat.div_1_r. lia.
  - unfold sample_route, py_stride.
    destruct points as [| p rest]; reflexivity.
  - intros p. unfold sample_route, py_stride. apply stride_from_incl.
Qed.

Lemma score_fold_counts (w : World) (points : list point) (acc : ScoreAcc) :
  (crime_hotspot_count (fold_left (score_step w) points acc)
   <= crime_hotspot_count acc + length points)%nat
  /\ (main_road_count (fold_left (score_step w) points acc)
      <= main_road_count acc + length points)%nat.
Proof.
  revert acc. induction points as [| p rest IH]; intros acc; cbn [fold_left length].
  - lia.
  - destruct (IH (score_step w acc p)) as [H1 H2].
    assert (S1 : (crime_hotspot_count (score_step w acc p)
                  <= S (crime_hotspot_count acc))%nat
                 /\ (main_road_count (score_step w acc p)
                     <= S (main_road_count acc))%nat).
    { destruct p as [lat lon]. unfold score_step.
      destruct (calculate_population_score w lat lon 0.005) as [[ps ts] mr].
      cbn [crime_hotspot_count main_road_count].
      destruct (3 <? calculate_crime_exposure w lat lon 0.003)%nat, mr; lia. }
    lia.
Qed.

Lemma score_fold_crime_free (w : World) (points : list point) (acc : ScoreAcc) :
  (forall p, In p points ->
             calculate_crime_exposure w (fst p) (snd p) 0.003 = 0%nat) ->
  total_crime acc = 0%nat -> max_crime_at_point acc = 0%nat ->
  crime_hotspot_count acc = 0%nat ->
  total_crime (fold_left (score_step w) points acc) = 0%nat
  /\ max_crime_at_point (fold_left (score_step w) points acc) = 0%nat
  /\ crime_hotspot_count (fold_left (score_step w) points acc) = 0%nat.
Proof.
  revert acc. induction points as [| p rest IH]; intros acc Hc H1 H2 H3;
    cbn [fold_left]; [tauto |].
  apply IH; [intros q Hq; apply Hc; right; exact Hq | | |];
    specialize (Hc p (or_introl eq_refl));
    destruct p as [lat lon]; cbn [fst snd] in Hc; unfold score_step;
    destruct (calculate_population_score w lat lon 0.005) as [[ps ts] mr];
    cbn [total_crime max_crime_at_point crime_hotspot_count];
    rewrite Hc; cbn; lia.
Qed.

(** X8.  On datasets without negative lighting, density or traffic values,
    a route with no recorded crime near any sampled point gets the full
    score: [safety_score] 100, [crime_density] 0, [max_crime_exposure] 0,
    no hotspot and [crime_density_score] 100, whatever its lighting and
    population and whatever the preferences. *)
Theorem crime_free_route_scores_100 (w : World) (points : list point)
    (preferences : option Preferences) :
  nonneg_datasets w ->
  (2 <= length points)%nat ->
  (forall p, In p (sample_route points) ->
             calculate_crime_exposure w (fst p) (snd p) 0.003 = 0%nat) ->
  exists s,
    calculate_route_safety_comprehensive w points preferences = Some s
    /\ safety_score s = 100
    /\ crime_density s = 0
    /\ max_crime_exposure s = 0
    /\ crime_hotspot_percentage s = 0
    /\ crime_density_score s = 100.
Proof.
  intros Hnn Hlen Hc.
  unfold calculate_route_safety_comprehensive.
  assert (E : (length points <? 2)%nat = false) by (apply Nat.ltb_ge; exact Hlen).
  rewrite E. eexists; split; [reflexivity |].
  destruct (score_fold_crime_free w (sample_route points) empty_acc Hc
              eq_refl eq_refl eq_refl) as (T & M & H).
  destruct (score_fold_nonneg w (sample_route points) Hnn) as (Nl & Np & Nt).
  pose proof (sample_route_nonempty points Hlen) as Hn.
  set (acc := fold_left (score_step w) (sample_route points) empty_acc) in *.
  set (n := length (sample_route points)) in *.
  pose proof (multiplier_ge_1 acc n
                (match preferences with Some p => prefer_well_lit p | None => false end)
                (match preferences with Some p => prefer_populated p | None => false end)
                (match preferences with Some p => prefer_main_roads p | None => false end)
                Hn Nl Np Nt) as HM.
  unfold score_of_totals;
    cbn [safety_score crime_density max_crime_exposure
         crime_hotspot_percentage crime_density_score].
  rewrite T, M, H. cbn [INR].
  replace (0 / INR n) with 0 by (unfold Rdiv; ring).
  rewrite !py_pow_0.
  replace (0 * 5) with 0 by ring. replace (0 * 7) with 0 by ring.
  replace (0 * 100 * 0.5) with 0 by ring. replace (0 * 100) with 0 by ring.
  replace (0 * 10) with 0 by ring.
  rewrite !py_min_Rmin, !py_max_Rmax.
  rewrite (Rmin_right 40 0), (Rmin_right 30 0), (Rmin_right 100 0) by lra.
  replace (100 - (0 + 0 + 0)) with 100 by ring.
  rewrite (Rmax_right 0 100) by lra.
  rewrite Rmin_left by (clear - HM; nra).
  replace (100 - 0) with 100 by ring.
  change 100 with (IZR 100). change 0 with (IZR 0).
  rewrite !py_round_IZR. repeat split; reflexivity.
Qed.

Lemma night_world_nonneg : nonneg_datasets night_world.
Proof. repeat split; constructor. Qed.

Lemma short_route_scores_100 :
  exists s,
    calculate_route_safety_comprehensive night_world short_route
      (Some default_preferences) = Some s
    /\ safety_score s = 100
    /\ crime_density s = 0
    /\ max_crime_exposure s = 0
    /\ crime_hotspot_percentage s = 0
    /\ crime_density_score s = 100.
Proof.
  apply (crime_free_route_scores_100 night_world short_route
           (Some default_preferences)).
  - exact night_world_nonneg.
  - cbn; lia.
  - intros p _. apply no_crime_exposure.
Defined.

(** X9.  Whatever the datasets hold, the metrics the scorer returns are
    in their natural ranges: the score is at most 100, densities and
    exposures are non-negative, the two percentages and
    [crime_density_score] lie in [[0, 100]]; it returns [None] exactly for
    routes of fewer than two points. *)
Theorem scorer_metric_ranges (w : World) (points : list point)
    (preferences : option Preferences) :
  match calculate_route_safety_comprehensive w points preferences with
  | Some s =>
      (2 <= length points)%nat
      /\ safety_score s <= 100
      /\ 0 <= crime_density s
      /\ 0 <= max_crime_exposure s
      /\ 0 <= crime_hotspot_percentage s <= 100
      /\ 0 <= main_road_percentage s <= 100
      /\ 0 <= crime_density_score s <= 100
  | None => (length points < 2)%nat
  end.
Proof.
  unfold calculate_route_safety_comprehensive.
  destruct (length points <? 2)%nat eqn:E; [apply Nat.ltb_lt; exact E |].
  apply Nat.ltb_ge in E. split; [exact E |].
  pose proof (sample_route_nonempty points E) as Hn.
  destruct (score_fold_counts w (sample_route points) empty_acc) as [Hh Hm].
  cbn [crime_hotspot_count main_road_count empty_acc] in Hh, Hm.
  set (acc := fold_left (score_step w) (sample_route points) empty_acc) in *.
  set (n := length (sample_route points)) in *.
  assert (Hpos : 0 < INR n) by (apply lt_0_INR; lia).
  assert (Hinv : 0 < / INR n) by (apply Rinv_0_lt_compat; exact Hpos).
  assert (Frac : forall k : nat, (k <= n)%nat -> 0 <= INR k / INR n * 100 <= 100).
  { intros k Hk. apply le_INR in Hk. pose proof (pos_INR k) as Hk0.
    assert (0 <= INR k / INR n) by (apply Rmult_le_pos; lra).
    assert (INR k / INR n <= 1).
    { apply (Rmult_le_reg_r (INR n)); [exact Hpos |].
      unfold Rdiv. rewrite Rmult_assoc, Rinv_l by lra. lra. }
    lra. }
  assert (Havg : 0 <= INR (total_crime acc) / INR n).
  { apply Rmult_le_pos; [apply pos_INR | lra]. }
  unfold score_of_totals;
    cbn [safety_score crime_density max_crime_exposure
         crime_hotspot_percentage main_road_percentage crime_density_score].
  rewrite !py_min_Rmin, !py_max_Rmax.
  repeat split.
  - apply Rle_trans with (py_round 100 2).
    + apply py_round_mono. apply Rmin_l.
    + rewrite (py_round_IZR 100 2). lra.
  - apply Rle_trans with (py_round 0 2).
    + rewrite (py_round_IZR 0 2). lra.
    + apply py_round_mono. exact Havg.
  - apply pos_INR.
  - apply (py_round_range _ 2 0 100). apply Frac. lia.
  - apply (py_round_range _ 2 0 100). apply Frac. lia.
  - apply (py_round_range _ 2 0 100). apply Frac. lia.
  - apply (py_round_range _ 2 0 100). apply Frac. lia.
  - apply (py_round_range _ 2 0 100).
    pose proof (Rmin_l 100 (INR (total_crime acc) / INR n * 10)).
    assert (0 <= Rmin 100 (INR (total_crime acc) / INR n * 10))
      by (apply Rmin_glb; lra).
    lra.
  - apply (py_round_range _ 2 0 100).
    pose proof (Rmin_l 100 (INR (total_crime acc) / INR n * 10)).
    assert (0 <= Rmin 100 (INR (total_crime acc) / INR n * 10))
      by (apply Rmin_glb; lra).
    lra.
Qed.

Lemma score_of_totals_flags_mono (acc : ScoreAcc) (n : nat)
    (l1 p1 m1 l2 p2 m2 : bool) :
  (1 <= n)%nat ->
  0 <= total_lighting acc -> 0 <= total_population acc ->
  0 <= total_traffic acc ->
  (l1 = true -> l2 = true) -> (p1 = true -> p2 = true) ->
  (m1 = true -> m2 = true) ->
  safety_score (score_of_totals acc n l1 p1 m1)
  <= safety_score (score_of_totals acc n l2 p2 m2).
Proof.
  intros Hn Hl Hp Ht Il Ip Im.
  unfold score_of_totals; cbn [safety_score].
  apply py_round_mono.
  rewrite !py_min_Rmin, !py_max_Rmax.
  assert (Hpos : 0 < INR n) by (apply lt_0_INR; lia).
  assert (Hinv : 0 < / INR n) by (apply Rinv_0_lt_compat; exact Hpos).
  assert (A1 : 0 <= total_lighting acc / INR n) by (apply Rmult_le_pos; lra).
  assert (A2 : 0 <= total_population acc / INR n) by (apply Rmult_le_pos; lra).
  assert (A3 : 0 <= total_traffic acc / INR n) by (apply Rmult_le_pos; lra).
  assert (A4 : 0 <= INR (main_road_count acc) / INR n).
  { apply Rmult_le_pos; [apply pos_INR | lra]. }
  apply Rle_min_compat_l.
  match goal with
  | |- Rmax 0 ?base * _ <= _ => set (B := Rmax 0 base)
  end.
  assert (HB : 0 <= B) by apply Rmax_l.
  apply Rmult_le_compat_l; [exact HB |].
  assert (Cl : (if l1 then 2.5 else 0.8) <= (if l2 then 2.5 else 0.8)).
  { destruct l1, l2; try lra; specialize (Il eq_refl); discriminate. }
  assert (Cp : (if p1 then 2 else 0.6) <= (if p2 then 2 else 0.6)).
  { destruct p1, p2; try lra; specialize (Ip eq_refl); discriminate. }
  assert (Ct : (if p1 then 1.5 else 0.4) <= (if p2 then 1.5 else 0.4)).
  { destruct p1, p2; try lra; specialize (Ip eq_refl); discriminate. }
  assert (Cm : (if m1 then 2.5 else 0.7) <= (if m2 then 2.5 else 0.7)).
  { destruct m1, m2; try lra; specialize (Im eq_refl); discriminate. }
  assert (0 <= total_lighting acc / INR n / 10) by lra.
  assert (0 <= total_population acc / INR n / 10) by lra.
  assert (0 <= total_traffic acc / INR n / 10) by lra.
  assert (0 <= INR (main_road_count acc) / INR n * 100 / 100) by lra.
  nra.
Qed.

(** X10.  On datasets without negative values, switching a preference on
    never lowers the safety score the scorer gives a route: the
    preferences only enlarge the multipliers. *)
Theorem preferences_never_lower_the_score (w : World) (points : list point)
    (p1 p2 : option Preferences) :
  nonneg_datasets w ->
  flags_le p1 p2 ->
  match calculate_route_safety_comprehensive w points p1,
        calculate_route_safety_comprehensive w points p2 with
  | Some s1, Some s2 => safety_score s1 <= safety_score s2
  | None, None => (length points < 2)%nat
  | _, _ => False
  end.
Proof.
  intros Hnn (Fl & Fp & Fm).
  unfold calculate_route_safety_comprehensive.
  destruct (length points <? 2)%nat eqn:E; [apply Nat.ltb_lt; exact E |].
  apply Nat.ltb_ge in E.
  destruct (score_fold_nonneg w (sample_route points) Hnn) as (Nl & Np & Nt).
  apply score_of_totals_flags_mono; try assumption.
  apply sample_route_nonempty; exact E.
Qed.

Lemma main_road_preference_does_not_lower_short_route :
  match calculate_route_safety_comprehensive night_world short_route None,
        calculate_route_safety_comprehensive night_world short_route
          (Some main_road_preferences) with
  | Some s1, Some s2 => safety_score s1 <= safety_score s2
  | None, None => (length short_route < 2)%nat
  | _, _ => False
  end.
Proof.
  apply (preferences_never_lower_the_score night_world short_route
           None (Some main_road_preferences)).
  - exact night_world_nonneg.
  - unfold flags_le; cbn. repeat split; intros H; discriminate H.
Defined.

(** ** Main-road coverage *)

Lemma stride_from_1 {A : Type} (l : list A) : stride_from 1 0 l = l.
Proof. induction l as [| x t IH]; [reflexivity |]. cbn. f_equal. exact IH. Qed.

Lemma main_road_fold_bound (w : World) (l : list point) (c : nat) :
  (fold_left
     (fun count '(lat, lon) =>
        let '(_, _, is_main) := calculate_population_score w lat lon 0.003 in
        if is_main then S count else count) l c
   <= c + length l)%nat.
Proof.
  revert c. induction l as [| [lat lon] t IH]; intros c; cbn [fold_left length].
  - lia.
  - destruct (calculate_population_score w lat lon 0.003) as [[ps ts] [|]].
    + specialize (IH (S c)). lia.
    + specialize (IH c). lia.
Qed.

Lemma main_road_fold_all (w : World) (l : list point) (c : nat) :
  all_on_main_roads w l ->
  fold_left
    (fun count '(lat, lon) =>
       let '(_, _, is_main) := calculate_population_score w lat lon 0.003 in
       if is_main then S count else count) l c
  = (c + length l)%nat.
Proof.
  revert c. induction l as [| [lat lon] t IH]; intros c H; cbn [fold_left length].
  - lia.
  - pose proof (H (lat, lon) (or_introl eq_refl)) as Hp. cbn [fst snd] in Hp.
    destruct (calculate_population_score w lat lon 0.003) as [[ps ts] m].
    cbn [snd] in Hp. subst m.
    rewrite IH by (intros q Hq; apply H; right; exact Hq). lia.
Qed.

(** X11.  The main-road percentage of [check_route_main_road_coverage]
    is never negative and never above 195; for routes of at most 20
    points it is a true percentage, at most 100.  For a route of at least
    two points the flag it returns says whether the percentage reaches
    [min_coverage * 100]. *)
Theorem main_road_coverage_range (w : World) (route_points : list point)
    (min_coverage : R) :
  let result := check_route_main_road_coverage w route_points min_coverage in
  0 <= snd result <= 195
  /\ ((length route_points <= 20)%nat -> snd result <= 100)
  /\ ((2 <= length route_points)%nat ->
      (fst result = true <-> min_coverage * 100 <= snd result)).
Proof.
  unfold check_route_main_road_coverage.
  set (n := length route_points).
  destruct (n <? 2)%nat eqn:E.
  - apply Nat.ltb_lt in E. cbn [fst snd].
    split; [lra |]. split; [intros _; lra | intros H; lia].
  - apply Nat.ltb_ge in E. cbv zeta.
    set (k := Nat.max 1 (n / Nat.min n 20)).
    pose proof (main_road_fold_bound w (py_stride route_points k) 0) as Hc.
    cbn [Nat.add] in Hc.
    match type of Hc with (?c <= _)%nat => set (count := c) in * end.
    assert (Hlen : length (py_stride route_points k) = ((n + (k - 1)) / k)%nat).
    { unfold py_stride. rewrite stride_from_length by (unfold k; lia).
      fold n. rewrite Nat.sub_0_r. reflexivity. }
    rewrite Hlen in Hc.
    assert (Hmin : Nat.min (Nat.min n 20) n = Nat.min n 20) by lia.
    rewrite Hmin.
    assert (Ht : (1 <= Nat.min n 20)%nat) by lia.
    assert (E0 : (0 <? Nat.min n 20)%nat = true) by (apply Nat.ltb_lt; lia).
    rewrite E0. cbn [fst snd].
    assert (Hpos : 0 < INR (Nat.min n 20)) by (apply lt_0_INR; lia).
    assert (Hinv : 0 < / INR (Nat.min n 20)) by (apply Rinv_0_lt_compat; exact Hpos).
    pose proof (pos_INR count) as Hc0.
    assert (Hsampled : ((n + (k - 1)) / k <= 39)%nat
                       /\ ((n <= 20)%nat -> ((n + (k - 1)) / k <= Nat.min n 20)%nat)
                       /\ (20 <= n -> Nat.min n 20 = 20)%nat).
    { destruct (Nat.le_gt_cases n 20) as [Hle | Hgt].
      - assert (Em : Nat.min n 20 = n) by lia.
        assert (Ek : k = 1%nat).
        { unfold k. rewrite Em, Nat.div_same by lia. reflexivity. }
        rewrite Ek, Em, Nat.sub_diag, Nat.add_0_r, Nat.div_1_r. lia.
      - assert (Em : Nat.min n 20 = 20%nat) by lia.
        pose proof (Nat.Div0.mul_div_le n 20) as Hlo.
        pose proof (Nat.mul_succ_div_gt n 20 ltac:(lia)) as Hhi.
        assert (Ek : k = (n / 20)%nat).
        { unfold k. rewrite Em. apply Nat.max_r. lia. }
        split; [| split; [lia | intros _; exact Em]].
        rewrite Ek. apply Nat.Div0.div_le_upper_bound. lia. }
    destruct Hsampled as (H39 & Hshort & H20).
    assert (Hfrac : 0 <= INR count / INR (Nat.min n 20)).
    { apply Rmult_le_pos; lra. }
    split; [split; [lra |] | split].
    + assert (Hcount : INR count <= 39).
      { replace 39 with (INR 39) by (cbn; lra). apply le_INR. lia. }
      destruct (Nat.le_gt_cases n 20) as [Hle | Hgt].
      * specialize (Hshort Hle).
        assert (INR count <= INR (Nat.min n 20)) by (apply le_INR; lia).
        assert (INR count / INR (Nat.min n 20) <= 1).
        { apply (Rmult_le_reg_r (INR (Nat.min n 20))); [exact Hpos |].
          unfold Rdiv. rewrite Rmult_assoc, Rinv_l by lra. lra. }
        lra.
      * rewrite H20 by lia.
        replace (INR 20) with 20 by (cbn; lra). lra.
    + intros Hle. specialize (Hshort Hle).
      assert (INR count <= INR (Nat.min n 20)) by (apply le_INR; lia).
      assert (INR count / INR (Nat.min n 20) <= 1).
      { apply (Rmult_le_reg_r (INR (Nat.min n 20))); [exact Hpos |].
        unfold Rdiv. rewrite Rmult_assoc, Rinv_l by lra. lra. }
      lra.
    + intros _. unfold Rgeb. rewrite Rleb_spec. split; intros H; lra.
Qed.

(** X12.  For routes of 21 to 39 points the percentage is no percentage:
    every point is sampled but the count is divided by 20, so a route
    that runs on main roads throughout gets [5 * n] percent, more
    than 100. *)
Theorem main_road_coverage_exceeds_100 (w : World) (route_points : list point)
    (min_coverage : R) :
  (20 < length route_points < 40)%nat ->
  all_on_main_roads w route_points ->
  snd (check_route_main_road_coverage w route_points min_coverage)
  = 5 * INR (length route_points)
  /\ 100 < snd (check_route_main_road_coverage w route_points min_coverage).
Proof.
  intros [Hlo Hhi] Hall.
  assert (Hval : snd (check_route_main_road_coverage w route_points min_coverage)
                 = 5 * INR (length route_points)).
  { unfold check_route_main_road_coverage.
    set (n := length route_points) in *.
    assert (E : (n <? 2)%nat = false) by (apply Nat.ltb_ge; lia).
    rewrite E. cbv zeta.
    assert (Em : Nat.min n 20 = 20%nat) by lia.
    assert (Ek : Nat.max 1 (n / Nat.min n 20) = 1%nat).
    { rewrite Em.
      assert (n / 20 = 1)%nat.
      { symmetry. apply (Nat.div_unique n 20 1 (n - 20)); lia. }
      lia. }
    rewrite Ek. unfold py_stride. rewrite stride_from_1.
    rewrite (main_road_fold_all w route_points 0 Hall).
    assert (Em2 : Nat.min (Nat.min n 20) n = 20%nat) by lia.
    rewrite Em2. cbn [Nat.add Nat.ltb Nat.leb snd]. fold n.
    replace (INR 20) with 20 by (cbn; lra). lra. }
  split; [exact Hval |].
  rewrite Hval.
  assert (INR 21 <= INR (length route_points)) by (apply le_INR; lia).
  replace (INR 21) with 21 in * by (cbn; lra). lra.
Qed.

Lemma main_road_record_nearby (lat : R) :
  - 0.003 < 12.97 - lat < 0.003 ->
  calculate_population_score main_road_world lat 77.59 0.003
  = (8000 / 1 / 1000, 7 / 1 / 10, true).
Proof.
  intros H. unfold calculate_population_score, df_nearby. cbn.
  rewrite !Rabs_ltb by lra. cbn.
  unfold df_mean, df_len, Rsum. cbn.
  unfold Rgtb. rewrite Rltb_true by lra.
  repeat f_equal; lra.
Qed.

Lemma slow_walk_on_main_roads : all_on_main_roads main_road_world slow_walk.
Proof.
  intros p Hp. unfold slow_walk in Hp.
  apply in_map_iff in Hp as (k & <- & Hk).
  apply in_seq in Hk. cbn [fst snd].
  assert (H0 : 0 <= INR k) by apply pos_INR.
  assert (H20 : INR k <= 20).
  { replace 20 with (INR 20) by (cbn; lra). apply le_INR. lia. }
  rewrite main_road_record_nearby by lra. reflexivity.
Qed.

Lemma slow_walk_coverage_is_105 :
  snd (check_route_main_road_coverage main_road_world slow_walk 0.4)
  = 5 * INR (length slow_walk)
  /\ 100 < snd (check_route_main_road_coverage main_road_world slow_walk 0.4).
Proof.
  apply (main_road_coverage_exceeds_100 main_road_world slow_walk 0.4).
  - cbn; lia.
  - exact slow_walk_on_main_roads.
Defined.

(** ** The routing provider client *)

Section ProviderFacts.

Variable haversine_distance : pyval -> pyval -> pyval -> pyval -> pyfloat.
Variable w : World.
Variables a b c d : R.
Variable wp : option Waypoint.

Lemma osrm_route_entry_spec (r : OsrmRoute) (g : Geometry) :
  osrm_route_entry haversine_distance w a b c d wp r = Ret (Some g) ->
  built_from haversine_distance a b c d wp r g.
Proof.
  unfold osrm_route_entry, built_from.
  destruct (geometry r) as [coordinates |]; [| discriminate].
  destruct (length coordinates <? 2)%nat eqn:E; [discriminate |].
  apply Nat.ltb_ge in E. cbv zeta.
  destruct (gtb _ (Fin 0.2) || gtb _ (Fin 0.2)) eqn:G; [discriminate |].
  apply orb_false_elim in G as [G1 G2].
  destruct (distance r) as [dist |]; [| discriminate].
  destruct (duration r) as [dur |]; [| discriminate].
  intros [= <-]. cbn [route distance_km duration_min waypoint].
  exists coordinates, dist, dur. repeat split; try assumption; reflexivity.
Qed.

Lemma osrm_fold_raise (l : list OsrmRoute) (e : exn) :
  fold_left
    (fun acc route_data =>
       routes <- acc ;;
       entry <- osrm_route_entry haversine_distance w a b c d wp route_data ;;
       Ret (match entry with
            | Some g => routes ++ [g]
            | None => routes
            end))
    l (Raise e) = Raise e.
Proof. induction l as [| r t IH]; [reflexivity | exact IH]. Qed.

Lemma osrm_fold_spec (l : list OsrmRoute) (acc out : list Geometry) :
  fold_left
    (fun acc route_data =>
       routes <- acc ;;
       entry <- osrm_route_entry haversine_distance w a b c d wp route_data ;;
       Ret (match entry with
            | Some g => routes ++ [g]
            | None => routes
            end))
    l (Ret acc) = Ret out ->
  exists added,
    out = acc ++ added
    /\ (length added <= length l)%nat
    /\ Forall (fun g => exists r, In r l
                 /\ built_from haversine_distance a b c d wp r g) added.
Proof.
  revert acc. induction l as [| r t IH]; intros acc; cbn [fold_left].
  - intros [= <-]. exists []. rewrite app_nil_r. repeat split; [cbn; lia | constructor].
  - cbn [bind].
    destruct (osrm_route_entry haversine_distance w a b c d wp r)
      as [[g |] | e] eqn:Er; cbn [bind].
    + intros H. destruct (IH _ H) as (added & -> & Hlen & Hall).
      exists (g :: added). rewrite <- app_assoc. split; [reflexivity |].
      split; [cbn; lia |].
      constructor.
      * exists r. split; [left; reflexivity | apply osrm_route_entry_spec; exact Er].
      * eapply Forall_impl; [| exact Hall].
        intros g' (r' & Hin & Hb). exists r'. split; [right; exact Hin | exact Hb].
    + intros H. destruct (IH _ H) as (added & -> & Hlen & Hall).
      exists added. split; [reflexivity |]. split; [cbn; lia |].
      eapply Forall_impl; [| exact Hall].
      intros g' (r' & Hin & Hb). exists r'. split; [right; exact Hin | exact Hb].
    + rewrite osrm_fold_raise. discriminate.
Qed.

End ProviderFacts.

(** X13.  Whatever [get_route_from_osrm] returns as a list was vetted:
    both requested ends are inside the service area, exactly one provider
    request was made and answered with code "Ok", and every returned
    alternative comes from an alternative of that answer with at least
    two coordinates, swapped to [[lat, lon]], starting and ending within
    0.2 km of the requested ends, with distance in km and duration in
    minutes; no alternative is invented. *)
Theorem osrm_alternatives_are_vetted
    (haversine_distance : pyval -> pyval -> pyval -> pyval -> pyfloat)
    (w : World) (calls : nat) (a b c d : R) (wp : option Waypoint)
    (alternatives : list Geometry) (calls' : nat) :
  get_route_from_osrm haversine_distance w calls a b c d wp
  = (Some alternatives, calls') ->
  calls' = S calls
  /\ validate_coordinates (VFloat a) (VFloat b) = true
  /\ validate_coordinates (VFloat c) (VFloat d) = true
  /\ exists data,
       osrm_get w calls {| q_start := (a, b); q_end := (c, d); q_waypoint := wp |}
       = Ret data
       /\ code data = Some "Ok"%string
       /\ (length alternatives
           <= length (match routes data with Some l => l | None => [] end))%nat
       /\ Forall (fun g =>
                    exists r,
                      In r (match routes data with Some l => l | None => [] end)
                      /\ built_from haversine_distance a b c d wp r g)
                 alternatives.
Proof.
  unfold get_route_from_osrm.
  destruct (validate_coordinates (VFloat a) (VFloat b)) eqn:V1;
    [| cbn; discriminate].
  destruct (validate_coordinates (VFloat c) (VFloat d)) eqn:V2;
    [| cbn; discriminate].
  cbn [andb negb].
  destruct (osrm_get w calls _) as [data | e] eqn:Eg; cbn [bind try_except];
    [| discriminate].
  destruct (code data) as [cd |] eqn:Ec; cbn [try_except]; [| discriminate].
  destruct (cd =? "Ok")%string eqn:Eok; cbn [negb try_except]; [| discriminate].
  apply String.eqb_eq in Eok. subst cd.
  match goal with
  | |- context [fold_left ?f ?l (Ret [])] =>
      destruct (fold_left f l (Ret [])) as [out | e] eqn:Ef
  end; cbn [bind try_except]; [| discriminate].
  intros [= <- <-].
  destruct (osrm_fold_spec _ _ _ _ _ _ _ _ _ _ Ef) as (added & -> & Hlen & Hall).
  cbn [app] in *.
  repeat split; try reflexivity.
  exists data. repeat split; assumption.
Qed.

Lemma demo_alternatives_are_vetted :
  1%nat = 1%nat
  /\ validate_coordinates (VFloat 12.97) (VFloat 77.59) = true
  /\ validate_coordinates (VFloat 12.973) (VFloat 77.59) = true
  /\ exists data,
       osrm_get night_world 0
         {| q_start := (12.97, 77.59); q_end := (12.973, 77.59);
            q_waypoint := None |} = Ret data
       /\ code data = Some "Ok"%string
       /\ (length [demo_geometry]
           <= length (match routes data with Some l => l | None => [] end))%nat
       /\ Forall (fun g =>
                    exists r,
                      In r (match routes data with Some l => l | None => [] end)
                      /\ built_from App.haversine_distance
                           12.97 77.59 12.973 77.59 None r g)
                 [demo_geometry].
Proof.
  apply (osrm_alternatives_are_vetted App.haversine_distance night_world 0
           12.97 77.59 12.973 77.59 None [demo_geometry] 1).
  exact (demo_direct_routes App.haversine_distance
           (fun _ _ _ _ => eq_refl) 0).
Defined.

(** X14.  [get_route_from_osrm] swallows every failure: for an end outside
    the service area it returns [None] without contacting the provider;
    when the request raises, when the answer has no ['code'] or a code
    other than "Ok", it returns [None] after that one request.  It never
    makes more than one request. *)
Theorem osrm_failures_give_None
    (haversine_distance : pyval -> pyval -> pyval -> pyval -> pyfloat)
    (w : World) (calls : nat) (a b c d : R) (wp : option Waypoint) :
  let answer := get_route_from_osrm haversine_distance w calls a b c d wp in
  let query := {| q_start := (a, b); q_end := (c, d); q_waypoint := wp |} in
  (validate_coordinates (VFloat a) (VFloat b)
   && validate_coordinates (VFloat c) (VFloat d) = false ->
   answer = (None, calls))
  /\ (validate_coordinates (VFloat a) (VFloat b)
      && validate_coordinates (VFloat c) (VFloat d) = true ->
      snd answer = S calls
      /\ (forall e, osrm_get w calls query = Raise e -> fst answer = None)
      /\ (forall data, osrm_get w calls query = Ret data ->
                       code data <> Some "Ok"%string -> fst answer = None))
  /\ (calls <= snd answer <= S calls)%nat.
Proof.
  cbv zeta. unfold get_route_from_osrm.
  destruct (validate_coordinates (VFloat a) (VFloat b)
            && validate_coordinates (VFloat c) (VFloat d)) eqn:V;
    cbn [negb fst snd].
  - split; [discriminate |]. split; [| lia].
    intros _. split; [reflexivity |]. split.
    + intros e He. rewrite He. reflexivity.
    + intros data Hd Hc. rewrite Hd. cbn [bind].
      destruct (code data) as [cd |]; [| reflexivity].
      destruct (cd =? "Ok")%string eqn:Eok; [| reflexivity].
      apply String.eqb_eq in Eok. subst cd. contradiction.
  - split; [reflexivity |]. split; [discriminate | lia].
Qed.

(** ** Turn-by-turn instructions *)

Lemma extract_steps_fold (w : World) (l : list OsrmStep) (k : nat)
    (acc : list Step) :
  let '(k', out) :=
    fold_left
      (fun '(step_number, steps) step =>
         match maneuver step with
         | None => (step_number, steps)
         | Some maneuver_instruction =>
             let instruction :=
               match maneuver_instruction with
               | Some i => i
               | None =>
                   match step_name step with
                   | Some nm => nm
                   | None => "Continue"%string
                   end
               end in
             let distance :=
               match step_distance step with Some d => d | None => 0 end in
             (S step_number,
              steps ++
              [{| number := step_number;
                  instruction := instruction;
                  step_dist := py_round distance 1;
                  distance_text :=
                    if Rltb distance 1000
                    then (format_fixed (lib w) 0 distance ++ "m")%string
                    else (format_fixed (lib w) 1 (distance / 1000) ++ "km")%string
               |}])
         end)
      l (k, acc) in
  k' = (k + length (filter has_maneuver l))%nat
  /\ map number out = map number acc ++ seq k (length (filter has_maneuver l)).
Proof.
  revert k acc. induction l as [| s t IH]; intros k acc; cbn [fold_left filter].
  - cbn. rewrite app_nil_r. split; [lia | reflexivity].
  - assert (Hm : has_maneuver s
                 = match maneuver s with Some _ => true | None => false end)
      by reflexivity.
    rewrite !Hm. clear Hm. destruct (maneuver s) as [mi |].
    + cbv zeta. specialize (IH (S k)). 
      match goal with
      | |- context [fold_left ?f t (S k, ?acc')] =>
          specialize (IH acc'); destruct (fold_left f t (S k, acc')) as [k' out]
      end.
      destruct IH as [-> IH]. cbn [length]. split; [lia |].
      rewrite IH, map_app. cbn [map number seq]. rewrite <- app_assoc. reflexivity.
    + specialize (IH k acc).
      match goal with
      | |- context [fold_left ?f t (k, acc)] =>
          destruct (fold_left f t (k, acc)) as [k' out]
      end.
      exact IH.
Qed.

(** X15.  The turn-by-turn list keeps exactly the provider steps that
    carry a ['maneuver'], in order, and numbers them 1, 2, 3, ... without
    gaps; an alternative without ['legs'] has no instructions. *)
Theorem turn_instructions_are_numbered (w : World) (r : OsrmRoute) :
  map number (extract_steps w r) = seq 1 (length (extract_steps w r))
  /\ length (extract_steps w r) = length (filter has_maneuver (provider_steps r)).
Proof.
  unfold extract_steps, provider_steps.
  destruct (legs r) as [l |]; [| split; reflexivity].
  pose proof (extract_steps_fold w
                (flat_map (fun leg => match leg_steps leg with
                                      | Some s => s
                                      | None => []
                                      end) l) 1 []) as H.
  match goal with
  | |- context [fold_left ?f ?ls (1%nat, [])] =>
      destruct (fold_left f ls (1%nat, [])) as [k' out]
  end.
  destruct H as [_ H]. cbn [snd map app] in *.
  assert (Hlen : length out
                 = length (filter has_maneuver
                     (flat_map (fun leg => match leg_steps leg with
                                           | Some s => s
                                           | None => []
                                           end) l))).
  { rewrite <- (length_map number out), H, length_seq. reflexivity. }
  split; [rewrite Hlen; exact H | exact Hlen].
Qed.

(** ** The exploration of candidates *)

Section ExplorationBounds.

Variable haversine_distance : pyval -> pyval -> pyval -> pyval -> pyfloat.
Variable w : World.
Variable preferences : Preferences.
Variables a b c d : R.

Lemma get_route_from_osrm_calls (n : nat) (wp : option Waypoint) :
  (snd (get_route_from_osrm haversine_distance w n a b c d wp) <= S n)%nat.
Proof.
  unfold get_route_from_osrm.
  destruct (negb _); cbn [snd]; lia.
Qed.

Lemma direct_step_length (st : list RouteDict * list string)
    (entry : nat * Geometry) :
  (length (fst (direct_step haversine_distance w preferences a b c d st entry))
   <= S (length (fst st)))%nat.
Proof.
  destruct st as [pool hashes], entry as [idx g]. unfold direct_step.
  destruct (negb (validate_route_connectivity _ _ _)); [cbn; lia |].
  destruct (negb (detect_route_backtracking _ _ _ _ _ _)); [cbn; lia |].
  destruct (fresh_hash _ _); [| cbn; lia].
  destruct (calculate_route_safety_comprehensive _ _ _); [| cbn; lia].
  destruct (check_route_main_road_coverage _ _ _) as [has pct].
  destruct (prefer_main_roads preferences && Rltb pct 40); cbn [fst];
    [cbn; lia | rewrite length_app; cbn; lia].
Qed.

Lemma direct_fold_length (entries : list (nat * Geometry))
    (st : list RouteDict * list string) :
  (length (fst (fold_left (direct_step haversine_distance w preferences a b c d)
                  entries st))
   <= length (fst st) + length entries)%nat.
Proof.
  revert st. induction entries as [| e rest IH]; intros st; cbn [fold_left length].
  - lia.
  - pose proof (IH (direct_step haversine_distance w preferences a b c d st e)).
    pose proof (direct_step_length st e). lia.
Qed.

Lemma waypoint_routes_loop_counted (base : nat) (waypoint_routes : list Geometry)
    (st : Explore) :
  counted base st -> (waypoint_count st < max_waypoints)%nat ->
  counted base (waypoint_routes_loop haversine_distance w preferences a b c d
                  waypoint_routes st)
  /\ calls (waypoint_routes_loop haversine_distance w preferences a b c d
              waypoint_routes st) = calls st.
Proof.
  revert st. induction waypoint_routes as [| g rest IH]; intros st H Hlt;
    [split; [exact H | reflexivity] |].
  cbn [waypoint_routes_loop].
  destruct (negb (validate_route_connectivity _ _ _)); [apply IH; assumption |].
  destruct (negb (detect_route_backtracking _ _ _ _ _ _));
    [apply IH; assumption |].
  destruct (fresh_hash _ (route_hashes st)) as [h |]; [| apply IH; assumption].
  destruct (calculate_route_safety_comprehensive w (route g) _) as [s |];
    [| apply IH; assumption].
  destruct (prefer_main_roads preferences && Rltb (main_road_percentage s) 40);
    [apply IH; assumption |].
  destruct H as [Hlen Hcap].
  match goal with
  | |- context [(max_waypoints <=? waypoint_count ?st')%nat] =>
      assert (H' : counted base st')
  end.
  { split; cbn [all_routes waypoint_count].
    - rewrite length_app; cbn [length]. lia.
    - lia. }
  destruct (max_waypoints <=? _)%nat eqn:Efull.
  - split; [exact H' | reflexivity].
  - apply Nat.leb_gt in Efull.
    destruct (IH _ H' Efull) as [I1 I2].
    split; [exact I1 | exact I2].
Qed.

Lemma waypoint_step_counted (base : nat) (base_distance : pyfloat)
    (perp_lat perp_lon position offset direction : R) (st : Explore) :
  counted base st -> (waypoint_count st < max_waypoints)%nat ->
  counted base (waypoint_step haversine_distance w preferences a b c d
                  base_distance perp_lat perp_lon position offset direction st).
Proof.
  intros H Hlt. unfold waypoint_step; cbv zeta.
  destruct (validate_coordinates _ _); cbn [negb]; [| exact H].
  destruct (gtb _ (Fin 1.8)); [exact H |].
  destruct (get_route_from_osrm _ _ _ _ _ _ _ _) as [wr calls'].
  apply waypoint_routes_loop_counted; assumption.
Qed.

Lemma waypoint_step_calls (base_distance : pyfloat)
    (perp_lat perp_lon position offset direction : R) (st : Explore) :
  (waypoint_count st < max_waypoints)%nat ->
  (exists base, counted base st) ->
  (calls (waypoint_step haversine_distance w preferences a b c d
            base_distance perp_lat perp_lon position offset direction st)
   <= calls st + 1)%nat.
Proof.
  intros Hlt [base H]. unfold waypoint_step; cbv zeta.
  destruct (validate_coordinates _ _); cbn [negb]; [| lia].
  destruct (gtb _ (Fin 1.8)); [lia |].
  pose proof (get_route_from_osrm_calls (calls st)
                (Some {| wp_lat := a + (c - a) * position
                                   + perp_lat * offset * direction;
                         wp_lon := b + (d - b) * position
                                   + perp_lon * offset * direction |})) as Hc.
  destruct (get_route_from_osrm _ _ _ _ _ _ _ _) as [wr calls'].
  cbn [snd] in Hc.
  match goal with
  | |- context [waypoint_routes_loop _ _ _ _ _ _ _ ?l ?st'] =>
      destruct (waypoint_routes_loop_counted base l st' H Hlt) as [_ E]
  end.
  rewrite E. cbn [calls]. lia.
Qed.

Lemma for_until_full_bounded {A : Type} (P : Explore -> Prop) (k : nat)
    (items : list A) (body : A -> Explore -> Explore) (st : Explore) :
  (forall item st', P st' -> (waypoint_count st' < max_waypoints)%nat ->
                    P (body item st')
                    /\ (calls (body item st') <= calls st' + k)%nat) ->
  P st ->
  P (for_until_full items body st)
  /\ (calls (for_until_full items body st) <= calls st + k * length items)%nat.
Proof.
  intros Hb. unfold for_until_full.
  revert st. induction items as [| x rest IH]; intros st H; cbn [fold_left length].
  - split; [exact H | lia].
  - destruct (max_waypoints <=? waypoint_count st)%nat eqn:Efull.
    + destruct (IH st H) as [I1 I2]. split; [exact I1 | lia].
    + apply Nat.leb_gt in Efull.
      destruct (Hb x st H Efull) as [B1 B2].
      destruct (IH _ B1) as [I1 I2]. split; [exact I1 | lia].
Qed.

Lemma collect_candidates_bounds :
  let st := collect_candidates haversine_distance w preferences a b c d in
  (calls st <= 19)%nat
  /\ (waypoint_count st <= 25)%nat
  /\ (length (all_routes st)
      <= length (truthy_routes
                   (fst (get_route_from_osrm haversine_distance w 0 a b c d None)))
         + waypoint_count st)%nat.
Proof.
  cbv zeta. unfold collect_candidates.
  pose proof (get_route_from_osrm_calls 0 None) as Hc1.
  destruct (get_route_from_osrm _ _ 0 _ _ _ _ None) as [direct_routes calls1].
  cbn [fst snd] in *.
  pose proof (direct_fold_length (enumerate (truthy_routes direct_routes))
                ([], [])) as Hd.
  rewrite enumerate_length in Hd. cbn [fst length Nat.add] in Hd.
  destruct (fold_left _ _ ([], [])) as [routes1 hashes1].
  cbn [fst] in Hd. cbv zeta.
  destruct (if Rgtb _ 0 then _ else _) as [perp_lat perp_lon].
  match goal with
  | |- context [for_until_full ?items ?body ?st0] =>
      destruct (for_until_full_bounded (counted (length routes1)) 6
                  items body st0) as [[Hlen Hcap] Hcalls]
  end.
  - intros position st1 Hs1 _.
    apply (for_until_full_bounded (counted (length routes1)) 2); [| exact Hs1].
    intros offset st2 Hs2 _.
    apply (for_until_full_bounded (counted (length routes1)) 1); [| exact Hs2].
    intros direction st3 Hs3 Hlt3. split.
    + apply waypoint_step_counted; assumption.
    + apply waypoint_step_calls; [exact Hlt3 | exists (length routes1); exact Hs3].
  - split; cbn [all_routes waypoint_count]; [lia | unfold max_waypoints; lia].
  - cbn [calls length Nat.mul Nat.add] in Hcalls.
    unfold max_waypoints in Hcap.
    repeat split; lia.
Qed.

End ExplorationBounds.

(** X16.  One optimization asks the routing provider at most 19 times in
    phases 1 and 2 (one direct request and at most one per waypoint of
    the 3 x 3 x 2 grid), accepts at most 25 waypoint routes, and its
    candidate pool is never larger than the number of direct alternatives
    plus the number of accepted waypoint routes. *)
Theorem exploration_is_bounded
    (haversine_distance : pyval -> pyval -> pyval -> pyval -> pyfloat)
    (w : World) (preferences : Preferences) (a b c d : R) :
  let st := collect_candidates haversine_distance w preferences a b c d in
  (calls st <= 19)%nat
  /\ (waypoint_count st <= 25)%nat
  /\ (length (all_routes st)
      <= length (truthy_routes
                   (fst (get_route_from_osrm haversine_distance w 0 a b c d None)))
         + waypoint_count st)%nat
  /\ (length (all_routes st)
      <= length (truthy_routes
                   (fst (get_route_from_osrm haversine_distance w 0 a b c d None)))
         + 25)%nat.
Proof.
  pose proof (collect_candidates_bounds haversine_distance w preferences a b c d)
    as H.
  cbv zeta in *. destruct H as (H1 & H2 & H3).
  repeat split; try assumption. lia.
Qed.

(** ** The composite ranker *)

Lemma preference_bonus_same (r1 r2 : RouteDict) (preferences : Preferences) :
  rd_extra r1 = rd_extra r2 ->
  App.preference_bonus r1 preferences = App.preference_bonus r2 preferences
  /\ Routes.preference_bonus r1 preferences
     = Routes.preference_bonus r2 preferences.
Proof.
  intros E.
  unfold App.preference_bonus, Routes.preference_bonus,
    get_main_road_percentage, get_lighting_score, get_population_score.
  rewrite E. split; reflexivity.
Qed.

(** X17.  Both copies of [calculate_composite_score] respect safety: of
    two routes that differ only in their safety score, the safer one
    never gets the lower composite score when [safety_weight] is not
    negative, and gets a strictly higher one when it is positive. *)
Theorem safer_route_never_ranks_lower (r1 r2 : RouteDict)
    (preferences : Preferences) :
  same_but_safety r1 r2 ->
  0 <= safety_weight preferences ->
  rd_safety_score r1 <= rd_safety_score r2 ->
  App.calculate_composite_score r1 preferences
  <= App.calculate_composite_score r2 preferences
  /\ Routes.calculate_composite_score r1 preferences
     <= Routes.calculate_composite_score r2 preferences
  /\ (0 < safety_weight preferences ->
      rd_safety_score r1 < rd_safety_score r2 ->
      App.calculate_composite_score r1 preferences
      < App.calculate_composite_score r2 preferences
      /\ Routes.calculate_composite_score r1 preferences
         < Routes.calculate_composite_score r2 preferences).
Proof.
  intros (Eg & Ec & Em & Ex) Hw Hs.
  destruct (preference_bonus_same r1 r2 preferences Ex) as [Ba Br].
  unfold App.calculate_composite_score, Routes.calculate_composite_score.
  cbv zeta. rewrite Ba, Br, Eg, Ec, Em.
  set (cp := py_min 1 ((rd_crime_density r2 * 0.3
                        + rd_max_crime_exposure r2 * 0.7) / 20)).
  assert (Hcp : cp <= 1) by (unfold cp; rewrite py_min_Rmin; apply Rmin_l).
  set (nd := py_max 0 (1 - distance_km (rd_geometry r2) / 30)
             * distance_weight preferences).
  set (ba := App.preference_bonus r2 preferences).
  set (br := Routes.preference_bonus r2 preferences).
  assert (Hf : 0 < 1 - cp * 0.5) by lra.
  set (s1 := rd_safety_score r1) in *. set (s2 := rd_safety_score r2) in *.
  set (sw := safety_weight preferences) in *.
  assert (Hle : 0 <= (s2 - s1) * (1 - cp * 0.5) * sw).
  { apply Rmult_le_pos; [apply Rmult_le_pos; lra | exact Hw]. }
  split; [lra |]. split; [lra |].
  intros Hw' Hs'.
  assert (Hlt : 0 < (s2 - s1) * (1 - cp * 0.5) * sw).
  { apply Rmult_lt_0_compat; [apply Rmult_lt_0_compat; lra | exact Hw']. }
  split; lra.
Qed.

Lemma raising_safety_raises_rank :
  App.calculate_composite_score (with_safety_score main_road_route 50)
    default_preferences
  <= App.calculate_composite_score main_road_route default_preferences
  /\ Routes.calculate_composite_score (with_safety_score main_road_route 50)
       default_preferences
     <= Routes.calculate_composite_score main_road_route default_preferences
  /\ (0 < safety_weight default_preferences ->
      rd_safety_score (with_safety_score main_road_route 50)
      < rd_safety_score main_road_route ->
      App.calculate_composite_score (with_safety_score main_road_route 50)
        default_preferences
      < App.calculate_composite_score main_road_route default_preferences
      /\ Routes.calculate_composite_score (with_safety_score main_road_route 50)
           default_preferences
         < Routes.calculate_composite_score main_road_route default_preferences).
Proof.
  apply (safer_route_never_ranks_lower (with_safety_score main_road_route 50)
           main_road_route default_preferences).
  - repeat split; reflexivity.
  - cbn; lra.
  - cbn; lra.
Defined.

(** ** The two copies of the optimizer *)

Section SameOnFloats.

Variables hd1 hd2 : pyval -> pyval -> pyval -> pyval -> pyfloat.
Hypothesis same_on_floats : forall a b c d,
  hd1 (VFloat a) (VFloat b) (VFloat c) (VFloat d)
  = hd2 (VFloat a) (VFloat b) (VFloat c) (VFloat d).
Variable w : World.

Lemma hav_ext : hav hd1 = hav hd2.
Proof.
  extensionality a; extensionality b; extensionality c; extensionality d.
  unfold hav. apply same_on_floats.
Qed.

Lemma connectivity_loop_ext (max_gap : R) (rest : list point) (current : point) :
  connectivity_loop hd1 max_gap current rest
  = connectivity_loop hd2 max_gap current rest.
Proof.
  revert current. induction rest as [| q rest IH]; intros current;
    cbn [connectivity_loop]; [reflexivity |].
  rewrite hav_ext, IH. reflexivity.
Qed.

Lemma validate_route_connectivity_ext :
  validate_route_connectivity hd1 = validate_route_connectivity hd2.
Proof.
  extensionality pts; extensionality g.
  unfold validate_route_connectivity.
  destruct pts as [| p rest]; [reflexivity |].
  rewrite connectivity_loop_ext. reflexivity.
Qed.

Lemma detect_route_backtracking_ext :
  detect_route_backtracking hd1 = detect_route_backtracking hd2.
Proof.
  extensionality pts; extensionality a; extensionality b;
    extensionality c; extensionality d.
  unfold detect_route_backtracking. rewrite hav_ext. reflexivity.
Qed.

Lemma get_route_from_osrm_ext :
  get_route_from_osrm hd1 w = get_route_from_osrm hd2 w.
Proof.
  extensionality n; extensionality a; extensionality b;
    extensionality c; extensionality d; extensionality wp.
  unfold get_route_from_osrm, osrm_route_entry. rewrite hav_ext. reflexivity.
Qed.

Lemma direct_step_ext (preferences : Preferences) (a b c d : R) :
  direct_step hd1 w preferences a b c d = direct_step hd2 w preferences a b c d.
Proof.
  extensionality st; extensionality entry.
  unfold direct_step.
  rewrite validate_route_connectivity_ext, detect_route_backtracking_ext.
  reflexivity.
Qed.

Lemma waypoint_routes_loop_ext (preferences : Preferences) (a b c d : R)
    (l : list Geometry) (st : Explore) :
  waypoint_routes_loop hd1 w preferences a b c d l st
  = waypoint_routes_loop hd2 w preferences a b c d l st.
Proof.
  revert st. induction l as [| g rest IH]; intros st;
    cbn [waypoint_routes_loop]; [reflexivity |].
  cbv zeta.
  rewrite validate_route_connectivity_ext, detect_route_backtracking_ext.
  destruct (negb (validate_route_connectivity hd2 _ _)); [apply IH |].
  destruct (negb (detect_route_backtracking hd2 _ _ _ _ _)); [apply IH |].
  destruct (fresh_hash _ _); [| apply IH].
  destruct (calculate_route_safety_comprehensive _ _ _); [| apply IH].
  destruct (prefer_main_roads preferences && _); [apply IH |].
  destruct (max_waypoints <=? _)%nat; [reflexivity | apply IH].
Qed.

Lemma waypoint_step_ext (preferences : Preferences) (a b c d : R) :
  waypoint_step hd1 w preferences a b c d = waypoint_step hd2 w preferences a b c d.
Proof.
  extensionality bd; extensionality pl; extensionality pn;
    extensionality position; extensionality offset; extensionality direction;
    extensionality st.
  unfold waypoint_step. rewrite hav_ext, get_route_from_osrm_ext.
  cbv zeta.
  destruct (negb _); [reflexivity |].
  destruct (gtb _ (Fin 1.8)); [reflexivity |].
  destruct (get_route_from_osrm hd2 w _ _ _ _ _ _) as [wr calls'].
  apply waypoint_routes_loop_ext.
Qed.

Lemma collect_candidates_ext (preferences : Preferences) (a b c d : R) :
  collect_candidates hd1 w preferences a b c d
  = collect_candidates hd2 w preferences a b c d.
Proof.
  unfold collect_candidates.
  rewrite get_route_from_osrm_ext, direct_step_ext, hav_ext, waypoint_step_ext.
  reflexivity.
Qed.

End SameOnFloats.

Lemma composite_scores_agree_without_main_roads (r : RouteDict)
    (preferences : Preferences) :
  prefer_main_roads preferences = false ->
  Routes.calculate_composite_score r preferences
  = App.calculate_composite_score r preferences.
Proof.
  intros H.
  unfold Routes.calculate_composite_score, App.calculate_composite_score,
    Routes.preference_bonus, App.preference_bonus.
  rewrite H. reflexivity.
Qed.

Lemma parsed_main_roads_flag (data : RequestJson) (preferences : Preferences) :
  parse_preferences data = Ret preferences ->
  main_roads_not_requested data ->
  prefer_main_roads preferences = false.
Proof.
  unfold parse_preferences, main_roads_not_requested. cbv zeta.
  destruct (match req_safety_weight data with
            | Some x => py_float x
            | None => Ret 0.7
            end) as [sw | e]; cbn [bind]; [| discriminate].
  destruct (match req_distance_weight data with
            | Some x => py_float x
            | None => Ret 0.3
            end) as [dw | e]; cbn [bind]; [| discriminate].
  intros [= <-]. cbn [prefer_main_roads].
  destruct (req_prefer_main_roads data); [intros H; exact H | reflexivity].
Qed.

Lemma request_pool_agree (w : World) (preferences : Preferences) (a b c d : R) :
  prefer_main_roads preferences = false ->
  request_pool Routes.haversine_distance Routes.calculate_composite_score
    w preferences a b c d
  = request_pool App.haversine_distance App.calculate_composite_score
      w preferences a b c d.
Proof.
  intros H. unfold request_pool.
  rewrite (collect_candidates_ext Routes.haversine_distance
             App.haversine_distance routes_haversine_floats).
  f_equal. apply map_ext. intros r. unfold score_route.
  rewrite (composite_scores_agree_without_main_roads r preferences H).
  reflexivity.
Qed.

(** X18.  The optimizer of [app/routes.py] and the one of [app.py] agree
    on every request that does not ask for main roads: unless
    [app/routes.py] answers with a fallback route, the two answers are
    the same, and where it does fall back [app.py] answers 404. *)
Theorem handlers_differ_only_in_fallback (w : World) (data : RequestJson) :
  main_roads_not_requested data ->
  (is_fallback_of (Routes.api_optimize_route w data) = false ->
   Routes.api_optimize_route w data = App.optimize_route w data)
  /\ (is_fallback_of (Routes.api_optimize_route w data) = true ->
      exists err, App.optimize_route w data = Failure 404 err).
Proof.
  intros Hm.
  unfold Routes.api_optimize_route, App.optimize_route.
  destruct (parse_coordinates data) as [answer | [[[a b] c] d]] eqn:Hp.
  { apply parse_coordinates_failure in Hp as [s [e ->]]. cbn.
    split; [reflexivity | discriminate]. }
  destruct (parse_preferences data) as [preferences | e] eqn:Hpref;
    cbn [bind handle]; [| cbn; split; [reflexivity | discriminate]].
  pose proof (parsed_main_roads_flag data preferences Hpref Hm) as Hflag.
  destruct (negb _); [cbn; split; [reflexivity | discriminate] |].
  rewrite (collect_candidates_ext Routes.haversine_distance
             App.haversine_distance routes_haversine_floats).
  destruct (length _ =? 0)%nat.
  { cbn [handle]. split.
    - unfold Routes.empty_pool_answer.
      destruct (get_route_from_osrm _ _ _ _ _ _ _ _) as [fb n].
      destruct (truthy_routes fb); [reflexivity | cbn; discriminate].
    - intros _. eexists; reflexivity. }
  pose proof (request_pool_agree w preferences a b c d Hflag) as Hpool.
  unfold request_pool in Hpool.
  rewrite (collect_candidates_ext Routes.haversine_distance
             App.haversine_distance routes_haversine_floats) in Hpool.
  rewrite Hpool.
  match goal with
  | |- context [guardrail_loop w (now w) ?pool []] =>
      destruct (guardrail_loop w (now w) pool []) as [validated | e];
        cbn [bind handle]; [| cbn; split; [reflexivity | discriminate]];
        destruct (length validated =? 0)%nat; cbn [handle];
        [destruct pool as [| best rest]; cbn;
           [split; [reflexivity | discriminate]
           | split; [discriminate | intros _; eexists; reflexivity]]
        | cbn; split; [reflexivity | discriminate]]
  end.
Qed.

Lemma handlers_on_the_night_request :
  (is_fallback_of (Routes.api_optimize_route night_world demo_request) = false ->
   Routes.api_optimize_route night_world demo_request
   = App.optimize_route night_world demo_request)
  /\ (is_fallback_of (Routes.api_optimize_route night_world demo_request) = true ->
      exists err, App.optimize_route night_world demo_request = Failure 404 err).
Proof.
  apply (handlers_differ_only_in_fallback night_world demo_request).
  exact I.
Defined.

(** ** The answer of the optimizer *)

Lemma nth_error_combine_seq {A : Type} (l : list A) (s i : nat) :
  nth_error (combine (seq s (length l)) l) i
  = option_map (fun x => ((s + i)%nat, x)) (nth_error l i).
Proof.
  revert s i. induction l as [| x t IH]; intros s i; cbn [length seq combine].
  - destruct i; reflexivity.
  - destruct i as [| i]; cbn [nth_error option_map].
    + rewrite Nat.add_0_r. reflexivity.
    + rewrite IH. replace (S s + i)%nat with (s + S i)%nat by lia. reflexivity.
Qed.

Lemma nth_error_enumerate {A : Type} (l : list A) (i : nat) :
  nth_error (enumerate l) i = option_map (fun x => (i, x)) (nth_error l i).
Proof. unfold enumerate. apply nth_error_combine_seq. Qed.

Lemma curate_nth (w : World) (validated : list RouteDict) (i : nat)
    (r : RouteDict) :
  nth_error (curate w validated) i = Some r ->
  exists x, nth_error (firstn 7 validated) i = Some x
            /\ r = curate_route w (firstn 7 validated) (i, x).
Proof.
  unfold curate. rewrite nth_error_map, nth_error_enumerate.
  destruct (nth_error (firstn 7 validated) i) as [x |]; cbn; [| discriminate].
  intros [= <-]. exists x. split; reflexivity.
Qed.

Lemma category_best_only_first (final : list RouteDict) (i : nat)
    (x : RouteDict) :
  fst (category_of final i x) = "best"%string <-> i = 0%nat.
Proof.
  unfold category_of. destruct i as [| i]; cbn [Nat.eqb].
  - split; reflexivity.
  - split; [| discriminate].
    destruct (Rleb _ 1.5 && Rleb _ 3); [cbn; discriminate |].
    destruct (Rleb _ _); [cbn; discriminate |].
    destruct (Rgeb _ 70); cbn; discriminate.
Qed.

Lemma curated_label (w : World) (validated : list RouteDict) (i : nat)
    (r : RouteDict) :
  nth_error (curate w validated) i = Some r ->
  labelled_at i r
  /\ rd_composite_score r = None
  /\ rd_has_waypoint_key r = false
  /\ (category_of_route r = Some "best"%string <-> i = 0%nat).
Proof.
  intros H. apply curate_nth in H as (x & _ & ->).
  unfold curate_route, category_of_route.
  pose proof (category_best_only_first (firstn 7 validated) i x) as Hc.
  destruct (category_of (firstn 7 validated) i x) as [cat descr].
  cbn [fst] in Hc. cbn.
  split; [| split; [reflexivity | split; [reflexivity |]]].
  - eexists. split; [reflexivity |]. split; cbn; [lia | reflexivity].
  - rewrite <- Hc. split; [intros [= E]; exact E | intros ->; reflexivity].
Qed.

(** X19.  In every answer of either endpoint the route at position [i]
    carries rank [i + 1] and is the recommended one exactly when it comes
    first.  In the answers of [app.py] the returned routes carry neither
    ['composite_score'] nor ['waypoint'], and the category "best" goes to
    the first route and to no other. *)
Theorem answer_ranks_follow_positions (w : World) (data : RequestJson)
    (i : nat) (r : RouteDict) :
  (nth_error (routes_of (App.optimize_route w data)) i = Some r ->
   labelled_at i r
   /\ rd_composite_score r = None
   /\ rd_has_waypoint_key r = false
   /\ (category_of_route r = Some "best"%string <-> i = 0%nat))
  /\ (nth_error (routes_of (Routes.api_optimize_route w data)) i = Some r ->
      labelled_at i r).
Proof.
  split.
  - destruct (app_outcome w data)
      as [(s & e & ->) | (p & a & b & c & d & v & _ & _ & ->)].
    + cbn. destruct i; discriminate.
    + cbn [regular_answer routes_of]. apply curated_label.
  - destruct (routes_outcome w data)
      as [(s & e & ->) | [(p & g & msg & ->)
                         | [(p & a & b & c & d & best & n & msg & _ & ->)
                           | (p & a & b & c & d & v & _ & _ & ->)]]].
    + cbn. destruct i; discriminate.
    + cbn [routes_of]. destruct i as [| i]; [| destruct i; discriminate].
      intros [= <-]. unfold Routes.direct_fallback_route.
      destruct (calculate_route_safety_comprehensive _ _ _);
        (eexists; split; [reflexivity | split; reflexivity]).
    + cbn [routes_of]. destruct i as [| i]; [| destruct i; discriminate].
      intros [= <-]. unfold Routes.best_available_route.
      eexists; split; [reflexivity | split; reflexivity].
    + cbn [regular_answer routes_of]. intros H.
      apply (curated_label w v i r H).
Qed.









(** ** More on the guardrail engine *)

Section MoreGuardrailFacts.

Variable lib : PyLib.
Variable now : DateTime.

Lemma time_factor_spec_range (h e : Z) :
  0.5 <= time_factor_spec h e <= 1.
Proof.
  unfold time_factor_spec.
  destruct (in_late_night h), (in_early_morning h), (in_late_night e);
    cbn [negb andb]; lra.
Qed.

Lemma guardrails_score_bounds (info : Guardrails.RouteInfo) (score : R)
    (t : DateTime) (cd ld pd : option DataFrame) :
  match Guardrails.apply_safety_guardrails lib now info score (Some t) cd ld pd with
  | Ret (_, adjusted, _) =>
      exists k, 0.448 <= k <= 1
        /\ adjusted
           = np_clip (score
                      * time_factor_spec (hour t)
                          (fromtimestamp_hour lib
                             (timestamp t
                              + match Guardrails.info_duration info with
                                | Some d => d | None => 0 end))
                      * k) 0 100
  | Raise _ => True
  end.
Proof.
  unfold Guardrails.apply_safety_guardrails; cbv zeta.
  rewrite <- (check_time_factor lib t).
  destruct (Guardrails.check_time_based_safety lib t _) as [[ts tf] tw].
  cbn [fst snd].
  set (coords := Guardrails.extract_route_coords _).
  destruct (0 <? length coords)%nat, cd as [cd |], ld as [ld |], pd as [pd |];
    cbn [bind];
    repeat match goal with
           | |- context [bind ?m _] =>
               destruct m as [[[? ?] ?] |]; cbn [bind]; try exact I
           end;
    repeat match goal with
           | |- context [negb ?b] => destruct b; cbn [negb andb]
           end;
    repeat match goal with
           | |- context [if ?c then _ * 0.8 else _] => destruct c
           end;
    first [ exists 1; split; [lra | f_equal; ring]
          | exists 0.7; split; [lra | f_equal; ring]
          | exists 0.8; split; [lra | f_equal; ring]
          | exists (0.7 * 0.8); split; [lra | f_equal; ring]
          | exists (0.8 * 0.8); split; [lra | f_equal; ring]
          | exists (0.7 * 0.8 * 0.8); split; [lra | f_equal; ring] ].
Qed.

Lemma check_time_no_warning (t : DateTime) (dur : R) :
  snd (Guardrails.check_time_based_safety lib t dur) = [] ->
  snd (fst (Guardrails.check_time_based_safety lib t dur)) = 1
  /\ (7 <= hour t < 23)%Z.
Proof.
  unfold Guardrails.check_time_based_safety; cbv zeta.
  destruct ((23 <=? hour t)%Z || (hour t <? 5)%Z) eqn:L; cbn [negb andb].
  - cbn. discriminate.
  - destruct ((5 <=? hour t)%Z && (hour t <? 7)%Z) eqn:E.
    + destruct ((23 <=? fromtimestamp_hour lib _)%Z || _); cbn; discriminate.
    + destruct ((23 <=? fromtimestamp_hour lib _)%Z || _); cbn; [discriminate |].
      intros _. split; [reflexivity |].
      apply orb_false_elim in L as [L1 L2].
      apply Z.leb_gt in L1. apply Z.ltb_ge in L2.
      apply andb_false_iff in E as [E | E];
        [apply Z.leb_gt in E | apply Z.ltb_ge in E]; lia.
Qed.

Lemma crime_check_warns_iff_unsafe (coords : list (R * R)) (df : DataFrame)
    (thr : R) (mx : nat) (s : bool) (c : nat) (ws : list string) :
  Guardrails.check_crime_hotspots lib coords df thr mx = Ret (s, c, ws) ->
  (ws = [] <-> s = true).
Proof.
  unfold Guardrails.check_crime_hotspots.
  destruct (fold_left _ coords (Ret (0%nat, []))) as [[mc hl] | e];
    cbn [bind]; [| discriminate].
  intros [= <- <- <-].
  destruct (mc <=? mx)%nat; cbn [negb]; split; try reflexivity; discriminate.
Qed.

Lemma lighting_check_warns_iff_unsafe (coords : list (R * R)) (df : DataFrame)
    (mn : nat) (s : bool) (avg : R) (ws : list string) :
  Guardrails.check_lighting_coverage lib coords df mn = Ret (s, avg, ws) ->
  (ws = [] <-> s = true).
Proof.
  unfold Guardrails.check_lighting_coverage.
  destruct (fold_left _ coords (Ret ([], 0%nat))) as [[lc pl] | e];
    cbn [bind]; [| discriminate].
  intros [= <- <- <-].
  destruct (Rltb _ 30); cbn [negb]; split; try reflexivity; discriminate.
Qed.

Lemma isolation_check_warns_iff_unsafe (coords : list (R * R)) (df : DataFrame)
    (mn : nat) (s : bool) (avg : R) (ws : list string) :
  Guardrails.check_isolated_areas lib coords df mn = Ret (s, avg, ws) ->
  (ws = [] <-> s = true).
Proof.
  unfold Guardrails.check_isolated_areas.
  destruct (fold_left _ coords (Ret ([], 0%nat))) as [[ps iso] | e];
    cbn [bind]; [| discriminate].
  intros [= <- <- <-].
  destruct (Rltb _ 75); cbn [negb]; split; try reflexivity; discriminate.
Qed.

Lemma guardrails_silent (info : Guardrails.RouteInfo) (score : R)
    (t : DateTime) (cd ld pd : option DataFrame) :
  match Guardrails.apply_safety_guardrails lib now info score (Some t) cd ld pd with
  | Ret (_, adjusted, warnings) =>
      warnings = [] ->
      adjusted = np_clip score 0 100 /\ (7 <= hour t < 23)%Z
  | Raise _ => True
  end.
Proof.
  unfold Guardrails.apply_safety_guardrails; cbv zeta.
  pose proof (check_time_no_warning t
                (match Guardrails.info_duration info with
                 | Some d => d | None => 0 end)) as Ht.
  destruct (Guardrails.check_time_based_safety lib t _) as [[ts tf] tw].
  cbn [fst snd] in *.
  set (coords := Guardrails.extract_route_coords _).
  assert (Hone : forall x, x * 1 = x) by (intros; ring).
  destruct (0 <? length coords)%nat;
    destruct cd as [cd |], ld as [ld |], pd as [pd |]; cbn [bind];
    repeat match goal with
           | |- context [bind (Guardrails.check_crime_hotspots lib coords ?df ?x ?y) _] =>
               let H := fresh "Hc" in
               pose proof (crime_check_warns_iff_unsafe coords df x y) as H;
               destruct (Guardrails.check_crime_hotspots lib coords df x y)
                 as [[[? ?] ?] | ?]; cbn [bind];
               [specialize (H _ _ _ eq_refl) | exact I]
           | |- context [bind (Guardrails.check_lighting_coverage lib coords ?df ?x) _] =>
               let H := fresh "Hl" in
               pose proof (lighting_check_warns_iff_unsafe coords df x) as H;
               destruct (Guardrails.check_lighting_coverage lib coords df x)
                 as [[[? ?] ?] | ?]; cbn [bind];
               [specialize (H _ _ _ eq_refl) | exact I]
           | |- context [bind (Guardrails.check_isolated_areas lib coords ?df ?x) _] =>
               let H := fresh "Hp" in
               pose proof (isolation_check_warns_iff_unsafe coords df x) as H;
               destruct (Guardrails.check_isolated_areas lib coords df x)
                 as [[[? ?] ?] | ?]; cbn [bind];
               [specialize (H _ _ _ eq_refl) | exact I]
           end;
    intros Hw;
    repeat match type of Hw with
           | _ ++ _ = [] => apply app_eq_nil in Hw; destruct Hw as [Hw ?]
           end;
    destruct (Ht Hw) as [-> Hh];
    repeat match goal with
           | H : ?ws = [] <-> ?s = true, H' : ?ws = [] |- _ =>
               rewrite (proj1 H H'); clear H
           end;
    cbn [negb andb]; rewrite Hone; (split; [reflexivity | exact Hh]).
Qed.

Lemma isolation_fold_raise (df : DataFrame) (mn : nat) (l : list (R * R))
    (e : exn) :
  fold_left
    (fun acc '(lat, lon) =>
       '(population_scores, isolated_segments) <- acc ;;
       nearby_pop <- df_nearby df lat lon 0.005 ;;
       pop_score <-
         (if (0 <? df_len nearby_pop)%nat
          then df_mean nearby_pop "population"
          else Ret 0) ;;
       Ret (population_scores ++ [pop_score],
            if Rltb pop_score (INR mn)
            then S isolated_segments else isolated_segments))
    l (Raise e) = Raise e.
Proof. induction l as [| [lat lon] t IH]; [reflexivity | exact IH]. Qed.

Lemma df_nearby_outcome (df : DataFrame) (lat lon radius : R) :
  match df_nearby df lat lon radius with
  | Ret near => df_columns near = df_columns df
  | Raise e => e = KeyError
  end.
Proof.
  unfold df_nearby.
  destruct (has_column df "Latitude" && has_column df "Longitude"); reflexivity.
Qed.

Lemma isolation_fold_without_column (df : DataFrame) (mn : nat)
    (l : list (R * R)) (k : nat) :
  has_column df "population" = false -> (1 <= mn)%nat ->
  match
    fold_left
      (fun acc '(lat, lon) =>
         '(population_scores, isolated_segments) <- acc ;;
         nearby_pop <- df_nearby df lat lon 0.005 ;;
         pop_score <-
           (if (0 <? df_len nearby_pop)%nat
            then df_mean nearby_pop "population"
            else Ret 0) ;;
         Ret (population_scores ++ [pop_score],
              if Rltb pop_score (INR mn)
              then S isolated_segments else isolated_segments))
      l (Ret (repeat 0 k, k))
  with
  | Ret (ps, iso) => ps = repeat 0 (k + length l) /\ iso = (k + length l)%nat
  | Raise e => e = KeyError
  end.
Proof.
  intros Hcol Hmn. revert k.
  induction l as [| [lat lon] t IH]; intros k; cbn [fold_left length].
  - rewrite Nat.add_0_r. split; reflexivity.
  - cbn [bind].
    pose proof (df_nearby_outcome df lat lon 0.005) as Hn.
    destruct (df_nearby df lat lon 0.005) as [near | e]; cbn [bind].
    + destruct (0 <? df_len near)%nat.
      * unfold df_mean, has_column. rewrite Hn.
        unfold has_column in Hcol. rewrite Hcol. cbn [bind].
        rewrite isolation_fold_raise. reflexivity.
      * cbn [bind].
        assert (Hlt : Rltb 0 (INR mn) = true).
        { apply Rltb_true. apply lt_0_INR. lia. }
        rewrite Hlt.
        replace (repeat 0 k ++ [0]) with (repeat 0 (S k))
          by (rewrite <- repeat_cons; reflexivity).
        specialize (IH (S k)).
        replace (k + S (length t))%nat with (S k + length t)%nat by lia.
        exact IH.
    + rewrite isolation_fold_raise. exact Hn.
Qed.

Lemma Rsum_repeat_0 (n : nat) : Rsum (repeat 0 n) = 0.
Proof.
  unfold Rsum.
  assert (H : forall acc, fold_left Rplus (repeat 0 n) acc = acc).
  { induction n as [| n IH]; intros acc; cbn [repeat fold_left];
      [reflexivity |]. rewrite IH. ring. }
  apply H.
Qed.

End MoreGuardrailFacts.

(** X22.  For a score between 0 and 100 the guardrail engine only ever
    lowers the score, and never below 22.4 percent of it: the adjusted
    score lies between [0.224 * score] and [score].  Without datasets the
    engine always answers. *)
Theorem guardrails_only_lower_the_score (lib : PyLib) (now : DateTime)
    (info : Guardrails.RouteInfo) (score : R) (t : DateTime)
    (cd ld pd : option DataFrame) :
  0 <= score <= 100 ->
  match Guardrails.apply_safety_guardrails lib now info score (Some t) cd ld pd with
  | Ret (_, adjusted, _) => 0.224 * score <= adjusted <= score
  | Raise _ => True
  end
  /\ exists verdict adjusted warnings,
       Guardrails.apply_safety_guardrails lib now info score (Some t)
         None None None = Ret (verdict, adjusted, warnings)
       /\ 0.224 * score <= adjusted <= score.
Proof.
  intros Hs.
  assert (Hform : forall cd ld pd,
            match Guardrails.apply_safety_guardrails lib now info score
                    (Some t) cd ld pd with
            | Ret (_, adjusted, _) => 0.224 * score <= adjusted <= score
            | Raise _ => True
            end).
  { intros cd' ld' pd'.
    pose proof (guardrails_score_bounds lib now info score t cd' ld' pd') as H.
    destruct (Guardrails.apply_safety_guardrails lib now info score (Some t)
                cd' ld' pd') as [[[v adj] ws] | e]; [| exact I].
    destruct H as (k & Hk & ->).
    match goal with
    | |- context [time_factor_spec ?h ?e] =>
        pose proof (time_factor_spec_range h e) as Hf;
        set (f := time_factor_spec h e) in *
    end.
    assert (Hfk : 0.224 <= f * k <= 1) by nra.
    assert (Hx : 0.224 * score <= score * f * k <= score) by nra.
    rewrite np_clip_id by lra. exact Hx. }
  split; [apply Hform |].
  specialize (Hform None None None).
  rewrite guardrails_without_data in *. cbv zeta in *.
  eexists; eexists; eexists. split; [reflexivity | exact Hform].
Qed.

Lemma guardrails_lower_a_score_of_80 :
  match Guardrails.apply_safety_guardrails demo_lib (mkDateTime 1 0 0)
          (guardrail_argument main_road_route) 80 (Some (mkDateTime 6 0 0))
          (Some no_crimes) (Some no_lights) (Some no_people) with
  | Ret (_, adjusted, _) => 0.224 * 80 <= adjusted <= 80
  | Raise _ => True
  end
  /\ exists verdict adjusted warnings,
       Guardrails.apply_safety_guardrails demo_lib (mkDateTime 1 0 0)
         (guardrail_argument main_road_route) 80 (Some (mkDateTime 6 0 0))
         None None None = Ret (verdict, adjusted, warnings)
       /\ 0.224 * 80 <= adjusted <= 80.
Proof.
  apply (guardrails_only_lower_the_score demo_lib (mkDateTime 1 0 0)
           (guardrail_argument main_road_route) 80 (mkDateTime 6 0 0)
           (Some no_crimes) (Some no_lights) (Some no_people)).
  lra.
Defined.

(** X23.  [validate_route_safety] reports a route safe exactly when no
    guardrail produced a warning; then the adjusted score is the neutral
    50 it started from and the current hour lies between 7:00 and 22:59,
    so the 40-point threshold never decides.  Without datasets it always
    answers. *)
Theorem validate_route_safety_passes_only_silent_routes (lib : PyLib)
    (now : DateTime) (info : Guardrails.RouteInfo)
    (cd ld pd : option DataFrame) (t : DateTime) :
  match Guardrails.validate_route_safety lib now info cd ld pd (Some t) with
  | Ret (is_safe, (adjusted, warnings)) =>
      (is_safe = true <-> warnings = [])
      /\ (is_safe = true -> adjusted = 50 /\ (7 <= hour t < 23)%Z)
  | Raise _ => True
  end
  /\ exists answer,
       Guardrails.validate_route_safety lib now info None None None (Some t)
       = Ret answer.
Proof.
  split.
  - unfold Guardrails.validate_route_safety.
    pose proof (guardrails_silent lib now info 50 t cd ld pd) as H.
    destruct (Guardrails.apply_safety_guardrails lib now info 50 (Some t)
                cd ld pd) as [[[v adj] ws] | e]; cbn [bind]; [| exact I].
    assert (Hclip : np_clip 50 0 100 = 50) by (apply np_clip_id; lra).
    rewrite Hclip in H.
    assert (Hsilent : ws = [] -> (length ws =? 0)%nat && Rgeb adj 40 = true).
    { intros Hw. destruct (H Hw) as [-> _]. subst ws. cbn [length Nat.eqb andb].
      unfold Rgeb. apply Rleb_true. lra. }
    assert (Hback : (length ws =? 0)%nat && Rgeb adj 40 = true -> ws = []).
    { intros Hb. apply andb_prop in Hb as [Hb _].
      destruct ws; [reflexivity | discriminate]. }
    split.
    + split; [exact Hback | exact Hsilent].
    + intros Hb. apply H, Hback, Hb.
  - unfold Guardrails.validate_route_safety.
    rewrite guardrails_without_data. cbv zeta. cbn [bind].
    eexists; reflexivity.
Qed.

(** X24.  [check_isolated_areas] reads the column ['population']; on a
    population frame without that column (the frames of the engine carry
    ['population_density']) it can never pass a route: for a non-empty
    coordinate list and a positive threshold it either raises [KeyError]
    or reports the route unsafe with average population 0 and a
    warning. *)
Theorem isolation_check_needs_population_column (lib : PyLib)
    (route_coords : list (R * R)) (population_data : DataFrame)
    (min_population : nat) :
  has_column population_data "population" = false ->
  route_coords <> [] ->
  (1 <= min_population)%nat ->
  match Guardrails.check_isolated_areas lib route_coords population_data
          min_population with
  | Ret (is_safe, avg_population, warnings) =>
      is_safe = false /\ avg_population = 0 /\ warnings <> []
  | Raise e => e = KeyError
  end.
Proof.
  intros Hcol Hne Hmn.
  unfold Guardrails.check_isolated_areas.
  pose proof (isolation_fold_without_column population_data min_population
                route_coords 0 Hcol Hmn) as H.
  cbn [repeat Nat.add] in H.
  destruct (fold_left _ route_coords (Ret ([], 0%nat))) as [[ps iso] | e];
    cbn [bind]; [| exact H].
  destruct H as [-> ->].
  destruct route_coords as [| p rest]; [contradiction |].
  cbn [length repeat].
  assert (Hn : 0 < INR (S (length rest))) by (apply lt_0_INR; lia).
  assert (Hpct : INR (S (length rest)) / INR (S (length rest)) * 100 = 100).
  { unfold Rdiv. rewrite Rinv_r by lra. lra. }
  rewrite Hpct.
  assert (H75 : Rltb 100 75 = false) by (apply Rltb_false; lra).
  rewrite H75. cbn [negb].
  split; [reflexivity |]. split; [| discriminate].
  change (0 :: repeat 0 (length rest)) with (repeat 0 (S (length rest))).
  rewrite Rsum_repeat_0. unfold Rdiv. ring.
Qed.

Lemma isolation_check_on_the_engine_frame :
  match Guardrails.check_isolated_areas demo_lib [(12.97, 77.59)] no_people 50 with
  | Ret (is_safe, avg_population, warnings) =>
      is_safe = false /\ avg_population = 0 /\ warnings <> []
  | Raise e => e = KeyError
  end.
Proof.
  apply (isolation_check_needs_population_column demo_lib
           [(12.97, 77.59)] no_people 50).
  - reflexivity.
  - discriminate.
  - lia.
Defined.

(** ** The ML step *)

(** X25.  [extract_route_features] guards its first two divisions (speed
    and crime per km are 0 for a non-positive duration or distance) but
    not the last two: it fails exactly when the lighting score or the
    population score is -1, and then with [ZeroDivisionError]. *)
Theorem feature_extraction_fails_only_on_minus_one (route : RouteDict)
    (safety_metrics : ML.MetricsArg) (current_time : DateTime) :
  ((exists features,
       ML.extract_route_features route safety_metrics current_time = Ret features)
   <-> ML.m_lighting_score safety_metrics <> -1
       /\ ML.m_population_score safety_metrics <> -1)
  /\ (forall e,
         ML.extract_route_features route safety_metrics current_time = Raise e ->
         e = ZeroDivisionError)
  /\ (forall features,
         ML.extract_route_features route safety_metrics current_time = Ret features ->
         (duration_min (rd_geometry route) <= 0 -> ML.f_speed_kmh features = 0)
         /\ (distance_km (rd_geometry route) <= 0 -> ML.f_crime_per_km features = 0)).
Proof.
  unfold ML.extract_route_features; cbv zeta.
  set (dist := distance_km (rd_geometry route)).
  set (dur := duration_min (rd_geometry route)).
  set (li := ML.m_lighting_score safety_metrics).
  set (po := ML.m_population_score safety_metrics).
  assert (Hspeed : exists s,
            (if Rgtb dur 0 then ML.fdiv dist (dur / 60) else Ret 0) = Ret s
            /\ (dur <= 0 -> s = 0)).
  { unfold Rgtb. destruct (Rltb 0 dur) eqn:E.
    - apply Rltb_spec in E. unfold ML.fdiv.
      destruct (Req_dec_T (dur / 60) 0) as [Hz | Hz]; [lra |].
      eexists; split; [reflexivity | lra].
    - exists 0; split; [reflexivity | reflexivity]. }
  destruct Hspeed as (s & -> & Hs). cbn [bind].
  assert (Hcpk : exists s',
            (if Rgtb dist 0 then ML.fdiv (ML.m_crime_density safety_metrics) dist
             else Ret 0) = Ret s'
            /\ (dist <= 0 -> s' = 0)).
  { unfold Rgtb. destruct (Rltb 0 dist) eqn:E.
    - apply Rltb_spec in E. unfold ML.fdiv.
      destruct (Req_dec_T dist 0) as [Hz | Hz]; [lra |].
      eexists; split; [reflexivity | lra].
    - exists 0; split; [reflexivity | reflexivity]. }
  destruct Hcpk as (s' & -> & Hs'). cbn [bind].
  unfold ML.fdiv.
  destruct (Req_dec_T (li + 1) 0) as [Hl | Hl]; cbn [bind].
  - split; [| split; [intros e [= <-]; reflexivity | discriminate]].
    split; [intros [f Hf]; discriminate | intros [H _]; lra].
  - destruct (Req_dec_T (po + 1) 0) as [Hp | Hp]; cbn [bind].
    + split; [| split; [intros e [= <-]; reflexivity | discriminate]].
      split; [intros [f Hf]; discriminate | intros [_ H]; lra].
    + split; [| split; [discriminate |]].
      * split; [intros _; split; lra | intros _; eexists; reflexivity].
      * intros f [= <-]. cbn [ML.f_speed_kmh ML.f_crime_per_km].
        split; assumption.
Qed.

Lemma prediction_range (model : option (ML.Features -> result R))
    (f : ML.Features) (m : R) :
  ML.predict_safety_score model f = Ret m -> 0 <= m <= 100.
Proof.
  unfold ML.predict_safety_score.
  destruct model as [predict |].
  - destruct (predict f) as [x | e]; [| discriminate].
    cbn. intros [= <-]. apply np_clip_bounds; lra.
  - intros [= <-]. apply np_clip_bounds; lra.
Qed.

(** X26.  The ML step of phase 3 can move a rule-based score in
    [[0, 100]] by at most 25 points: when a prediction is made the new
    score is [0.75 * rule + 0.25 * ml] with [ml] clipped to [[0, 100]]
    and the rule-based score kept under ['rule_score']; when ML is
    switched off or the step raises, the score is left as it was. *)
Theorem ml_blend_moves_score_at_most_25
    (cs : RouteDict -> Preferences -> R) (w : World)
    (preferences : Preferences) (t : DateTime) (r : RouteDict) :
  score_in_range r ->
  rd_ml_score r = None ->
  Rabs (rd_safety_score (score_route cs w preferences t r) - rd_safety_score r)
  <= 25
  /\ (rd_ml_score (score_route cs w preferences t r) = None ->
      rd_safety_score (score_route cs w preferences t r) = rd_safety_score r)
  /\ (forall ml,
         rd_ml_score (score_route cs w preferences t r) = Some ml ->
         0 <= ml <= 100
         /\ rd_safety_score (score_route cs w preferences t r)
            = 0.75 * rd_safety_score r + 0.25 * ml
         /\ rd_rule_score (score_route cs w preferences t r)
            = Some (rd_safety_score r))
  /\ (ML_AVAILABLE w = false ->
      score_route cs w preferences t r
      = set_composite_score r (Some (cs r preferences))).
Proof.
  intros [H0 H100] Hml.
  assert (Hsame : forall r' : RouteDict,
            r' = set_composite_score r (Some (cs r preferences)) ->
            Rabs (rd_safety_score r' - rd_safety_score r) <= 25
            /\ (rd_ml_score r' = None -> rd_safety_score r' = rd_safety_score r)
            /\ (forall ml, rd_ml_score r' = Some ml ->
                  0 <= ml <= 100
                  /\ rd_safety_score r' = 0.75 * rd_safety_score r + 0.25 * ml
                  /\ rd_rule_score r' = Some (rd_safety_score r))).
  { intros r' ->. cbn. rewrite Hml.
    split; [| split; [reflexivity | discriminate]].
    replace (rd_safety_score r - rd_safety_score r) with 0 by ring.
    rewrite Rabs_R0. lra. }
  unfold score_route.
  destruct (ML_AVAILABLE w).
  - unfold ml_blend.
    destruct (ML.extract_route_features _ _ _) as [f | e]; cbn [bind try_except].
    + destruct (ML.predict_safety_score (ml_model w) f) as [m | e] eqn:Em;
        cbn [bind try_except].
      * pose proof (prediction_range _ _ _ Em) as Hm. cbn.
        split; [| split; [discriminate | split; [| discriminate]]].
        -- apply Rabs_le. lra.
        -- intros ml [= <-]. repeat split; lra.
      * destruct (Hsame _ eq_refl) as (A & B & C).
        split; [exact A | split; [exact B | split; [exact C | discriminate]]].
    + destruct (Hsame _ eq_refl) as (A & B & C).
      split; [exact A | split; [exact B | split; [exact C | discriminate]]].
  - destruct (Hsame _ eq_refl) as (A & B & C).
    split; [exact A | split; [exact B | split; [exact C | reflexivity]]].
Qed.

Lemma heuristic_blend_of_main_road_route :
  Rabs (rd_safety_score
          (score_route App.calculate_composite_score heuristic_world
             default_preferences (now heuristic_world) main_road_route)
        - rd_safety_score main_road_route) <= 25
  /\ (rd_ml_score
        (score_route App.calculate_composite_score heuristic_world
           default_preferences (now heuristic_world) main_road_route) = None ->
      rd_safety_score
        (score_route App.calculate_composite_score heuristic_world
           default_preferences (now heuristic_world) main_road_route)
      = rd_safety_score main_road_route)
  /\ (forall ml,
         rd_ml_score
           (score_route App.calculate_composite_score heuristic_world
              default_preferences (now heuristic_world) main_road_route)
         = Some ml ->
         0 <= ml <= 100
         /\ rd_safety_score
              (score_route App.calculate_composite_score heuristic_world
                 default_preferences (now heuristic_world) main_road_route)
            = 0.75 * rd_safety_score main_road_route + 0.25 * ml
         /\ rd_rule_score
              (score_route App.calculate_composite_score heuristic_world
                 default_preferences (now heuristic_world) main_road_route)
            = Some (rd_safety_score main_road_route))
  /\ (ML_AVAILABLE heuristic_world = false ->
      score_route App.calculate_composite_score heuristic_world
        default_preferences (now heuristic_world) main_road_route
      = set_composite_score main_road_route
          (Some (App.calculate_composite_score main_road_route
                   default_preferences))).
Proof.
  apply (ml_blend_moves_score_at_most_25 App.calculate_composite_score
           heuristic_world default_preferences (now heuristic_world)
           main_road_route).
  - unfold score_in_range; cbn; lra.
  - reflexivity.
Defined.

(** ** The heatmap endpoints *)

Section HeatmapFacts.

Variable parse_float : string -> option R.

Lemma filter_twice {A : Type} (f : A -> bool) (l : list A) :
  filter f (filter f l) = filter f l.
Proof.
  induction l as [| x t IH]; cbn [filter]; [reflexivity |].
  destruct (f x) eqn:E; cbn [filter]; [rewrite E, IH; reflexivity | exact IH].
Qed.

(** Either the frame comes back as it was, or the four parts parsed, both
    columns exist and the rows inside the closed box were kept. *)
Lemma filter_bbox_outcome (df : DataFrame) (bbox : list string) :
  RoutesApi._filter_bbox parse_float df bbox = df
  \/ exists a b c d x1 y1 x2 y2,
       bbox = [a; b; c; d]
       /\ parse_float a = Some x1 /\ parse_float b = Some y1
       /\ parse_float c = Some x2 /\ parse_float d = Some y2
       /\ has_column df "Latitude" && has_column df "Longitude" = true
       /\ RoutesApi._filter_bbox parse_float df bbox
          = mkDataFrame (df_columns df)
              (filter (fun row =>
                         Rgeb (row "Latitude"%string) x1
                         && Rleb (row "Latitude"%string) x2
                         && Rgeb (row "Longitude"%string) y1
                         && Rleb (row "Longitude"%string) y2)
                      (df_rows df)).
Proof.
  unfold RoutesApi._filter_bbox.
  destruct (RoutesApi.df_empty df); [left; reflexivity |].
  destruct bbox as [| a [| b [| c [| d [| e rest]]]]]; try (left; reflexivity).
  unfold RoutesApi.str_value.
  destruct (parse_float a) as [x1 |] eqn:Ea; cbn [py_float bind try_except];
    [| left; reflexivity].
  destruct (parse_float b) as [y1 |] eqn:Eb; cbn [py_float bind try_except];
    [| left; reflexivity].
  destruct (parse_float c) as [x2 |] eqn:Ec; cbn [py_float bind try_except];
    [| left; reflexivity].
  destruct (parse_float d) as [y2 |] eqn:Ed; cbn [py_float bind try_except];
    [| left; reflexivity].
  destruct (has_column df "Latitude" && has_column df "Longitude") eqn:Hc;
    cbn [try_except]; [| left; reflexivity].
  right. exists a, b, c, d, x1, y1, x2, y2. repeat split; assumption || reflexivity.
Qed.

Lemma filter_bbox_unparsed (df : DataFrame) (bbox : list string) :
  length bbox <> 4%nat
  \/ (exists part, In part bbox /\ parse_float part = None) ->
  RoutesApi._filter_bbox parse_float df bbox = df.
Proof.
  intros H. unfold RoutesApi._filter_bbox.
  destruct (RoutesApi.df_empty df); [reflexivity |].
  destruct bbox as [| a [| b [| c [| d [| e rest]]]]]; try reflexivity.
  destruct H as [H | (part & Hin & Hp)]; [cbn in H; lia |].
  unfold RoutesApi.str_value.
  destruct (parse_float a) as [x1 |] eqn:Ea; cbn [py_float bind try_except];
    [| reflexivity].
  destruct (parse_float b) as [y1 |] eqn:Eb; cbn [py_float bind try_except];
    [| reflexivity].
  destruct (parse_float c) as [x2 |] eqn:Ec; cbn [py_float bind try_except];
    [| reflexivity].
  destruct (parse_float d) as [y2 |] eqn:Ed; cbn [py_float bind try_except];
    [| reflexivity].
  destruct Hin as [<- | [<- | [<- | [<- | []]]]]; congruence.
Qed.

Lemma heatmap_outcome (df : DataFrame) (bbox : option string)
    (columns : list string) (cap : nat) (cells : (string -> R) -> list R) :
  match RoutesApi.heatmap parse_float df bbox columns cap cells with
  | Ret answer =>
      RoutesApi.heat_total answer = length (RoutesApi.heat_data answer)
      /\ (RoutesApi.heat_total answer <= cap)%nat
      /\ Forall (fun cell => exists row, In row (df_rows df) /\ cell = cells row)
                (RoutesApi.heat_data answer)
  | Raise e => e = KeyError
  end.
Proof.
  unfold RoutesApi.heatmap. cbv zeta.
  assert (Hrows : forall row, In row (df_rows (RoutesApi.boxed parse_float df bbox))
                              -> In row (df_rows df)).
  { unfold RoutesApi.boxed.
    destruct bbox as [s |]; [| tauto].
    destruct (negb (s =? "")%string); [| tauto]. cbv zeta.
    destruct (length (RoutesApi.split_comma s) =? 4)%nat; [| tauto].
    destruct (filter_bbox_outcome df (RoutesApi.split_comma s))
      as [-> | (a & b & c & d & x1 & y1 & x2 & y2 & _ & _ & _ & _ & _ & _ & ->)];
      [tauto |].
    cbn [df_rows]. intros row Hin. apply filter_In in Hin as [Hin _]. exact Hin. }
  destruct (RoutesApi.df_empty _).
  - cbn. repeat split; [lia | constructor].
  - destruct (forallb _ columns); [| reflexivity].
    cbn [RoutesApi.heat_total RoutesApi.heat_data].
    split; [reflexivity |]. split.
    + rewrite length_map, length_firstn. lia.
    + apply Forall_forall. intros cell Hin.
      apply in_map_iff in Hin as (row & <- & Hin).
      exists row. split; [| reflexivity].
      apply Hrows.
      rewrite <- (firstn_skipn cap (df_rows (RoutesApi.boxed parse_float df bbox))).
      apply in_or_app. left. exact Hin.
Qed.

End HeatmapFacts.

(** X27.  [_filter_bbox] keeps the columns and only ever drops rows; when
    the four parts parse and both coordinate columns exist it keeps
    exactly the rows inside the closed box, in any other case (fewer or
    more than four parts, a part that is no number) it hands the frame
    back unfiltered; filtering twice changes nothing. *)
Theorem filter_bbox_keeps_rows_inside (parse_float : string -> option R)
    (df : DataFrame) (bbox : list string) :
  let out := RoutesApi._filter_bbox parse_float df bbox in
  df_columns out = df_columns df
  /\ (forall row, In row (df_rows out) -> In row (df_rows df))
  /\ RoutesApi._filter_bbox parse_float out bbox = out
  /\ (forall a b c d x1 y1 x2 y2,
         bbox = [a; b; c; d] ->
         parse_float a = Some x1 -> parse_float b = Some y1 ->
         parse_float c = Some x2 -> parse_float d = Some y2 ->
         has_column df "Latitude" && has_column df "Longitude" = true ->
         forall row,
           In row (df_rows out)
           <-> In row (df_rows df)
               /\ x1 <= row "Latitude"%string <= x2
               /\ y1 <= row "Longitude"%string <= y2)
  /\ (length bbox <> 4%nat
      \/ (exists part, In part bbox /\ parse_float part = None) ->
      out = df).
Proof.
  cbv zeta.
  assert (Hin_box : forall x1 y1 x2 y2 (row : string -> R),
            Rgeb (row "Latitude"%string) x1 && Rleb (row "Latitude"%string) x2
            && Rgeb (row "Longitude"%string) y1
            && Rleb (row "Longitude"%string) y2 = true
            <-> x1 <= row "Latitude"%string <= x2
                /\ y1 <= row "Longitude"%string <= y2).
  { intros. unfold Rgeb. rewrite !andb_true_iff, !Rleb_spec. tauto. }
  split; [| split; [| split; [| split]]].
  - destruct (filter_bbox_outcome parse_float df bbox)
      as [-> | (a & b & c & d & x1 & y1 & x2 & y2 & _ & _ & _ & _ & _ & _ & ->)];
      reflexivity.
  - destruct (filter_bbox_outcome parse_float df bbox)
      as [-> | (a & b & c & d & x1 & y1 & x2 & y2 & _ & _ & _ & _ & _ & _ & ->)];
      [tauto |].
    cbn [df_rows]. intros row Hin. apply filter_In in Hin as [Hin _]. exact Hin.
  - destruct (filter_bbox_outcome parse_float df bbox)
      as [E | (a & b & c & d & x1 & y1 & x2 & y2 & -> & Ea & Eb & Ec & Ed & Hc & E)].
    + rewrite !E. reflexivity.
    + rewrite E.
      unfold RoutesApi._filter_bbox at 1.
      destruct (RoutesApi.df_empty _); [reflexivity |].
      unfold RoutesApi.str_value. rewrite Ea, Eb, Ec, Ed.
      cbn [py_float bind]. unfold has_column in *. cbn [df_columns df_rows].
      rewrite Hc. cbn [try_except]. rewrite filter_twice. reflexivity.
  - intros a b c d x1 y1 x2 y2 -> Ea Eb Ec Ed Hc row.
    unfold RoutesApi._filter_bbox.
    destruct (RoutesApi.df_empty df) eqn:Hempty.
    + unfold RoutesApi.df_empty in Hempty.
      apply orb_true_iff in Hempty as [H | H]; apply Nat.eqb_eq in H.
      * unfold df_len in H. destruct (df_rows df); [| discriminate].
        cbn. tauto.
      * destruct (df_columns df) eqn:Ecols; [| discriminate].
        unfold has_column in Hc. rewrite Ecols in Hc. discriminate.
    + unfold RoutesApi.str_value. rewrite Ea, Eb, Ec, Ed.
      cbn [py_float bind]. rewrite Hc. cbn [try_except df_rows].
      rewrite filter_In, Hin_box. tauto.
  - apply filter_bbox_unparsed.
Qed.

(** X28.  The three heatmap endpoints of [app/routes.py] return at most
    2000 crime points and 5000 lighting or population points, each built
    from a row of the dataset, and report as total the number of points
    returned; the only failure is a [KeyError] on a frame that lacks a
    selected column.  A [bbox] with a part that is no number is ignored:
    the answer is the one given without [bbox]. *)
Theorem heatmaps_are_capped (parse_float : string -> option R) (w : World)
    (bbox : option string) :
  match RoutesApi.api_crime_heatmap parse_float w bbox with
  | Ret answer =>
      RoutesApi.heat_total answer = length (RoutesApi.heat_data answer)
      /\ (RoutesApi.heat_total answer <= 2000)%nat
      /\ Forall (fun cell =>
                   exists row, In row (df_rows (crime_data w))
                     /\ cell = [row "Latitude"%string; row "Longitude"%string])
                (RoutesApi.heat_data answer)
  | Raise e => e = KeyError
  end
  /\ match RoutesApi.api_lighting_heatmap parse_float w bbox with
     | Ret answer =>
         RoutesApi.heat_total answer = length (RoutesApi.heat_data answer)
         /\ (RoutesApi.heat_total answer <= 5000)%nat
     | Raise e => e = KeyError
     end
  /\ match RoutesApi.api_population_heatmap parse_float w bbox with
     | Ret answer =>
         RoutesApi.heat_total answer = length (RoutesApi.heat_data answer)
         /\ (RoutesApi.heat_total answer <= 5000)%nat
     | Raise e => e = KeyError
     end
  /\ (forall s,
         bbox = Some s ->
         (exists part, In part (RoutesApi.split_comma s)
                       /\ parse_float part = None) ->
         RoutesApi.api_crime_heatmap parse_float w bbox
         = RoutesApi.api_crime_heatmap parse_float w None).
Proof.
  split; [| split; [| split]].
  - unfold RoutesApi.api_crime_heatmap.
    pose proof (heatmap_outcome parse_float (crime_data w) bbox
                  ["Latitude"; "Longitude"]%string 2000
                  (fun row => [row "Latitude"%string; row "Longitude"%string]))
      as H.
    destruct (RoutesApi.heatmap _ _ _ _ _ _) as [answer | e]; exact H.
  - unfold RoutesApi.api_lighting_heatmap.
    match goal with
    | |- match RoutesApi.heatmap _ ?df _ ?cols ?cap ?cells with _ => _ end =>
        pose proof (heatmap_outcome parse_float df bbox cols cap cells) as H;
        destruct (RoutesApi.heatmap parse_float df bbox cols cap cells)
          as [answer | e]; [tauto | exact H]
    end.
  - unfold RoutesApi.api_population_heatmap.
    match goal with
    | |- match RoutesApi.heatmap _ ?df _ ?cols ?cap ?cells with _ => _ end =>
        pose proof (heatmap_outcome parse_float df bbox cols cap cells) as H;
        destruct (RoutesApi.heatmap parse_float df bbox cols cap cells)
          as [answer | e]; [tauto | exact H]
    end.
  - intros s -> Hbad.
    unfold RoutesApi.api_crime_heatmap, RoutesApi.heatmap, RoutesApi.boxed.
    destruct (negb (s =? "")%string); [| reflexivity]. cbv zeta.
    destruct (length (RoutesApi.split_comma s) =? 4)%nat; [| reflexivity].
    rewrite filter_bbox_unparsed by (right; exact Hbad). reflexivity.
Qed.

(** ** [/api/calculate-route] *)

(** X29.  [api_calculate_route] never answers with a route.  It calls
    [calculate_route_safety_comprehensive] with four positional arguments
    and [preferences] again by keyword, although the function takes
    [(route, preferences=None)]; the [TypeError] is caught by the
    endpoint's own handler, so every request ends in an error answer
    with status 404 or 500. *)
Theorem calculate_route_never_succeeds (w : World)
    (http_get : OsrmQuery -> result RoutesApi.HttpResponse)
    (data : RequestJson) :
  exists status error,
    RoutesApi.api_calculate_route w http_get data
    = RoutesApi.CalcError status error
    /\ (status = 404%nat \/ status = 500%nat).
Proof.
  unfold RoutesApi.api_calculate_route. cbv zeta.
  repeat match goal with
         | |- context [bind (py_float ?v) _] =>
             destruct (py_float v); cbn [bind try_except];
             [| eexists; eexists; split; [reflexivity | right; reflexivity]]
         end.
  destruct (http_get _) as [response | e]; cbn [bind try_except];
    [| eexists; eexists; split; [reflexivity | right; reflexivity]].
  destruct (negb _); cbn [try_except];
    [eexists; eexists; split; [reflexivity | right; reflexivity] |].
  destruct (RoutesApi.json response) as [route_data | e]; cbn [bind try_except];
    [| eexists; eexists; split; [reflexivity | right; reflexivity]].
  destruct (routes route_data) as [[| first rest] |]; cbn [try_except];
    try (eexists; eexists; split; [reflexivity | left; reflexivity]).
  destruct (geometry first); cbn [bind try_except];
    [| eexists; eexists; split; [reflexivity | right; reflexivity]].
  destruct (distance first); cbn [bind try_except];
    [| eexists; eexists; split; [reflexivity | right; reflexivity]].
  destruct (duration first); cbn [bind try_except];
    [| eexists; eexists; split; [reflexivity | right; reflexivity]].
  cbn. eexists; eexists; split; [reflexivity | right; reflexivity].
Qed.

(** ** The detour test *)

Lemma py_range_from_0_step_1 (m : nat) : py_range 0 m 1 = seq 0 m.
Proof.
  unfold py_range, py_range_len.
  rewrite Nat.sub_0_r, Nat.sub_diag, Nat.add_0_r, Nat.div_1_r.
  rewrite <- (map_id (seq 0 m)) at 2.
  apply map_ext. intros j. lia.
Qed.

Lemma actual_distance_is_polyline_length
    (haversine_distance : pyval -> pyval -> pyval -> pyval -> pyfloat)
    (route_points : list point) :
  fold_left
    (fun acc i =>
       add acc (hav haversine_distance
                  (fst (point_at route_points i))
                  (snd (point_at route_points i))
                  (fst (point_at route_points (i + 1)))
                  (snd (point_at route_points (i + 1)))))
    (py_range 0 (length route_points - 1) 1) (Fin 0)
  = polyline_length haversine_distance route_points.
Proof.
  rewrite py_range_from_0_step_1. unfold polyline_length.
  f_equal. extensionality acc. extensionality i.
  unfold gap_at, point_at. rewrite Nat.add_1_r. reflexivity.
Qed.

(** X30.  [detect_route_backtracking] never accepts a long way round: a
    route of at least five points that it accepts, for a trip whose ends
    are at least 0.1 km apart, is at most 1.3 times as long as the
    straight line between the requested ends.  Shorter routes and shorter
    trips are accepted without any test. *)
Theorem accepted_routes_are_no_detours
    (haversine_distance : pyval -> pyval -> pyval -> pyval -> pyfloat)
    (route_points : list point) (a b c d : R) :
  detect_route_backtracking haversine_distance route_points a b c d = true ->
  ((5 <= length route_points)%nat ->
   ltb (hav haversine_distance a b c d) (Fin 0.1) = false ->
   gtb (div (polyline_length haversine_distance route_points)
            (hav haversine_distance a b c d)) (Fin 1.3) = false)
  /\ (forall points,
         (length points < 5)%nat
         \/ ltb (hav haversine_distance a b c d) (Fin 0.1) = true ->
         detect_route_backtracking haversine_distance points a b c d = true).
Proof.
  intros H. split.
  - intros Hn Hd. unfold detect_route_backtracking in H.
    assert (E : (length route_points <? 5)%nat = false)
      by (apply Nat.ltb_ge; exact Hn).
    rewrite E, Hd in H. cbv zeta in H.
    rewrite actual_distance_is_polyline_length in H.
    destruct (gtb (div _ _) (Fin 1.3)); [discriminate H | reflexivity].
  - intros points [Hn | Hd]; unfold detect_route_backtracking.
    + apply Nat.ltb_lt in Hn. rewrite Hn. reflexivity.
    + destruct (length points <? 5)%nat; [reflexivity |].
      rewrite Hd. reflexivity.
Qed.

Section DetourFacts.

Variable haversine_distance : pyval -> pyval -> pyval -> pyval -> pyfloat.
Variable route_points : list point.
Variables end_lat end_lon : R.

Lemma progress_fold_steady (step : nat) (l : list nat) (counts : nat * nat) :
  (forall i, In i l ->
     ltb (sub (hav haversine_distance
                 (fst (point_at route_points i)) (snd (point_at route_points i))
                 end_lat end_lon)
              (hav haversine_distance
                 (fst (point_at route_points (i + step)))
                 (snd (point_at route_points (i + step)))
                 end_lat end_lon))
         (Fin 0.01) = false
     /\ ltb (sub (hav haversine_distance
                    (fst (point_at route_points i))
                    (snd (point_at route_points i))
                    end_lat end_lon)
                 (hav haversine_distance
                    (fst (point_at route_points (i + step)))
                    (snd (point_at route_points (i + step)))
                    end_lat end_lon))
            (Fin 0) = false) ->
  fold_left
    (fun '(backtrack_count, stagnant_count) i =>
       let current_point := point_at route_points i in
       let next_point := point_at route_points (i + step) in
       let current_to_dest :=
         hav haversine_distance (fst current_point) (snd current_point)
           end_lat end_lon in
       let next_to_dest :=
         hav haversine_distance (fst next_point) (snd next_point)
           end_lat end_lon in
       let progress := sub current_to_dest next_to_dest in
       if ltb progress (Fin 0) then (S backtrack_count, stagnant_count)
       else if ltb progress (Fin 0.01)
            then (backtrack_count, S stagnant_count)
            else (backtrack_count, stagnant_count))
    l counts = counts.
Proof.
  revert counts. induction l as [| i t IH]; intros [bc sc] H; cbn [fold_left];
    [reflexivity |].
  destruct (H i (or_introl eq_refl)) as [H1 H0].
  cbv zeta. rewrite H0, H1.
  apply IH. intros j Hj. apply H. right. exact Hj.
Qed.

Lemma deviation_fold_steady (start_lat start_lon : R) (direct : pyfloat)
    (l : list point) (dev : pyfloat) :
  (forall p, In p l ->
     gtb (hav haversine_distance start_lat start_lon (fst p) (snd p))
         (mul direct (Fin 0.7))
     && gtb (hav haversine_distance (fst p) (snd p) end_lat end_lon)
            (mul direct (Fin 0.7)) = false) ->
  fold_left
    (fun max_deviation '(lat, lon) =>
       let d_start := hav haversine_distance start_lat start_lon lat lon in
       let d_end := hav haversine_distance lat lon end_lat end_lon in
       if gtb d_start (mul direct (Fin 0.7))
          && gtb d_end (mul direct (Fin 0.7))
       then max max_deviation (min d_start d_end)
       else max_deviation)
    l dev = dev.
Proof.
  revert dev. induction l as [| [lat lon] t IH]; intros dev H; cbn [fold_left];
    [reflexivity |].
  pose proof (H (lat, lon) (or_introl eq_refl)) as Hp. cbn [fst snd] in Hp.
  cbv zeta. rewrite Hp.
  apply IH. intros q Hq. apply H. right. exact Hq.
Qed.

End DetourFacts.

Lemma meridian_hav (lat1 lat2 : R) :
  0 <= lat2 - lat1 <= 180 ->
  hav App.haversine_distance lat1 77.59 lat2 77.59
  = Fin ((lat2 - lat1) * (PI / 180) * 6371).
Proof. intros H. unfold hav. apply app_haversine_same_lon. exact H. Qed.

Lemma meridian_route_accepted :
  detect_route_backtracking App.haversine_distance (route meridian_geometry)
    12.97 77.59 12.975 77.59 = true.
Proof.
  pose proof PI_4 as Hpi. pose proof PI_gt_3 as Hpi3.
  unfold detect_route_backtracking.
  rewrite actual_distance_is_polyline_length.
  assert (Hdirect : hav App.haversine_distance 12.97 77.59 12.975 77.59
                    = Fin ((12.975 - 12.97) * (PI / 180) * 6371))
    by (apply meridian_hav; lra).
  rewrite Hdirect.
  assert (Hlen : polyline_length App.haversine_distance (route meridian_geometry)
                 = Fin ((12.975 - 12.97) * (PI / 180) * 6371)).
  { unfold polyline_length, gap_at.
    cbn [length route meridian_geometry Nat.sub seq fold_left nth fst snd].
    rewrite !meridian_hav by lra. cbn [add]. f_equal. lra. }
  rewrite Hlen.
  cbn [length route meridian_geometry Nat.ltb Nat.leb].
  assert (Hshort : ltb (Fin ((12.975 - 12.97) * (PI / 180) * 6371)) (Fin 0.1)
                   = false).
  { cbn [ltb]. apply Rltb_false. nra. }
  rewrite Hshort.
  assert (Hratio : gtb (div (Fin ((12.975 - 12.97) * (PI / 180) * 6371))
                            (Fin ((12.975 - 12.97) * (PI / 180) * 6371)))
                       (Fin 1.3) = false).
  { unfold gtb. cbn [div].
    destruct (Req_dec_T ((12.975 - 12.97) * (PI / 180) * 6371) 0) as [Hz | Hz];
      [reflexivity |].
    cbn [ltb]. apply Rltb_false.
    unfold Rdiv. rewrite Rinv_r by exact Hz. lra. }
  rewrite Hratio. cbv zeta.
  cbn [Nat.min Nat.max Nat.div Nat.divmod fst Nat.sub].
  rewrite progress_fold_steady.
  - cbn [py_range_len Nat.sub Nat.add Nat.div Nat.divmod fst INR].
    unfold Rgtb. rewrite !Rltb_false by lra.
    rewrite deviation_fold_steady.
    + unfold gtb. cbn [mul ltb]. apply Bool.if_negb || idtac.
      rewrite Rltb_false by nra. reflexivity.
    + intros p Hp. unfold py_stride in Hp.
      cbn [stride_from Nat.sub] in Hp.
      apply Bool.andb_false_iff.
      assert (Hcases : exists lat, p = (lat, 77.59) /\ 12.97 <= lat <= 12.975).
      { cbn [In] in Hp.
        destruct Hp as [<- | [<- | [<- | [<- | [<- | [<- | []]]]]]];
          eexists; (split; [reflexivity | lra]). }
      destruct Hcases as (lat & -> & Hlat). cbn [fst snd].
      rewrite !meridian_hav by lra.
      unfold gtb. cbn [mul ltb].
      destruct (Rle_lt_dec (lat - 12.97) (0.7 * (12.975 - 12.97))) as [H | H].
      * left. apply Rltb_false. nra.
      * right. apply Rltb_false. nra.
  - intros i Hi. unfold py_range, py_range_len in Hi.
    cbn [Nat.sub Nat.add Nat.div Nat.divmod fst seq map Nat.mul] in Hi.
    assert (Hc : (i = 0 \/ i = 1 \/ i = 2 \/ i = 3 \/ i = 4)%nat).
    { cbn [In] in Hi. lia. }
    destruct Hc as [-> | [-> | [-> | [-> | ->]]]];
      unfold point_at; cbn [nth Nat.add fst snd];
      rewrite !meridian_hav by lra; cbn [sub neg add ltb];
      split; apply Rltb_false; nra.
Qed.

Lemma meridian_route_is_no_detour :
  ((5 <= length (route meridian_geometry))%nat ->
   ltb (hav App.haversine_distance 12.97 77.59 12.975 77.59) (Fin 0.1) = false ->
   gtb (div (polyline_length App.haversine_distance (route meridian_geometry))
            (hav App.haversine_distance 12.97 77.59 12.975 77.59)) (Fin 1.3)
   = false)
  /\ (forall points,
         (length points < 5)%nat
         \/ ltb (hav App.haversine_distance 12.97 77.59 12.975 77.59) (Fin 0.1)
            = true ->
         detect_route_backtracking App.haversine_distance points
           12.97 77.59 12.975 77.59 = true).
Proof.
  apply (accepted_routes_are_no_detours App.haversine_distance
           (route meridian_geometry) 12.97 77.59 12.975 77.59).
  exact meridian_route_accepted.
Defined.
